(** * The DIMENSION subsystem of ezdxf: DIMSTYLE entity and dimension renderer

  A shallow embedding of
    - [ezdxf/render/dimension.py]   (override resolver, text formatter,
                                     linear dimension renderer),
    - [ezdxf/entities/dimstyle.py]  (DIMSTYLE entity and its setters),
    - [ezdxf/addons/drawing/frontend.py] (composite entities of the frontend),
  and the properties of the specification proved or refuted on it.

  Python objects that are mutated in place (the resolver cache, the DXF
  namespace of an entity, the content of a block, the log) are threaded as
  explicit state; a raised exception is an outcome next to the state that
  was reached when it was raised. *)

From Stdlib Require Import ZArith QArith String Ascii List Floats DecimalString.
From stdpp Require Import base option gmap strings stringmap list.

Close Scope Q_scope.
Open Scope Z_scope.

(** ** Python values, exceptions and commands *)

Module Py.

(** The values the DXF attributes of this subsystem take: [None], booleans,
    unbounded integers, binary64 floats and strings. *)
Inductive pyval : Type :=
| PNone
| PBool (b : bool)
| PInt (z : Z)
| PFloat (f : float)
| PStr (s : string).

(** The exception classes the three modules raise or let through.
    [OutOfModel] is no Python exception: it marks the few inputs on which
    the model does not follow the interpreter (named in [what]). *)
Inductive exn : Type :=
| DXFAttributeError (msg : string)
| DXFValueError (msg : string)
| DXFUndefinedBlockError (msg : string)
| DXFKeyError (msg : string)
| DXFTableEntryError (msg : string)
| AttributeError (msg : string)
| TypeError (msg : string)
| ValueError (msg : string)
| IndexError (msg : string)
| KeyError (msg : string)
| ZeroDivisionError (msg : string)
| OverflowError (msg : string)
| NotImplementedRaised
| OutOfModel (what : string).

(** What a call leaves: a returned value or a raised exception. *)
Inductive outcome (A : Type) : Type :=
| Ret (a : A)
| Raise (e : exn).
Arguments Ret {A} a.
Arguments Raise {A} e.

(** A command over a mutable state [S]: the state it leaves is kept also
    when it raises, as a mutation done before a Python exception is. *)
Definition exec (S A : Type) : Type := S -> S * outcome A.

Definition ret {S A} (a : A) : exec S A := fun s => (s, Ret a).
Definition raise {S A} (e : exn) : exec S A := fun s => (s, Raise e).
Definition bind {S A B} (m : exec S A) (k : A -> exec S B) : exec S B :=
  fun s => match m s with
           | (s', Ret a) => k a s'
           | (s', Raise e) => (s', Raise e)
           end.
Definition gets {S A} (f : S -> A) : exec S A := fun s => (s, Ret (f s)).
Definition modify {S} (f : S -> S) : exec S unit := fun s => (f s, Ret tt).
Definition lift {S A} (o : outcome A) : exec S A := fun s => (s, o).

(** [try: m except E: h] where [catches] recognises the class [E]. *)
Definition try_except {S A} (m : exec S A) (catches : exn -> bool)
           (h : exn -> exec S A) : exec S A :=
  fun s => match m s with
           | (s', Ret a) => (s', Ret a)
           | (s', Raise e) => if catches e then h e s' else (s', Raise e)
           end.

(** The same on plain outcomes, for code that touches no state. *)
Definition obind {A B} (o : outcome A) (k : A -> outcome B) : outcome B :=
match o with
| Ret a => k a
| Raise e => Raise e
end.

Definition is_DXFAttributeError (e : exn) : bool :=
  match e with DXFAttributeError _ => true | _ => false end.
Definition is_DXFKeyError (e : exn) : bool :=
  match e with DXFKeyError _ => true | _ => false end.

(** The double quote character, for the messages that quote a name. *)
Definition dq : string :=
  String (Ascii false true false false false true false false) EmptyString.

(** Truth value of a Python object, as [if x:] and [bool(x)] take it. *)
Definition truthy (v : pyval) : bool :=
  match v with
  | PNone => false
  | PBool b => b
  | PInt z => negb (z =? 0)
  | PFloat f => negb (PrimFloat.eqb f 0%float)
  | PStr s => negb (String.eqb s "")
  end.

(** A relation between the state before and the state after that a command
    keeps, however it ends. *)
Definition keeps {S A : Type} (R : S -> S -> Prop) (c : exec S A) : Prop :=
  forall s, R s (fst (c s)).

End Py.
Import Py.

Notation "'let*' x ':=' m 'in' k" := (Py.bind m (fun x => k))
  (at level 10, x name, m at level 100, k at level 200, only parsing).
Notation "'let?' x ':=' o 'in' k" := (Py.obind o (fun x => k))
  (at level 10, x name, o at level 100, k at level 200, only parsing).

(** ** The override resolver  ([DimStyleOverride], dimension.py) *)

Module DimStyleOverride.
Section Resolver.
(** The type of attribute values, the style record, and the two calls into
    the DXF attribute framework, which is not part of these sources:
    [DIMSTYLE_CHECKER.supports_dxf_attrib] and [dim_style.get_dxf_attrib]. *)
Context {Val Style : Type}.
Variable supports_dxf_attrib : string -> bool.
Variable get_dxf_attrib : Style -> string -> Val -> outcome Val.

Record t : Type := mk {
  dim_style : Style;
  override : gmap string Val;
  _cache : gmap string Val
}.

(** [DimStyleOverride(dim_style, override)]: a fresh, empty cache. *)
Definition init (ds : Style) (ov : gmap string Val) : t :=
  {| dim_style := ds; override := ov; _cache := ∅ |}.

Definition set_cache (attribute : string) (result : Val) (self : t) : t :=
  {| dim_style := dim_style self; override := override self;
     _cache := <[attribute := result]> (_cache self) |}.

(** The style record is a shared object: it may be changed from outside
    between two calls. *)
Definition with_style (ds : Style) (self : t) : t :=
  {| dim_style := ds; override := override self; _cache := _cache self |}.

Definition invalid_attribute (attribute : string) : exn :=
  DXFAttributeError ("Invalid DXF attribute " +:+ dq +:+ attribute +:+ dq +:+ " for DIMSTYLE.").

Definition get (attribute : string) (default : Val) : exec t Val :=
  fun self =>
    match _cache self !! attribute with
    | Some v => (self, Ret v)
    | None =>
        if negb (supports_dxf_attrib attribute) then
          (self, Raise (invalid_attribute attribute))
        else
          let computed : outcome Val :=
            match override self !! attribute with
            | Some v => Ret v
            | None =>
                match get_dxf_attrib (dim_style self) attribute default with
                | Ret v => Ret v
                | Raise e => if is_DXFAttributeError e then Ret default else Raise e
                end
            end in
          match computed with
          | Ret result => (set_cache attribute result self, Ret result)
          | Raise e => (self, Raise e)
          end
    end.

End Resolver.
End DimStyleOverride.

(** ** Numbers and strings of the interpreter *)

Module PyNum.

(** [float(z)] for an integer: the nearest binary64 value, ties to even;
    an integer beyond the range of floats raises [OverflowError]. *)
Definition float_of_Z (z : Z) : outcome float :=
  let f := SF2Prim (binary_normalize prec emax z 0 false) in
  if PrimFloat.is_infinity f
  then Raise (OverflowError "int too large to convert to float")
  else Ret f.

(** The operand of a float operation: a float, an integer or a boolean. *)
Definition as_float (v : pyval) : outcome float :=
  match v with
  | PFloat f => Ret f
  | PInt z => float_of_Z z
  | PBool b => Ret (if b then 1%float else 0%float)
  | PNone => Raise (TypeError "unsupported operand type(s): 'NoneType'")
  | PStr _ => Raise (TypeError "unsupported operand type(s): 'str'")
  end.

(** The operand of [|] and [&]: an integer or a boolean. *)
Definition as_int (v : pyval) : outcome Z :=
  match v with
  | PInt z => Ret z
  | PBool b => Ret (if b then 1 else 0)
  | PFloat _ => Raise (TypeError "unsupported operand type(s): 'float' and 'int'")
  | PNone => Raise (TypeError "unsupported operand type(s): 'NoneType' and 'int'")
  | PStr _ => Raise (TypeError "unsupported operand type(s): 'str' and 'int'")
  end.

(** [x == y] of the interpreter on the values of [pyval]: numbers compare
    by value across [bool], [int] and [float]; [None] and strings only equal
    themselves. The comparison of an integer that has no exact float with a
    float is decided on the converted integer. *)
Definition num_of (v : pyval) : option (Z + float) :=
  match v with
  | PBool b => Some (inl (if b then 1 else 0))
  | PInt z => Some (inl z)
  | PFloat f => Some (inr f)
  | _ => None
  end.

Definition py_eqb (x y : pyval) : bool :=
  match x, y with
  | PNone, PNone => true
  | PStr a, PStr b => String.eqb a b
  | _, _ =>
      match num_of x, num_of y with
      | Some (inl a), Some (inl b) => a =? b
      | Some (inr a), Some (inr b) => PrimFloat.eqb a b
      | Some (inl a), Some (inr b) | Some (inr b), Some (inl a) =>
          match float_of_Z a with
          | Ret fa => PrimFloat.eqb fa b
          | Raise _ => false
          end
      | _, _ => false
      end
  end.

Fixpoint zeros (k : nat) : string :=
  match k with
  | O => EmptyString
  | S k' => String "0" (zeros k')
  end.

(** [num / den] rounded to the nearest integer, ties to the even one
    ([0 <= num], [0 < den]). *)
Definition round_half_even (num den : Z) : Z :=
  let q := num / den in
  let r := num mod den in
  match (2 * r) ?= den with
  | Lt => q
  | Gt => q + 1
  | Eq => if Z.even q then q else q + 1
  end.

(** The digits of [k / 10^n] with exactly [n] digits after the point. *)
Definition fixed_of_scaled (k : Z) (n : nat) : string :=
  let ds := NilZero.string_of_uint (N.to_uint (Z.to_N k)) in
  let ds := zeros (S n - String.length ds) +:+ ds in
  let ip := (String.length ds - n)%nat in
  match n with
  | O => ds
  | _ => substring 0 ip ds +:+ "." +:+ substring ip n ds
  end.

(** ['{:.nf}'.format(f)]: the exact binary value of [f], correctly rounded
    (ties to even) to [n] decimal places. *)
Definition format_f (f : float) (n : nat) : string :=
  match Prim2SF f with
  | S754_nan => "nan"
  | S754_infinity s => if s then "-inf" else "inf"
  | S754_zero s => (if s then "-" else "") +:+ fixed_of_scaled 0 n
  | S754_finite s m e =>
      let k := if 0 <=? e
               then Z.pos m * 2 ^ e * 10 ^ Z.of_nat n
               else round_half_even (Z.pos m * 10 ^ Z.of_nat n) (2 ^ (- e)) in
      (if s then "-" else "") +:+ fixed_of_scaled k n
  end.

(** [s.replace(c, by_)] for a one-character [c]. *)
Fixpoint replace_char (c : ascii) (by_ : string) (s : string) : string :=
  match s with
  | EmptyString => EmptyString
  | String a r =>
      if Ascii.eqb a c then by_ +:+ replace_char c by_ r
      else String a (replace_char c by_ r)
  end.

(** [s.replace(old, new, 1)]: the first occurrence only. *)
Definition replace_first (old new s : string) : string :=
  match index 0 old s with
  | Some i =>
      substring 0 i s +:+ new +:+
      substring (i + String.length old) (String.length s - (i + String.length old)) s
  | None => s
  end.

(** [old in s]. *)
Definition contains (old s : string) : bool :=
  match index 0 old s with Some _ => true | None => false end.

(** [fmt.format(arg)] with one positional argument, for templates whose
    replacement fields are all the automatic field [{}]; doubled braces
    are literal braces. A field with a name, a conversion or a format
    specification is outside the model. *)
Fixpoint str_format (fmt arg : string) (used : bool) : outcome string :=
  match fmt with
  | EmptyString => Ret EmptyString
  | String "{" (String "{" r) => let? s := str_format r arg used in Ret (String "{" s)
  | String "{" (String "}" r) =>
      if used
      then Raise (IndexError "Replacement index 1 out of range for positional args tuple")
      else let? s := str_format r arg true in Ret (arg +:+ s)
  | String "{" EmptyString => Raise (ValueError "Single '{' encountered in format string")
  | String "{" _ => Raise (OutOfModel "replacement field with a name, conversion or format spec")
  | String "}" (String "}" r) => let? s := str_format r arg used in Ret (String "}" s)
  | String "}" _ => Raise (ValueError "Single '}' encountered in format string")
  | String c r => let? s := str_format r arg used in Ret (String c s)
  end.

(** A string without braces. *)
Fixpoint brace_free (s : string) : bool :=
  match s with
  | EmptyString => true
  | String c r =>
      negb (Ascii.eqb c "{") && negb (Ascii.eqb c "}") && brace_free r
  end.

End PyNum.
Import PyNum.

(** ** The text formatter  ([format_text], dimension.py) *)

Module TextFormat.

(** Modelled from the spec: [ezdxf.tools.suppress_zeros] is not part of
    these sources. Section 4.4, step 3: leading-zero suppression strips the
    leading ["0"] before the decimal point (["0.5"] becomes [".5"]);
    trailing-zero suppression strips trailing zeros and a dangling decimal
    point. The zeros are those of the number: a sign stays at the head of
    the text and the zeros after it are stripped (["-0.5"] becomes
    ["-.5"]), and a number that has no digit but zeros is written ["0"].
    With neither suppression the text is returned as it is. *)
Fixpoint lstrip0 (s : string) : string :=
  match s with
  | String "0" r => lstrip0 r
  | _ => s
  end.

Definition rstrip0 (s : string) : string := String.rev (lstrip0 (String.rev s)).

Definition strip_dangling_point (s : string) : string :=
  match String.rev s with
  | String "." r => String.rev r
  | _ => s
  end.

Definition split_sign (s : string) : string * string :=
  match s with
  | String "-" r => ("-", r)
  | String "+" r => ("+", r)
  | _ => ("", s)
  end.

Fixpoint only_zeros (s : string) : bool :=
  match s with
  | EmptyString => true
  | String c r => (Ascii.eqb c "0" || Ascii.eqb c ".") && only_zeros r
  end.

Definition suppress_zeros (s : string) (leading trailing : bool) : string :=
  if negb leading && negb trailing then s
  else
    let (sign, number) := split_sign s in
    if only_zeros number then "0"
    else
      let number := if leading then lstrip0 number else number in
      let number := if trailing then strip_dangling_point (rstrip0 number) else number in
      sign +:+ number.

Section Format.
(** [ezdxf.algebra.xround] and [ezdxf.tools.raise_decimals] are not part of
    these sources; no claim depends on what they compute. *)
Variable xround : float -> pyval -> outcome float.
Variable raise_decimals : string -> string.

(** [fmt = "{:." + str(dimdec) + "f}"; fmt.format(value)] *)
Definition format_decimals (value : float) (dimdec : pyval) : outcome string :=
  match dimdec with
  | PInt d =>
      if d <? 0 then Raise (ValueError "Format specifier missing precision")
      else if 2147483647 <? d then Raise (ValueError "precision too big")
      else Ret (format_f value (Z.to_nat d))
  | PBool _ | PFloat _ => Raise (ValueError "Invalid format specifier")
  | PStr _ => Raise (OutOfModel "dimdec is a string")
  | PNone => Ret (format_f value 6)
  end.

Definition invalid_dimpost (dimpost : string) : exn :=
  DXFValueError ("Invalid dimpost string: " +:+ dq +:+ dimpost +:+ dq).

Definition format_text (value : float) (dimrnd dimdec dimzin dimdsep dimpost : pyval)
    (raisedec : bool) : outcome string :=
  let? value := (match dimrnd with
                 | PNone => Ret value
                 | _ => xround value dimrnd
                 end) in
  let? dimzin := (match dimdec with
                  | PNone => let? z := as_int dimzin in Ret (PInt (Z.lor z 8))
                  | _ => Ret dimzin
                  end) in
  let? text := format_decimals value dimdec in
  let? z4 := as_int dimzin in
  let leading := negb (Z.land z4 4 =? 0) in
  let pending := negb (Z.land z4 8 =? 0) in
  let text := suppress_zeros text leading pending in
  let text := if raisedec then raise_decimals text else text in
  let? text := (match dimdsep with
                | PStr "." => Ret text
                | PStr sep => Ret (replace_char "." sep text)
                | _ => Raise (TypeError "replace() argument 2 must be str")
                end) in
  if truthy dimpost then
    match dimpost with
    | PStr post =>
        if contains "<>" post
        then str_format (replace_first "<>" "{}" post) text false
        else Raise (invalid_dimpost post)
    | _ => Raise (TypeError "argument of type is not iterable")
    end
  else Ret text.


(** The number as [format_text] prints it before the template is
    applied, for a rounding that is unset, [d] decimals, the suppression
    bits [z] and the separator ["."]. *)
Definition plain_text (value : float) (d z : Z) (raisedec : bool) : string :=
  let text := suppress_zeros (format_f value (Z.to_nat d))
                (negb (Z.land z 4 =? 0)) (negb (Z.land z 8 =? 0)) in
  if raisedec then raise_decimals text else text.

End Format.
End TextFormat.

(** ** The DIMSTYLE entity  ([DimStyle], dimstyle.py) *)

Module DimStyle.

(** *** Versions and the attribute table *)

(** The DXF versions a document can have, and the tag each is stored as.
    The source compares tags as strings ([self.dxfversion < 'AC1021']). *)
Inductive version : Type := R12 | R2000 | R2004 | R2007 | R2010 | R2013 | R2018.

Definition acad_tag (v : version) : string :=
  match v with
  | R12 => "AC1009"
  | R2000 => "AC1015"
  | R2004 => "AC1018"
  | R2007 => "AC1021"
  | R2010 => "AC1024"
  | R2013 => "AC1027"
  | R2018 => "AC1032"
  end.

Definition DXF12 : string := "AC1009".
Definition DXF2000 : string := "AC1015".
Definition DXF2007 : string := "AC1021".

Inductive group_code : Type :=
| Code (c : Z)
| VIRTUAL_TAG.

(** [XType.callback] attributes name the methods that get and set them. *)
Inductive xtype : Type :=
| Stored
| Callback (getter setter : string).

Record DXFAttr : Type := {
  code : group_code;
  xtype_of : xtype;
  dxfversion_of : string
}.

Definition DXFAttr_ (c : group_code) (v : string) : DXFAttr :=
  {| code := c; xtype_of := Stored; dxfversion_of := v |}.
Definition callback_attr (c : group_code) (getter setter : string) (v : string) : DXFAttr :=
  {| code := c; xtype_of := Callback getter setter; dxfversion_of := v |}.

Definition base_class : list (string * DXFAttr) :=
  [ ("handle", DXFAttr_ (Code 105) DXF12);
    ("owner", DXFAttr_ (Code 330) DXF12) ].

(** The table [acdb_dimstyle], entry by entry (the DXF default values, which
    none of the methods below reads, are left out). *)
Definition acdb_dimstyle : list (string * DXFAttr) := [
  ("name", DXFAttr_ (Code 2) DXF12);
  ("flags", DXFAttr_ (Code 70) DXF12);
  ("dimpost", DXFAttr_ (Code 3) DXF12);
  ("dimapost", DXFAttr_ (Code 4) DXF12);
  ("dimblk", callback_attr (Code 5) "get_dimblk" "set_dimblk" DXF12);
  ("dimblk1", callback_attr (Code 6) "get_dimblk1" "set_dimblk1" DXF12);
  ("dimblk2", callback_attr (Code 7) "get_dimblk2" "set_dimblk2" DXF12);
  ("dimscale", DXFAttr_ (Code 40) DXF12);
  ("dimasz", DXFAttr_ (Code 41) DXF12);
  ("dimexo", DXFAttr_ (Code 42) DXF12);
  ("dimdli", DXFAttr_ (Code 43) DXF12);
  ("dimexe", DXFAttr_ (Code 44) DXF12);
  ("dimrnd", DXFAttr_ (Code 45) DXF12);
  ("dimdle", DXFAttr_ (Code 46) DXF12);
  ("dimtp", DXFAttr_ (Code 47) DXF12);
  ("dimtm", DXFAttr_ (Code 48) DXF12);
  ("dimfxl", DXFAttr_ (Code 49) DXF2007);
  ("dimtxt", DXFAttr_ (Code 140) DXF12);
  ("dimcen", DXFAttr_ (Code 141) DXF12);
  ("dimtsz", DXFAttr_ (Code 142) DXF12);
  ("dimaltf", DXFAttr_ (Code 143) DXF12);
  ("dimlfac", DXFAttr_ (Code 144) DXF12);
  ("dimtvp", DXFAttr_ (Code 145) DXF12);
  ("dimtfac", DXFAttr_ (Code 146) DXF2000);
  ("dimgap", DXFAttr_ (Code 147) DXF12);
  ("dimaltrnd", DXFAttr_ (Code 148) DXF2000);
  ("dimtfill", DXFAttr_ (Code 69) DXF2007);
  ("dimtfillclr", DXFAttr_ (Code 70) DXF2007);
  ("dimtol", DXFAttr_ (Code 71) DXF12);
  ("dimlim", DXFAttr_ (Code 72) DXF12);
  ("dimtih", DXFAttr_ (Code 73) DXF12);
  ("dimtoh", DXFAttr_ (Code 74) DXF12);
  ("dimse1", DXFAttr_ (Code 75) DXF12);
  ("dimse2", DXFAttr_ (Code 76) DXF12);
  ("dimtad", DXFAttr_ (Code 77) DXF12);
  ("dimzin", DXFAttr_ (Code 78) DXF12);
  ("dimazin", DXFAttr_ (Code 79) DXF2000);
  ("dimalt", DXFAttr_ (Code 170) DXF12);
  ("dimaltd", DXFAttr_ (Code 171) DXF12);
  ("dimtofl", DXFAttr_ (Code 172) DXF12);
  ("dimsah", DXFAttr_ (Code 173) DXF12);
  ("dimtix", DXFAttr_ (Code 174) DXF12);
  ("dimsoxd", DXFAttr_ (Code 175) DXF12);
  ("dimclrd", DXFAttr_ (Code 176) DXF12);
  ("dimclre", DXFAttr_ (Code 177) DXF12);
  ("dimclrt", DXFAttr_ (Code 178) DXF12);
  ("dimadec", DXFAttr_ (Code 179) DXF2000);
  ("dimunit", DXFAttr_ (Code 270) DXF12);
  ("dimdec", DXFAttr_ (Code 271) DXF2000);
  ("dimtdec", DXFAttr_ (Code 272) DXF2000);
  ("dimaltu", DXFAttr_ (Code 273) DXF2000);
  ("dimalttd", DXFAttr_ (Code 274) DXF2000);
  ("dimaunit", DXFAttr_ (Code 275) DXF2000);
  ("dimfrac", DXFAttr_ (Code 276) DXF2000);
  ("dimlunit", DXFAttr_ (Code 277) DXF2000);
  ("dimdsep", DXFAttr_ (Code 278) DXF2000);
  ("dimtmove", DXFAttr_ (Code 279) DXF2000);
  ("dimjust", DXFAttr_ (Code 280) DXF2000);
  ("dimsd1", DXFAttr_ (Code 281) DXF2000);
  ("dimsd2", DXFAttr_ (Code 282) DXF2000);
  ("dimtolj", DXFAttr_ (Code 283) DXF2000);
  ("dimtzin", DXFAttr_ (Code 284) DXF2000);
  ("dimaltz", DXFAttr_ (Code 285) DXF2000);
  ("dimalttz", DXFAttr_ (Code 286) DXF2000);
  ("dimfit", DXFAttr_ (Code 287) DXF12);
  ("dimupt", DXFAttr_ (Code 288) DXF2000);
  ("dimatfit", DXFAttr_ (Code 289) DXF2000);
  ("dimfxlon", DXFAttr_ (Code 290) DXF2007);
  ("dimtxsty_handle", DXFAttr_ (Code 340) DXF2000);
  ("dimtxsty", callback_attr VIRTUAL_TAG "get_text_style" "set_text_style" DXF12);
  ("dimldrblk", callback_attr VIRTUAL_TAG "get_dimldrblk" "set_dimldrblk" DXF12);
  ("dimldrblk_handle", DXFAttr_ (Code 341) DXF2000);
  ("dimblk_handle", DXFAttr_ (Code 342) DXF2000);
  ("dimblk1_handle", DXFAttr_ (Code 343) DXF2000);
  ("dimblk2_handle", DXFAttr_ (Code 344) DXF2000);
  ("dimltype_handle", DXFAttr_ (Code 345) DXF2007);
  ("dimltype", callback_attr VIRTUAL_TAG "get_linetype" "set_linetype" DXF2007);
  ("dimltex1_handle", DXFAttr_ (Code 346) DXF2007);
  ("dimltex1", callback_attr VIRTUAL_TAG "get_ext1_linetype" "set_ext1_linetype" DXF2007);
  ("dimltex2_handle", DXFAttr_ (Code 347) DXF2007);
  ("dimltex2", callback_attr VIRTUAL_TAG "get_ext2_linetype" "set_ext2_linetype" DXF2007);
  ("dimlwd", DXFAttr_ (Code 371) DXF2000);
  ("dimlwe", DXFAttr_ (Code 372) DXF2000) ].

(** [DXFATTRIBS.get(key)]; the subclass [acdb_symbol_table_record] of
    layer.py is not part of these sources and is not consulted. *)
Fixpoint assoc (key : string) (l : list (string * DXFAttr)) : option DXFAttr :=
  match l with
  | [] => None
  | (k, a) :: r => if String.eqb k key then Some a else assoc key r
  end.

Definition DXFATTRIBS (key : string) : option DXFAttr :=
  match assoc key base_class with
  | Some a => Some a
  | None => assoc key acdb_dimstyle
  end.

(** *** The document and the entity *)

(** What the methods read of the document: its version, the block table
    (block name to the handle of its block record), the entity database
    (handle to the [dxf.name] of the entity), and the text style and
    linetype tables (name to handle). *)
Record Drawing : Type := {
  dxfversion : version;
  blocks : gmap string string;
  entitydb : gmap string string;
  styles : gmap string string;
  linetypes : gmap string string
}.

Inductive log_record : Type :=
| Log (logger level message : string).

(** A DIMSTYLE entity: its document (or [None]), its DXF namespace, and
    the records written to the logging module so far. *)
Record t : Type := {
  doc : option Drawing;
  dxf : gmap string pyval;
  logged : list log_record
}.

Definition with_dxf (f : gmap string pyval -> gmap string pyval) (self : t) : t :=
  {| doc := doc self; dxf := f (dxf self); logged := logged self |}.
Definition with_doc (d : Drawing) (self : t) : t :=
  {| doc := Some d; dxf := dxf self; logged := logged self |}.
Definition add_log (r : log_record) (self : t) : t :=
  {| doc := doc self; dxf := dxf self; logged := logged self ++ [r] |}.

Definition log_warning (msg : string) : exec t unit :=
  modify (add_log (Log "root" "WARNING" msg)).
Definition logger_debug (msg : string) : exec t unit :=
  modify (add_log (Log "ezdxf" "DEBUG" msg)).

(** *** The DXF namespace *)

(** Modelled from the spec: the DXF namespace of [DXFEntity]
    (ezdxf/entities/dxfentity.py) is not part of these sources. Sections 3
    and 4.1: an unknown attribute name raises immediately; an attribute is
    supported iff the document's version tag is at least the attribute's
    minimum version, and an unsupported one raises; an entity without a
    document is not gated. *)
Definition version_ok (self : t) (a : DXFAttr) : bool :=
  match doc self with
  | None => true
  | Some d => negb (String.ltb (acad_tag (dxfversion d)) (dxfversion_of a))
  end.

Definition unknown_attribute (key : string) : exn :=
  DXFAttributeError ("Invalid DXF attribute " +:+ dq +:+ key +:+ dq +:+ " for entity DIMSTYLE").
Definition unsupported_attribute (key : string) : exn :=
  DXFAttributeError ("DXF attribute " +:+ dq +:+ key +:+ dq +:+ " not supported by the DXF version of the document").

(** Access to an attribute that is stored in the namespace. *)
Definition supported (key : string) : exec t DXFAttr :=
  fun self =>
    match DXFATTRIBS key with
    | None => (self, Raise (unknown_attribute key))
    | Some a => if version_ok self a then (self, Ret a)
                else (self, Raise (unsupported_attribute key))
    end.

Definition get_stored (key : string) (default : pyval) : exec t pyval :=
  let* _ := supported key in
  gets (fun self => match dxf self !! key with Some v => v | None => default end).

Definition set_stored (key : string) (value : pyval) : exec t unit :=
  let* _ := supported key in
  modify (with_dxf (fun ns => <[key := value]> ns)).

(** [self.dxf.discard(key)] *)
Definition discard (key : string) : exec t unit :=
  modify (with_dxf (fun ns => delete key ns)).

(** [self.dxf.name], with the DXF default of the table. *)
Definition dxf_name (self : t) : pyval :=
  match dxf self !! "name" with Some v => v | None => PStr "Standard" end.

(** *** Conversions of the interpreter used by the setters *)

(** [float(x)] *)
Definition py_float (v : pyval) : outcome pyval :=
  match v with
  | PFloat f => Ret (PFloat f)
  | PInt z => let? f := float_of_Z z in Ret (PFloat f)
  | PBool b => Ret (PFloat (if b then 1%float else 0%float))
  | PStr _ => Raise (OutOfModel "float() of a string")
  | PNone => Raise (TypeError "float() argument must be a string or a number, not 'NoneType'")
  end.

(** [int(x)]: a float is truncated towards zero. *)
Definition py_int (v : pyval) : outcome pyval :=
  match v with
  | PInt z => Ret (PInt z)
  | PBool b => Ret (PInt (if b then 1 else 0))
  | PFloat f =>
      match Prim2SF f with
      | S754_nan => Raise (ValueError "cannot convert float NaN to integer")
      | S754_infinity _ => Raise (OverflowError "cannot convert float infinity to integer")
      | S754_zero _ => Ret (PInt 0)
      | S754_finite sg m e =>
          let a := if 0 <=? e then Z.pos m * 2 ^ e else Z.pos m / 2 ^ (- e) in
          Ret (PInt (if sg then - a else a))
      end
  | PStr _ => Raise (OutOfModel "int() of a string")
  | PNone => Raise (TypeError "int() argument must be a string, a bytes-like object or a number, not 'NoneType'")
  end.

Definition is_None (v : pyval) : bool :=
  match v with PNone => true | _ => false end.

(** [x is False] *)
Definition is_False (v : pyval) : bool :=
  match v with PBool false => true | _ => false end.

(** [s.upper()] on the letters of ASCII. *)
Definition upper_ascii (c : ascii) : ascii :=
  let n := nat_of_ascii c in
  if ((97 <=? n)%nat && (n <=? 122)%nat)%bool then ascii_of_nat (n - 32) else c.

Fixpoint str_upper (s : string) : string :=
  match s with
  | EmptyString => EmptyString
  | String c r => String (upper_ascii c) (str_upper r)
  end.

(** [const.DIMZIN_SUPPRESSES_LEADING_ZEROS] and [..._TRAILING_ZEROS]: the
    bits the text formatter tests ([dimzin & 4], [dimzin & 8]). *)
Definition DIMZIN_SUPPRESSES_LEADING_ZEROS : Z := 4.
Definition DIMZIN_SUPPRESSES_TRAILING_ZEROS : Z := 8.

(** *** The methods *)

(** [ARROWS] of ezdxf/render/arrows.py is not part of these sources: the
    name of the closed filled arrow, the test for a built-in arrow name,
    [create_block(blocks, name)], which returns the name of the block of a
    built-in arrow and may add that block to the document, and
    [arrow_name(block_name)]. Neither are the table
    [const.MTEXT_INLINE_ALIGN] and the [repr] of a float, which only shows
    in messages. The methods take them as given. *)
Class Library : Type := {
  closed_filled : string;
  is_acad_arrow : string -> bool;
  create_block : Drawing -> string -> Drawing * string;
  arrow_name : string -> string;
  MTEXT_INLINE_ALIGN : string -> option Z;
  float_repr : float -> string
}.

Section Methods.
Context `{Library}.

(** [str(x)], as ['{}'.format(x)] prints a value. *)
Definition pystr (v : pyval) : string :=
  match v with
  | PStr s => s
  | PNone => "None"
  | PBool b => if b then "True" else "False"
  | PInt z => NilZero.string_of_int (Z.to_int z)
  | PFloat f => float_repr f
  end.

(** [self.doc.<table>] *)
Definition the_doc : exec t Drawing :=
  fun self =>
    match doc self with
    | Some d => (self, Ret d)
    | None => (self, Raise (AttributeError "'NoneType' object has no attribute"))
    end.

Definition block_does_not_exist (arrow_name : string) : exn :=
  DXFValueError ("Block " +:+ arrow_name +:+ " does not exist.").

Definition _set_blk_handle (attr : string) (arrow_name : string) : exec t unit :=
  if String.eqb arrow_name closed_filled then
    discard attr
  else
    let* d := the_doc in
    let* block_name :=
      (if is_acad_arrow arrow_name
       then (fun self => let (d', bn) := create_block d arrow_name in
                         (with_doc d' self, Ret bn))
       else ret arrow_name) in
    let* d := the_doc in
    match blocks d !! block_name with
    | Some block_record_handle => set_stored attr (PStr block_record_handle)
    | None => raise (block_does_not_exist arrow_name)
    end.

(** Modelled from the spec: the entity database ([doc.entitydb[handle]],
    ezdxf/entitydb.py) is not part of these sources. Section 6: a lookup by
    handle gives the entity or fails. The database keeps its entities in a
    dictionary keyed by handle, so the failure is the dictionary's
    [KeyError] with the handle as its argument; it is no [DXFKeyError]. *)
Definition entitydb_item (d : Drawing) (handle : pyval) : outcome string :=
  match handle with
  | PStr h =>
      match entitydb d !! h with
      | Some name => Ret name
      | None => Raise (KeyError h)
      end
  | _ => Raise (OutOfModel "a handle that is not a string")
  end.

Definition get_block_name_by_handle (handle : pyval) (default : string) : exec t string :=
  let* d := the_doc in
  match entitydb_item d handle with
  | Ret name => ret name
  | Raise e => if is_DXFKeyError e then ret default else raise e
  end.

Definition get_text_style_by_handle (handle : pyval) (default : string) : exec t string :=
  let* d := the_doc in
  match entitydb_item d handle with
  | Ret name => ret name
  | Raise e =>
      if is_DXFKeyError e then
        let* _ := log_warning ("Invalid text style handle " +:+ dq +:+ pystr handle +:+ dq +:+ ".") in
        ret default
      else raise e
  end.

Definition _get_arrow_block_name (name : string) : exec t pyval :=
  let* handle := get_stored name PNone in
  if (py_eqb handle PNone || py_eqb handle (PStr "0"))%bool then
    ret (PStr closed_filled)
  else
    let* block_name := get_block_name_by_handle handle "" in
    ret (PStr (arrow_name block_name)).

Definition get_text_style : exec t pyval :=
  let* handle := get_stored "dimtxsty_handle" PNone in
  if truthy handle then
    let* name := get_text_style_by_handle handle "STANDARD" in
    ret (PStr name)
  else
    let* name := gets dxf_name in
    let* _ := log_warning ("DIMSTYLE " +:+ dq +:+ pystr name +:+ dq +:+ ": text style handle not set.") in
    ret (PStr "Standard").

(** Modelled from the spec: the tables of the document ([doc.styles],
    [doc.linetypes]) are not part of these sources. Sections 4.2 and 6: a
    lookup by name gives the entry or fails, and the setter lets the failure
    through; the table raises it as [DXFTableEntryError] with the name as
    its argument. *)
Definition table_entry_missing (name : string) : exn := DXFTableEntryError name.

Definition set_text_style (name : string) : exec t unit :=
  let* d := the_doc in
  match styles d !! name with
  | Some handle => set_stored "dimtxsty_handle" (PStr handle)
  | None => raise (table_entry_missing name)
  end.

Definition get_dimblk : exec t pyval := _get_arrow_block_name "dimblk_handle".
Definition set_dimblk (name : string) : exec t unit := _set_blk_handle "dimblk_handle" name.
Definition get_dimblk1 : exec t pyval := _get_arrow_block_name "dimblk1_handle".
Definition set_dimblk1 (name : string) : exec t unit := _set_blk_handle "dimblk1_handle" name.
Definition get_dimblk2 : exec t pyval := _get_arrow_block_name "dimblk2_handle".
Definition set_dimblk2 (name : string) : exec t unit := _set_blk_handle "dimblk2_handle" name.
Definition get_dimldrblk : exec t pyval := _get_arrow_block_name "dimldrblk_handle".
Definition set_dimldrblk (name : string) : exec t unit := _set_blk_handle "dimldrblk_handle" name.

(** [self.dxfversion]: the version tag of the document. *)
Definition self_dxfversion : exec t string :=
  fun self =>
    match doc self with
    | Some d => (self, Ret (acad_tag (dxfversion d)))
    | None => (self, Raise (OutOfModel "dxfversion of an entity without document"))
    end.

(** [self.ocrawing] names no attribute of the entity: the lookup raises. *)
Definition get_ltype_name (dimvar : string) : exec t pyval :=
  let* v := self_dxfversion in
  let* _ := (if String.ltb v "AC1021"
             then logger_debug "Linetype support for DIMSTYLE requires DXF R2007 or later."
             else ret tt) in
  let* handle := get_stored dimvar PNone in
  if truthy handle then
    raise (AttributeError "'DimStyle' object has no attribute 'ocrawing'")
  else
    ret PNone.

Definition get_linetype : exec t pyval := get_ltype_name "dimltype_handle".
Definition get_ext1_linetype : exec t pyval := get_ltype_name "dimltex1_handle".
Definition get_ext2_linetype : exec t pyval := get_ltype_name "dimltex2_handle".

Definition get_ltype_handle (linetype_name : string) : exec t string :=
  let* d := the_doc in
  match linetypes d !! linetype_name with
  | Some handle => ret handle
  | None => raise (table_entry_missing linetype_name)
  end.

Definition set_linetype (name : string) : exec t unit :=
  let* h := get_ltype_handle name in set_stored "dimltype_handle" (PStr h).
Definition set_ext1_linetype (name : string) : exec t unit :=
  let* h := get_ltype_handle name in set_stored "dimltex1_handle" (PStr h).
Definition set_ext2_linetype (name : string) : exec t unit :=
  let* h := get_ltype_handle name in set_stored "dimltex2_handle" (PStr h).

(** Modelled from the spec: [get_dxf_attrib] and [set_dxf_attrib] of
    [DXFEntity] (and attribute access through [self.dxf]) are not part of
    these sources. Section 3: a callback attribute is not stored, its
    getter and setter (named in the table) are called; any other
    attribute is read from and written to the namespace. *)
Definition call_getter (getter : string) : exec t pyval :=
  if String.eqb getter "get_dimblk" then get_dimblk
  else if String.eqb getter "get_dimblk1" then get_dimblk1
  else if String.eqb getter "get_dimblk2" then get_dimblk2
  else if String.eqb getter "get_dimldrblk" then get_dimldrblk
  else if String.eqb getter "get_text_style" then get_text_style
  else if String.eqb getter "get_linetype" then get_linetype
  else if String.eqb getter "get_ext1_linetype" then get_ext1_linetype
  else if String.eqb getter "get_ext2_linetype" then get_ext2_linetype
  else raise (AttributeError getter).

Definition call_setter (setter : string) (value : pyval) : exec t unit :=
  match value with
  | PStr name =>
      if String.eqb setter "set_dimblk" then set_dimblk name
      else if String.eqb setter "set_dimblk1" then set_dimblk1 name
      else if String.eqb setter "set_dimblk2" then set_dimblk2 name
      else if String.eqb setter "set_dimldrblk" then set_dimldrblk name
      else if String.eqb setter "set_text_style" then set_text_style name
      else if String.eqb setter "set_linetype" then set_linetype name
      else if String.eqb setter "set_ext1_linetype" then set_ext1_linetype name
      else if String.eqb setter "set_ext2_linetype" then set_ext2_linetype name
      else raise (AttributeError setter)
  | _ => raise (OutOfModel "a name that is not a string")
  end.

Definition get_dxf_attrib (key : string) (default : pyval) : exec t pyval :=
  let* a := supported key in
  match xtype_of a with
  | Callback getter _ => call_getter getter
  | Stored => gets (fun self => match dxf self !! key with Some v => v | None => default end)
  end.

Definition set_dxf_attrib (key : string) (value : pyval) : exec t unit :=
  let* a := supported key in
  match xtype_of a with
  | Callback _ setter => call_setter setter value
  | Stored => modify (with_dxf (fun ns => <[key := value]> ns))
  end.

Definition BLOCK_does_not_exist (blk : string) : exn :=
  DXFValueError ("BLOCK " +:+ dq +:+ blk +:+ dq +:+ " does not exist.").

(** The loop [for b in (blk, blk1, blk2)] of [set_arrows]; the message
    names [blk] whichever [b] fails. *)
Fixpoint check_blocks (d : Drawing) (blk : string) (bs : list string) : outcome unit :=
  match bs with
  | [] => Ret tt
  | b :: rest =>
      if is_acad_arrow b then check_blocks d blk rest
      else if (negb (String.eqb b "") && negb (bool_decide (is_Some (blocks d !! b))))%bool
           then Raise (BLOCK_does_not_exist blk)
           else check_blocks d blk rest
  end.

Definition set_arrows (blk blk1 blk2 : string) : exec t unit :=
  let* _ := set_dxf_attrib "dimblk" (PStr blk) in
  let* _ := set_dxf_attrib "dimblk1" (PStr blk1) in
  let* _ := set_dxf_attrib "dimblk2" (PStr blk2) in
  let* _ := set_dxf_attrib "dimtsz" (PInt 0) in
  fun self =>
    match doc self with
    | Some d => (self, check_blocks d blk [blk; blk1; blk2])
    | None => (self, Ret tt)
    end.

Definition set_tick (size : pyval) : exec t unit :=
  set_dxf_attrib "dimtsz" size.

(** The suppression mask both setters compute from the two flags. *)
Definition tzin_mask (leading_zeros trailing_zeros : pyval) : Z :=
  let dimtzin := 0 in
  let dimtzin := if is_False leading_zeros then DIMZIN_SUPPRESSES_LEADING_ZEROS else dimtzin in
  if is_False trailing_zeros then dimtzin + DIMZIN_SUPPRESSES_TRAILING_ZEROS else dimtzin.

Definition set_tolerance (upper lower hfactor align dec leading_zeros trailing_zeros : pyval)
    : exec t unit :=
  let* _ := set_dxf_attrib "dimtol" (PInt 1) in
  let* _ := set_dxf_attrib "dimlim" (PInt 0) in
  let* u := lift (py_float upper) in
  let* _ := set_dxf_attrib "dimtp" u in
  let* _ := (if negb (is_None lower)
             then (let* l := lift (py_float lower) in set_dxf_attrib "dimtm" l)
             else (let* l := lift (py_float upper) in set_dxf_attrib "dimtm" l)) in
  let* _ := (if negb (is_None hfactor)
             then (let* h := lift (py_float hfactor) in set_dxf_attrib "dimtfac" h)
             else ret tt) in
  let* _ := (if (negb (is_None leading_zeros) || negb (is_None trailing_zeros))%bool
             then set_dxf_attrib "dimtzin" (PInt (tzin_mask leading_zeros trailing_zeros))
             else ret tt) in
  let* _ := (if negb (is_None align)
             then match align with
                  | PStr a =>
                      match MTEXT_INLINE_ALIGN (str_upper a) with
                      | Some v => set_dxf_attrib "dimtolj" (PInt v)
                      | None => raise (KeyError (str_upper a))
                      end
                  | _ => raise (AttributeError "object has no attribute 'upper'")
                  end
             else ret tt) in
  if negb (is_None dec)
  then (let* d := lift (py_int dec) in set_dxf_attrib "dimtdec" d)
  else ret tt.

Definition set_limits (upper lower hfactor dec leading_zeros trailing_zeros : pyval)
    : exec t unit :=
  let* _ := set_dxf_attrib "dimlim" (PInt 1) in
  let* _ := set_dxf_attrib "dimtol" (PInt 0) in
  let* u := lift (py_float upper) in
  let* _ := set_dxf_attrib "dimtp" u in
  let* l := lift (py_float lower) in
  let* _ := set_dxf_attrib "dimtm" l in
  let* h := lift (py_float hfactor) in
  let* _ := set_dxf_attrib "dimtfac" h in
  let* _ := (if (negb (is_None leading_zeros) || negb (is_None trailing_zeros))%bool
             then set_dxf_attrib "dimtzin" (PInt (tzin_mask leading_zeros trailing_zeros))
             else ret tt) in
  let* _ := set_dxf_attrib "dimtolj" (PInt 0) in
  if negb (is_None dec)
  then (let* d := lift (py_int dec) in set_dxf_attrib "dimtdec" d)
  else ret tt.

(** [set_linetypes]: the three names are [None] or the name of a
    linetype. *)
Definition set_linetypes (dimline ext1 ext2 : option string) : exec t unit :=
  let* v := self_dxfversion in
  if negb (String.ltb v "AC1021") then
    let* _ := (match dimline with
               | Some name => set_linetype name
               | None => ret tt
               end) in
    let* _ := (match ext1 with
               | Some name => set_ext1_linetype name
               | None => ret tt
               end) in
    match ext2 with
    | Some name => set_ext2_linetype name
    | None => ret tt
    end
  else logger_debug "Linetype support requires DXF R2007 or later.".

(** [ord(s)]: the code of the one character of [s]. *)
Definition py_ord (s : string) : outcome Z :=
  match s with
  | String c EmptyString => Ret (Z.of_nat (nat_of_ascii c))
  | _ => Raise (TypeError ("ord() expected a character, but string of length "
                           +:+ NilZero.string_of_uint (Nat.to_uint (String.length s))
                           +:+ " found"))
  end.

(** [set_text_format]: [prefix] and [postfix] are strings, [sep] is
    [None] or a string, the other arguments any value. *)
Definition set_text_format (prefix postfix : string) (rnd dec : pyval) (sep : option string)
    (leading_zeros trailing_zeros : pyval) : exec t unit :=
  let* _ := (if (negb (String.eqb prefix "") || negb (String.eqb postfix ""))%bool
             then set_dxf_attrib "dimpost" (PStr (prefix +:+ "<>" +:+ postfix))
             else ret tt) in
  let* _ := (if negb (is_None rnd) then set_dxf_attrib "dimrnd" rnd else ret tt) in
  let* _ := (if (negb (is_None leading_zeros) || negb (is_None trailing_zeros))%bool
             then set_dxf_attrib "dimzin" (PInt (tzin_mask leading_zeros trailing_zeros))
             else ret tt) in
  let* _ := (if negb (is_None dec) then set_dxf_attrib "dimdec" dec else ret tt) in
  match sep with
  | Some c => let* code := lift (py_ord c) in set_dxf_attrib "dimdsep" (PInt code)
  | None => ret tt
  end.

(** The lists of the attributes [export_entity] writes, and the one it
    takes for the version of the tag writer. *)
Definition EXPORT_MAP_R2007 : list string := [
  "name"; "flags"; "dimscale"; "dimasz"; "dimexo"; "dimdli"; "dimexe"; "dimrnd";
  "dimdle"; "dimtp"; "dimtm"; "dimfxl"; "dimtxt"; "dimcen"; "dimtsz"; "dimaltf";
  "dimlfac"; "dimtvp"; "dimtfac"; "dimgap"; "dimaltrnd"; "dimtfill"; "dimtfillclr";
  "dimtol"; "dimlim"; "dimtih"; "dimtoh"; "dimse1"; "dimse2"; "dimtad"; "dimzin";
  "dimazin"; "dimalt"; "dimaltd"; "dimtofl"; "dimsah"; "dimtix"; "dimsoxd"; "dimclrd";
  "dimclre"; "dimclrt"; "dimadec"; "dimdec"; "dimtdec"; "dimaltu"; "dimalttd";
  "dimaunit"; "dimfrac"; "dimlunit"; "dimdsep"; "dimtmove"; "dimjust"; "dimsd1";
  "dimsd2"; "dimtolj"; "dimtzin"; "dimaltz"; "dimalttz"; "dimupt"; "dimatfit";
  "dimfxlon"; "dimtxsty_handle"; "dimldrblk_handle"; "dimblk_handle"; "dimblk1_handle";
  "dimblk2_handle"; "dimltype_handle"; "dimltex1_handle"; "dimltex2_handle"; "dimlwd";
  "dimlwe"
].

Definition EXPORT_MAP_R2000 : list string := [
  "name"; "flags"; "dimpost"; "dimapost"; "dimscale"; "dimasz"; "dimexo"; "dimdli";
  "dimexe"; "dimrnd"; "dimdle"; "dimtp"; "dimtm"; "dimtxt"; "dimcen"; "dimtsz";
  "dimaltf"; "dimlfac"; "dimtvp"; "dimtfac"; "dimgap"; "dimaltrnd"; "dimtol"; "dimlim";
  "dimtih"; "dimtoh"; "dimse1"; "dimse2"; "dimtad"; "dimzin"; "dimazin"; "dimalt";
  "dimaltd"; "dimtofl"; "dimsah"; "dimtix"; "dimsoxd"; "dimclrd"; "dimclre"; "dimclrt";
  "dimadec"; "dimdec"; "dimtdec"; "dimaltu"; "dimalttd"; "dimaunit"; "dimfrac";
  "dimlunit"; "dimdsep"; "dimtmove"; "dimjust"; "dimsd1"; "dimsd2"; "dimtolj"; "dimtzin";
  "dimaltz"; "dimalttz"; "dimupt"; "dimatfit"; "dimtxsty_handle"; "dimldrblk_handle";
  "dimblk_handle"; "dimblk1_handle"; "dimblk2_handle"; "dimlwd"; "dimlwe"
].

Definition EXPORT_MAP_R12 : list string := [
  "name"; "flags"; "dimpost"; "dimapost"; "dimblk"; "dimblk1"; "dimblk2"; "dimscale";
  "dimasz"; "dimexo"; "dimdli"; "dimexe"; "dimrnd"; "dimdle"; "dimtp"; "dimtm"; "dimtxt";
  "dimcen"; "dimtsz"; "dimaltf"; "dimlfac"; "dimtvp"; "dimtfac"; "dimgap"; "dimtol";
  "dimlim"; "dimtih"; "dimtoh"; "dimse1"; "dimse2"; "dimtad"; "dimzin"; "dimalt";
  "dimaltd"; "dimtofl"; "dimsah"; "dimtix"; "dimsoxd"; "dimclrd"; "dimclre"; "dimclrt"
].

Definition export_attribs (dxfversion : string) : list string :=
  if String.eqb dxfversion DXF12 then EXPORT_MAP_R12
  else if String.ltb dxfversion DXF2007 then EXPORT_MAP_R2000
  else EXPORT_MAP_R2007.

(** An attribute of the table that the version supports. *)
Definition exported_ok (v : version) (name : string) : bool :=
  match DXFATTRIBS name with
  | Some a => negb (String.ltb (acad_tag v) (dxfversion_of a))
  | None => false
  end.

End Methods.

(** *** Vocabulary of the properties *)

Section Properties.
Context `{Library}.

(** A call of one of the two setters of the tolerance display. *)
Inductive setter_call : Type :=
| Tolerance (upper lower hfactor align dec leading_zeros trailing_zeros : pyval)
| Limits (upper lower hfactor dec leading_zeros trailing_zeros : pyval).

(** The entity after a call, whether the call returned or raised, and
    after a sequence of calls made one after the other. *)
Definition after_call (self : t) (c : setter_call) : t :=
  match c with
  | Tolerance upper lower hfactor align dec lz tz =>
      fst (set_tolerance upper lower hfactor align dec lz tz self)
  | Limits upper lower hfactor dec lz tz =>
      fst (set_limits upper lower hfactor dec lz tz self)
  end.

Definition after_calls (self : t) (cs : list setter_call) : t :=
  fold_left after_call cs self.

(** The fields [dimtol] and [dimlim]. *)
Definition tolerance_flags (self : t) : option pyval * option pyval :=
  (dxf self !! "dimtol", dxf self !! "dimlim").

(** Two records with the same flags. *)
Definition same_flags (s s' : t) : Prop := tolerance_flags s' = tolerance_flags s.

(** A name that is neither the closed filled arrow, nor a built-in arrow
    name, nor the name of a block of the document. *)
Definition unknown_arrow (d : Drawing) (name : string) : bool :=
  negb (String.eqb name closed_filled) && negb (is_acad_arrow name)
  && bool_decide (blocks d !! name = None).









End Properties.
End DimStyle.

(** ** Composite entities of the drawing frontend  (frontend.py) *)

Module Frontend.

(** An entity as the frontend reads it: its DXF type, its namespace, its
    transparency, the ATTRIB entities attached to it, and what
    [virtual_entities()] yields: a sequence of fresh child entities, and
    then possibly an exception raised by the generator. *)
Inductive DXFGraphic : Type :=
| Entity (dxftype : string) (dxf : gmap string pyval) (transparency : float)
         (attribs : list DXFGraphic)
         (virtual_entities : list DXFGraphic) (virtual_raises : option exn).

Definition dxftype (e : DXFGraphic) : string :=
  match e with Entity ty _ _ _ _ _ => ty end.
Definition transparency (e : DXFGraphic) : float :=
  match e with Entity _ _ tr _ _ _ => tr end.
Definition attribs (e : DXFGraphic) : list DXFGraphic :=
  match e with Entity _ _ _ a _ _ => a end.
Definition virtual_entities (e : DXFGraphic) : list DXFGraphic :=
  match e with Entity _ _ _ _ v _ => v end.
Definition virtual_raises (e : DXFGraphic) : option exn :=
  match e with Entity _ _ _ _ _ r => r end.

(** [child.transparency = value] *)
Definition set_transparency (value : float) (e : DXFGraphic) : DXFGraphic :=
  match e with Entity ty ns _ a v r => Entity ty ns value a v r end.

Definition LINE_ENTITY_TYPES : list string := ["LINE"; "XLINE"; "RAY"; "MESH"].
Definition TEXT_ENTITY_TYPES : list string := ["TEXT"; "MTEXT"; "ATTRIB"].
Definition CURVE_ENTITY_TYPES : list string := ["CIRCLE"; "ARC"; "ELLIPSE"; "SPLINE"].
Definition MISC_ENTITY_TYPES : list string :=
  ["POINT"; "3DFACE"; "SOLID"; "TRACE"; "MESH"; "HATCH"; "VIEWPORT"].
Definition COMPOSITE_ENTITY_TYPES : list string := ["INSERT"; "POLYLINE"; "LWPOLYLINE"].

Definition mem (x : string) (l : list string) : bool := existsb (String.eqb x) l.

Section Draw.
(** The render context and the drawing calls on the backend are not part
    of these sources. The four drawers of the entities that are not
    composite ([_draw_line_entity], [_draw_text_entity],
    [_draw_curve_entity], [_draw_misc_entity]) only read the entity and the
    context and call the backend; what they draw is left open here: each
    gives the backend calls it makes and how it ends. *)
Variables RenderContext Properties DrawCall : Type.
Variable resolve_all : RenderContext -> DXFGraphic -> Properties.
Variable push_state : Properties -> RenderContext -> RenderContext.
Variable pop_state : RenderContext -> RenderContext.

Inductive backend_call : Type :=
| set_current_entity (entity : option DXFGraphic) (parents : list DXFGraphic)
| start_polyline
| end_polyline
| ignored_entity (entity : DXFGraphic)
| draw (call : DrawCall).

Variables _draw_line_entity _draw_text_entity _draw_curve_entity _draw_misc_entity :
  DXFGraphic -> RenderContext -> list backend_call * outcome unit.

(** The objects the frontend mutates: the context, the backend (the calls
    it received), the stack of parents, and what was printed. *)
Record fstate : Type := {
  ctx : RenderContext;
  out : list backend_call;
  parent_stack : list DXFGraphic;
  printed : list (string * exn)
}.

Definition call_out (c : backend_call) : exec fstate unit :=
  modify (fun s => {| ctx := ctx s; out := out s ++ [c];
                      parent_stack := parent_stack s; printed := printed s |}).
Definition stack_append (e : DXFGraphic) : exec fstate unit :=
  modify (fun s => {| ctx := ctx s; out := out s;
                      parent_stack := parent_stack s ++ [e]; printed := printed s |}).
Definition stack_pop : exec fstate unit :=
  modify (fun s => {| ctx := ctx s; out := out s;
                      parent_stack := removelast (parent_stack s); printed := printed s |}).
Definition ctx_update (f : RenderContext -> RenderContext) : exec fstate unit :=
  modify (fun s => {| ctx := f (ctx s); out := out s;
                      parent_stack := parent_stack s; printed := printed s |}).
Definition print (what : string) (e : exn) : exec fstate unit :=
  modify (fun s => {| ctx := ctx s; out := out s;
                      parent_stack := parent_stack s; printed := printed s ++ [(what, e)] |}).

Definition run_drawer (d : DXFGraphic -> RenderContext -> list backend_call * outcome unit)
    (entity : DXFGraphic) : exec fstate unit :=
  fun s =>
    let (calls, o) := d entity (ctx s) in
    ({| ctx := ctx s; out := out s ++ calls;
        parent_stack := parent_stack s; printed := printed s |}, o).

(** [for x in xs: body(x)] *)
Definition for_each {A S : Type} (body : A -> exec S unit) : list A -> exec S unit :=
  fix go (xs : list A) : exec S unit :=
    match xs with
    | [] => ret tt
    | x :: rest => let* _ := body x in go rest
    end.

(** [_draw_composite_entity]; [draw_entity] is the function it calls on
    the children. *)
Definition _draw_composite_entity (draw_entity : DXFGraphic -> exec fstate unit)
    (entity : DXFGraphic) : exec fstate unit :=
  let dxftype := dxftype entity in
  if String.eqb dxftype "INSERT" then
    let* c := gets ctx in
    let* _ := ctx_update (push_state (resolve_all c entity)) in
    let* _ := stack_append entity in
    let* _ := for_each draw_entity (attribs entity) in
    match virtual_raises entity with
    | Some e => print "failed to get children of insert entity" e
    | None =>
        let children := virtual_entities entity in
        let* _ := for_each draw_entity children in
        let* _ := stack_pop in
        ctx_update pop_state
    end
  else if String.eqb dxftype "DIMENSION" then
    match virtual_raises entity with
    | Some e => print "failed to get children of dimension entity" e
    | None =>
        let children := map (set_transparency 0%float) (virtual_entities entity) in
        let* _ := stack_append entity in
        let* _ := for_each draw_entity children in
        stack_pop
    end
  else if mem dxftype ["LWPOLYLINE"; "POLYLINE"] then
    let* _ := stack_append entity in
    let* _ := call_out start_polyline in
    let* _ := for_each draw_entity (virtual_entities entity) in
    let* _ := (match virtual_raises entity with
               | Some e => raise e
               | None => ret tt
               end) in
    let* _ := stack_pop in
    let* ps := gets parent_stack in
    let* _ := call_out (set_current_entity (Some entity) ps) in
    let* _ := call_out end_polyline in
    call_out (set_current_entity None [])
  else raise (TypeError dxftype).

(** [draw_entity], with the function called on the children of a
    composite entity left open. *)
Definition draw_entity_body (draw_entity : DXFGraphic -> exec fstate unit)
    (entity : DXFGraphic) : exec fstate unit :=
  let dxftype := dxftype entity in
  let* ps := gets parent_stack in
  let* _ := call_out (set_current_entity (Some entity) ps) in
  let* _ := (if mem dxftype LINE_ENTITY_TYPES then run_drawer _draw_line_entity entity
             else if mem dxftype TEXT_ENTITY_TYPES then run_drawer _draw_text_entity entity
             else if mem dxftype CURVE_ENTITY_TYPES then run_drawer _draw_curve_entity entity
             else if mem dxftype MISC_ENTITY_TYPES then run_drawer _draw_misc_entity entity
             else if mem dxftype COMPOSITE_ENTITY_TYPES
                  then _draw_composite_entity draw_entity entity
             else call_out (ignored_entity entity)) in
  call_out (set_current_entity None []).

(** The nesting depth of an entity: the recursion of [draw_entity] goes
    through fresh children whose transparency may have been set, so it is
    tied by the depth, which [set_transparency] keeps. *)
Fixpoint depth (e : DXFGraphic) : nat :=
  match e with
  | Entity _ _ _ a v _ =>
      S (Nat.max (fold_right (fun c n => Nat.max (depth c) n) O a)
                 (fold_right (fun c n => Nat.max (depth c) n) O v))
  end.

Fixpoint draw_entity_upto (n : nat) (entity : DXFGraphic) : exec fstate unit :=
  match n with
  | O => raise (OutOfModel "entity nested deeper than its depth")
  | S n' => draw_entity_body (draw_entity_upto n') entity
  end.

Definition draw_entity (entity : DXFGraphic) : exec fstate unit :=
  draw_entity_upto (depth entity) entity.


(** *** Vocabulary of the properties *)

(** The parent stack starts with [ps]. *)
Definition above (ps : list DXFGraphic) (s : fstate) : Prop :=
  exists extra, parent_stack s = ps ++ extra.

(** The parent stack of [s'] starts with the one of [s]. *)
Definition parents_kept (s s' : fstate) : Prop := above (parent_stack s) s'.

(** What a command does to the parent stack when it returns normally and
    prints nothing: it applies [f] to it. What was printed is never taken
    back. *)
Definition stack_effect {A : Type} (f : list DXFGraphic -> list DXFGraphic)
    (c : exec fstate A) : Prop :=
  forall s,
    (exists more, printed (fst (c s)) = printed s ++ more)
    /\ (forall a, snd (c s) = Ret a -> printed (fst (c s)) = printed s ->
          parent_stack (fst (c s)) = f (parent_stack s)).

(** A run from a state that has [P] ends, with a result or an exception,
    in a state that has [Q]. *)
Definition leads {A : Type} (P : fstate -> Prop) (c : exec fstate A) (Q : fstate -> Prop)
    : Prop :=
  forall s, P s -> Q (fst (c s)).

(** A command that leaves the parent stack as it is. *)
Definition still {A : Type} (c : exec fstate A) : Prop :=
  forall s, parent_stack (fst (c s)) = parent_stack s.

(** A command after which the stack still starts with whatever it
    started with. *)
Definition careful {A : Type} (c : exec fstate A) : Prop :=
  forall ps, leads (above ps) c (above ps).

(** A command that always returns. *)
Definition returns {A : Type} (c : exec fstate A) : Prop :=
  forall s, exists a, snd (c s) = Ret a.

(** The types of the entities [draw_entity] draws or expands. *)
Definition drawn_types : list string :=
  LINE_ENTITY_TYPES ++ TEXT_ENTITY_TYPES ++ CURVE_ENTITY_TYPES ++ MISC_ENTITY_TYPES
  ++ COMPOSITE_ENTITY_TYPES.

End Draw.
End Frontend.

(** ** The linear dimension renderer  ([DimensionBase], [LinearDimension],
       dimension.py) *)

Module Render.

(** [math.pi] and [math.radians] of the interpreter. *)
Definition math_pi : float := 0x1.921fb54442d18p+1%float.
Definition math_radians (x : float) : float := (x * (math_pi / 180))%float.

(** What a renderer is given and what it calls outside these sources.

    The vector and ray primitives of ezdxf.algebra, used as given:
    [normalize v length] is [v.normalize(length)], [lerp a b] is
    [a.lerp(b)], [ray p angle] is [Ray2D(p, angle=angle)].

    The user coordinate system the renderer was made with: [self.ucs.to_wcs],
    [self.ucs.to_ocs], [self.ucs.uz] and [self.requires_extrusion].

    [ARROWS] of ezdxf/render/arrows.py: [name in ARROWS],
    [ARROWS.has_extension_line(name)], [ARROWS.oblique];
    [block.add_arrow_blockref] returns the point the dimension line
    connects to and may define the block of the arrow in the drawing.

    The style record behind the resolver ([DIMSTYLE_CHECKER] and
    [get_dxf_attrib] of the DXF attribute framework), and the helpers of
    the text formatter. *)
Class Env : Type := {
  Vector : Type;
  vadd : Vector -> Vector -> Vector;
  vsub : Vector -> Vector -> Vector;
  vmul : Vector -> float -> Vector;
  magnitude : Vector -> float;
  normalize : Vector -> float -> outcome Vector;
  orthogonal : Vector -> Vector;
  lerp : Vector -> Vector -> Vector;
  Ray2D : Type;
  ray : Vector -> float -> Ray2D;
  intersect : Ray2D -> Ray2D -> outcome Vector;
  to_wcs : Vector -> Vector;
  to_ocs : Vector -> Vector;
  uz : Vector;
  requires_extrusion : bool;
  in_ARROWS : string -> bool;
  has_extension_line : string -> bool;
  oblique : string;
  arrow_connection_point : string -> Vector -> pyval -> float -> bool -> outcome Vector;
  blocks_with_arrow : string -> gset string -> gset string;
  Style : Type;
  supports_dxf_attrib : string -> bool;
  get_dxf_attrib : Style -> string -> pyval -> outcome pyval;
  xround : float -> pyval -> outcome float;
  raise_decimals : string -> string
}.

Section Renderer.
Context `{Env}.

(** The attributes of the DIMENSION entity the renderer reads and writes. *)
Record Dimension : Type := {
  layer : pyval;
  color : pyval;
  text : string;
  angle : float;
  text_rotation : option float;
  defpoint : Vector;
  defpoint2 : Vector;
  defpoint3 : Vector;
  text_midpoint : option Vector
}.

Definition set_defpoint (p : Vector) (d : Dimension) : Dimension :=
  {| layer := layer d; color := color d; text := text d; angle := angle d;
     text_rotation := text_rotation d; defpoint := p; defpoint2 := defpoint2 d;
     defpoint3 := defpoint3 d; text_midpoint := text_midpoint d |}.
Definition set_defpoint2 (p : Vector) (d : Dimension) : Dimension :=
  {| layer := layer d; color := color d; text := text d; angle := angle d;
     text_rotation := text_rotation d; defpoint := defpoint d; defpoint2 := p;
     defpoint3 := defpoint3 d; text_midpoint := text_midpoint d |}.
Definition set_defpoint3 (p : Vector) (d : Dimension) : Dimension :=
  {| layer := layer d; color := color d; text := text d; angle := angle d;
     text_rotation := text_rotation d; defpoint := defpoint d; defpoint2 := defpoint2 d;
     defpoint3 := p; text_midpoint := text_midpoint d |}.
Definition set_text_midpoint (p : Vector) (d : Dimension) : Dimension :=
  {| layer := layer d; color := color d; text := text d; angle := angle d;
     text_rotation := text_rotation d; defpoint := defpoint d; defpoint2 := defpoint2 d;
     defpoint3 := defpoint3 d; text_midpoint := Some p |}.

(** A value of a [dxfattribs] dictionary. *)
Inductive attr : Type :=
| AVal (v : pyval)
| AVec (v : Vector).

(** What the renderer adds to the block of the dimension. *)
Inductive prim : Type :=
| Line (start end_ : Vector) (dxfattribs : gmap string attr)
| Text (text : string) (dxfattribs : gmap string attr) (pos : Vector) (align : string)
| Point (location : Vector) (dxfattribs : gmap string attr)
| Blockref (name : string) (insert : Vector) (dxfattribs : gmap string attr)
| ArrowBlockref (name : string) (insert : Vector) (size : pyval) (rotation : float)
                (reverse : bool) (dxfattribs : gmap string attr)
| Arrow (name : string) (insert : Vector) (rotation : float) (size : pyval)
        (dxfattribs : gmap string attr).

(** The renderer object and what it mutates: the resolver (with its
    cache), the DIMENSION entity, the content of the block, and the names
    of the blocks of the drawing. [text_style] is set when the renderer is
    made. *)
Record state : Type := {
  dim_style : @DimStyleOverride.t pyval Style;
  text_style : pyval;
  dimension : Dimension;
  block : list prim;
  drawing_blocks : gset string
}.

Definition with_dim_style (r : @DimStyleOverride.t pyval Style) (s : state) : state :=
  {| dim_style := r; text_style := text_style s; dimension := dimension s;
     block := block s; drawing_blocks := drawing_blocks s |}.
Definition with_dimension (f : Dimension -> Dimension) (s : state) : state :=
  {| dim_style := dim_style s; text_style := text_style s; dimension := f (dimension s);
     block := block s; drawing_blocks := drawing_blocks s |}.
Definition block_add (p : prim) (s : state) : state :=
  {| dim_style := dim_style s; text_style := text_style s; dimension := dimension s;
     block := block s ++ [p]; drawing_blocks := drawing_blocks s |}.
Definition with_drawing_blocks (f : gset string -> gset string) (s : state) : state :=
  {| dim_style := dim_style s; text_style := text_style s; dimension := dimension s;
     block := block s; drawing_blocks := f (drawing_blocks s) |}.

(** [self.dim_style.get(attribute, default)] *)
Definition style_get (attribute : string) (default : pyval) : exec state pyval :=
  fun s =>
    let (r, o) := DimStyleOverride.get supports_dxf_attrib get_dxf_attrib
                    attribute default (dim_style s) in
    (with_dim_style r s, o).

Definition dim : exec state Dimension := gets dimension.

(** *** DimensionBase *)

Definition text_height : exec state pyval := style_get "dimtxt" (PFloat 1).

Definition suppress_extension_line1 : exec state bool :=
  let* v := style_get "dimse1" (PBool false) in ret (truthy v).

Definition suppress_extension_line2 : exec state bool :=
  let* v := style_get "dimse2" (PBool false) in ret (truthy v).

Definition default_attributes : exec state (gmap string attr) :=
  let* d := dim in
  ret (<["color" := AVal (color d)]> (<["layer" := AVal (layer d)]> ∅)).

Definition format_text (value : float) : exec state string :=
  let* dimrnd := style_get "dimrnd" PNone in
  let* dimdec := style_get "dimdec" PNone in
  let* dimzin := style_get "dimzin" (PInt 0) in
  let* dimdsep := style_get "dimdsep" (PStr ".") in
  let* dimpost := style_get "dimpost" (PStr "<>") in
  lift (TextFormat.format_text xround raise_decimals
          value dimrnd dimdec dimzin dimdsep dimpost false).

Definition get_text (measurement : float) : exec state string :=
  let* d := dim in
  let text := text d in
  if String.eqb text " " then ret ""
  else if (String.eqb text "" || String.eqb text "<>")%bool then format_text measurement
  else ret text.

Definition get_arrow_names : exec state (pyval * pyval) :=
  let* dimtsz := style_get "dimtsz" PNone in
  if py_eqb dimtsz (PFloat 0) then
    let* dimsah := style_get "dimsah" PNone in
    if truthy dimsah then
      let* blk1 := style_get "dimblk1" PNone in
      let* blk2 := style_get "dimblk2" PNone in
      ret (blk1, blk2)
    else
      let* blk := style_get "dimblk" PNone in
      ret (blk, blk)
  else ret (PNone, PNone).

(** [attribs.update(dxfattribs)] *)
Definition update (attribs dxfattribs : gmap string attr) : gmap string attr :=
  dxfattribs ∪ attribs.

Definition add_line (start end_ : Vector) (dxfattribs : gmap string attr) : exec state unit :=
  let* attribs := default_attributes in
  let attribs := update attribs dxfattribs in
  modify (block_add (Line (to_wcs start) (to_wcs end_) attribs)).

Definition undefined_block (name : string) : exn :=
  DXFUndefinedBlockError ("Undefined block: " +:+ dq +:+ name +:+ dq).

Definition add_blockref (name : option string) (insert : Vector) (rotation : float)
    (scale : pyval) (reverse : bool) (dxfattribs : gmap string attr) : exec state Vector :=
  match name with
  | None => raise (OutOfModel "an arrow name that is None")
  | Some name =>
      if in_ARROWS name then
        let* p := lift (arrow_connection_point name insert scale rotation reverse) in
        let* _ := modify (with_drawing_blocks (blocks_with_arrow name)) in
        let* _ := modify (block_add (ArrowBlockref name insert scale rotation reverse dxfattribs)) in
        ret p
      else
        let* blocks := gets drawing_blocks in
        if negb (bool_decide (name ∈ blocks)) then raise (undefined_block name)
        else
          let* attribs := default_attributes in
          let attribs := <["rotation" := AVal (PFloat rotation)]> attribs in
          let attribs := if negb (py_eqb scale (PFloat 1))
                         then <["yscale" := AVal scale]> (<["xscale" := AVal scale]> attribs)
                         else attribs in
          let attribs := if requires_extrusion
                         then <["extrusion" := AVec uz]> attribs
                         else attribs in
          let attribs := update attribs dxfattribs in
          let* _ := modify (block_add (Blockref name (to_ocs insert) attribs)) in
          ret insert
  end.

Definition add_text (text : string) (pos : Vector) (rotation : float)
    (dxfattribs : gmap string attr) : exec state unit :=
  let* attribs := default_attributes in
  let attribs := <["rotation" := AVal (PFloat rotation)]> attribs in
  let* style := gets text_style in
  let attribs := <["style" := AVal style]> attribs in
  let* height := text_height in
  let attribs := <["height" := AVal height]> attribs in
  let attribs := update attribs dxfattribs in
  modify (block_add (Text text attribs (to_ocs pos) "MIDDLE_CENTER")).

Definition add_defpoints (points : list Vector) : exec state unit :=
  let attribs : gmap string attr := <["layer" := AVal (PStr "DEFPOINTS")]> ∅ in
  Frontend.for_each (fun point => modify (block_add (Point (to_wcs point) attribs))) points.

(** *** LinearDimension *)

Definition add_measurement_text (dim_text : string) (pos : Vector) : exec state unit :=
  let* d := dim in
  let* c := style_get "dimclrt" (color d) in
  let attribs : gmap string attr := <["color" := AVal c]> ∅ in
  let* d := dim in
  let angle := angle d in
  let text_rotation := match text_rotation d with Some r => r | None => 0%float end in
  add_text dim_text pos (angle + text_rotation)%float attribs.

(** [direction * value] for a value read from the style. *)
Definition scaled (direction : Vector) (value : pyval) : exec state Vector :=
  let* f := lift (as_float value) in ret (vmul direction f).

Definition add_dimension_line (start end_ : Vector) (blk1 blk2 : option string)
    : exec state unit :=
  let* direction := lift (normalize (vsub end_ start) 1%float) in
  let* dimdle := style_get "dimdle" (PFloat 0) in
  let* extension := scaled direction dimdle in
  let start := match blk1 with
               | None => vsub start extension
               | Some b => if has_extension_line b then vsub start extension else start
               end in
  let end_ := match blk2 with
              | None => vadd end_ extension
              | Some b => if has_extension_line b then vadd end_ extension else end_
              end in
  let* d := dim in
  let* c := style_get "dimclrd" (color d) in
  let attribs : gmap string attr := <["color" := AVal c]> ∅ in
  add_line start end_ attribs.

Definition add_extension_line (start end_ : Vector) : exec state unit :=
  let* direction := lift (normalize (vsub end_ start) 1%float) in
  let* offset := style_get "dimexo" (PFloat 0) in
  let* extension := style_get "dimexe" (PFloat 0) in
  let* o := scaled direction offset in
  let start := vadd start o in
  let* e := scaled direction extension in
  let end_ := vadd end_ e in
  let* d := dim in
  let* c := style_get "dimclre" (color d) in
  let attribs : gmap string attr := <["color" := AVal c]> ∅ in
  add_line start end_ attribs.

(** [dimtsz * 2] for a number. *)
Definition doubled (v : pyval) : outcome pyval :=
  match v with
  | PInt z => Ret (PInt (z * 2))
  | PBool b => Ret (PInt ((if b then 1 else 0) * 2))
  | PFloat f => Ret (PFloat (f * 2)%float)
  | PNone => Raise (TypeError "unsupported operand type(s) for *: 'NoneType' and 'int'")
  | PStr s => Ret (PStr (s +:+ s))
  end.

(** [dimtsz > 0.] *)
Definition greater_than_zero (v : pyval) : outcome bool :=
  match v with
  | PInt z => Ret (0 <? z)
  | PBool b => Ret b
  | PFloat f => Ret (PrimFloat.ltb 0%float f)
  | PNone => Raise (TypeError "'>' not supported between instances of 'NoneType' and 'float'")
  | PStr _ => Raise (TypeError "'>' not supported between instances of 'str' and 'float'")
  end.

Definition add_arrows (start end_ : Vector) (blk1 blk2 : option string)
    : exec state (Vector * Vector) :=
  let* d := dim in
  let* c := style_get "dimclrd" (color d) in
  let attribs : gmap string attr := <["color" := AVal c]> ∅ in
  let* dimtsz := style_get "dimtsz" PNone in
  let* tick := lift (greater_than_zero dimtsz) in
  if tick then
    let* d := dim in
    let* size := lift (doubled dimtsz) in
    let* _ := modify (block_add (Arrow oblique start (angle d) size attribs)) in
    let* d := dim in
    let* size := lift (doubled dimtsz) in
    let* _ := modify (block_add (Arrow oblique end_ (angle d) size attribs)) in
    ret (start, end_)
  else
    let* scale := style_get "dimasz" PNone in
    let* d := dim in
    let* start := add_blockref blk1 start (angle d) scale true attribs in
    let* d := dim in
    let* end_ := add_blockref blk2 end_ (angle d) scale false attribs in
    ret (start, end_).

Definition get_text_midpoint (start end_ : Vector) : exec state Vector :=
  let* tad := style_get "dimtad" (PInt 1) in
  let* height := text_height in
  let* gap := style_get "dimgap" (PFloat 0.625) in
  let* h := lift (as_float height) in
  let* g := lift (as_float gap) in
  let dist := (h / 2 + g)%float in
  let dist := if py_eqb tad (PInt 0) then 0%float
              else if py_eqb tad (PInt 4) then (- dist)%float
              else dist in
  let base := vsub end_ start in
  let* ortho := lift (normalize (orthogonal base) dist) in
  ret (vadd (lerp start end_) ortho).

(** The arrow names as [add_arrows] and [add_dimension_line] take them:
    [None] or a string. *)
Definition as_name (v : pyval) : outcome (option string) :=
  match v with
  | PNone => Ret None
  | PStr s => Ret (Some s)
  | _ => Raise (OutOfModel "an arrow name that is neither None nor a string")
  end.

Definition defpoints_to_wcs : exec state unit :=
  let* _ := modify (with_dimension (fun d => set_defpoint (to_wcs (defpoint d)) d)) in
  let* _ := modify (with_dimension (fun d => set_defpoint2 (to_wcs (defpoint2 d)) d)) in
  let* _ := modify (with_dimension (fun d => set_defpoint3 (to_wcs (defpoint3 d)) d)) in
  let* d := dim in
  match text_midpoint d with
  | Some point => modify (with_dimension (set_text_midpoint (to_ocs point)))
  | None => raise (OutOfModel "text_midpoint is unset in defpoints_to_wcs")
  end.

Definition render : exec state unit :=
  let* d := dim in
  let angle := math_radians (angle d) in
  let ext_angle := (angle + math_pi / 2)%float in
  let dimline_ray := ray (defpoint d) angle in
  let ext1_ray := ray (defpoint2 d) ext_angle in
  let ext2_ray := ray (defpoint3 d) ext_angle in
  let* dimline_start := lift (intersect dimline_ray ext1_ray) in
  let* dimline_end := lift (intersect dimline_ray ext2_ray) in
  let* _ := modify (with_dimension (set_defpoint dimline_start)) in
  let* dimlfac := style_get "dimlfac" (PFloat 1) in
  let measurement := magnitude (vsub dimline_start dimline_end) in
  let* lfac := lift (as_float dimlfac) in
  let* dim_text := get_text (measurement * lfac)%float in
  let* _ :=
    (if negb (String.eqb dim_text "") then
       let* d := dim in
       let* pos :=
         (match text_midpoint d with
          | Some pos => ret pos
          | None =>
              let* pos := get_text_midpoint dimline_start dimline_end in
              let* _ := modify (with_dimension (set_text_midpoint pos)) in
              ret pos
          end) in
       add_measurement_text dim_text pos
     else ret tt) in
  let* s1 := suppress_extension_line1 in
  let* _ := (if negb s1
             then (let* d := dim in add_extension_line (defpoint2 d) dimline_start)
             else ret tt) in
  let* s2 := suppress_extension_line2 in
  let* _ := (if negb s2
             then (let* d := dim in add_extension_line (defpoint3 d) dimline_end)
             else ret tt) in
  let* names := get_arrow_names in
  let* blk1 := lift (as_name (fst names)) in
  let* blk2 := lift (as_name (snd names)) in
  let* ends := add_arrows dimline_start dimline_end blk1 blk2 in
  let* _ := add_dimension_line (fst ends) (snd ends) blk1 blk2 in
  let* d := dim in
  let* _ := add_defpoints [defpoint d; defpoint2 d; defpoint3 d] in
  defpoints_to_wcs.

(** *** Vocabulary of the properties *)

(** The measurement texts of a block: label and position. *)
Definition text_prims (b : list prim) : list (string * Vector) :=
  omap (fun p => match p with
                 | Text label _ pos _ => Some (label, pos)
                 | _ => None
                 end) b.

(** What every step but the placing of the text keeps: the stored text
    midpoint, the text attribute, and the measurement texts of the block. *)
Definition same_text (s s' : state) : Prop :=
  text_midpoint (dimension s') = text_midpoint (dimension s)
  /\ text (dimension s') = text (dimension s)
  /\ text_prims (block s') = text_prims (block s).

Definition line_ends (p : prim) : option (Vector * Vector) :=
  match p with
  | Line a b _ => Some (a, b)
  | _ => None
  end.

(** The distance of the text from the dimension line as the specification
    words it: half the text height plus the gap, negated for the placement
    below the line ([dimtad] 4), zero for the centered one ([dimtad] 0). *)
Definition midpoint_distance (dimtad : pyval) (height gap : float) : float :=
  if py_eqb dimtad (PInt 0) then 0%float
  else if py_eqb dimtad (PInt 4) then (- (height / 2 + gap))%float
  else (height / 2 + gap)%float.

(** The ends of the dimension line as the specification words them: an
    end is moved inward by the extension exactly when its arrow has no
    extension line, and left where it is otherwise. *)
Definition trimmed_inward (start end_ extension : Vector) (blk1 blk2 : string)
    : Vector * Vector :=
  (if has_extension_line blk1 then start else vadd start extension,
   if has_extension_line blk2 then end_ else vsub end_ extension).

(** The ends as [add_dimension_line] computes them: an end is moved
    outward by the extension when it has no arrow name or its arrow has an
    extension line. *)
Definition extends_line (blk : option string) : bool :=
  match blk with
  | None => true
  | Some b => has_extension_line b
  end.

Definition extended_outward (start end_ extension : Vector) (blk1 blk2 : option string)
    : Vector * Vector :=
  (if extends_line blk1 then vsub start extension else start,
   if extends_line blk2 then vadd end_ extension else end_).

(** The second and third part of [render]: the measurement text, and all
    that follows it. *)
Definition render_text (dim_text : string) (dimline_start dimline_end : Vector)
    : exec state unit :=
  if negb (String.eqb dim_text "") then
    let* d := dim in
    let* pos :=
      (match text_midpoint d with
       | Some pos => ret pos
       | None =>
           let* pos := get_text_midpoint dimline_start dimline_end in
           let* _ := modify (with_dimension (set_text_midpoint pos)) in
           ret pos
       end) in
    add_measurement_text dim_text pos
  else ret tt.

Definition render_rest (dimline_start dimline_end : Vector) : exec state unit :=
  let* s1 := suppress_extension_line1 in
  let* _ := (if negb s1
             then (let* d := dim in add_extension_line (defpoint2 d) dimline_start)
             else ret tt) in
  let* s2 := suppress_extension_line2 in
  let* _ := (if negb s2
             then (let* d := dim in add_extension_line (defpoint3 d) dimline_end)
             else ret tt) in
  let* names := get_arrow_names in
  let* blk1 := lift (as_name (fst names)) in
  let* blk2 := lift (as_name (snd names)) in
  let* ends := add_arrows dimline_start dimline_end blk1 blk2 in
  let* _ := add_dimension_line (fst ends) (snd ends) blk1 blk2 in
  let* d := dim in
  let* _ := add_defpoints [defpoint d; defpoint2 d; defpoint3 d] in
  defpoints_to_wcs.

(** The ends of the dimension line as [render] computes them: where the
    ray of the dimension line through [defpoint] meets the rays of the
    extension lines through [defpoint2] and [defpoint3]. *)
Definition dimline_ends (d : Dimension) : outcome (Vector * Vector) :=
  let angle := math_radians (angle d) in
  let ext_angle := (angle + math_pi / 2)%float in
  let dimline_ray := ray (defpoint d) angle in
  let? dimline_start := intersect dimline_ray (ray (defpoint2 d) ext_angle) in
  let? dimline_end := intersect dimline_ray (ray (defpoint3 d) ext_angle) in
  Ret (dimline_start, dimline_end).

(** The label of a render from [s] whose dimension line goes from [start]
    to [end_]: what [get_text] returns for the length of the line times
    [dimlfac], read once [defpoint] is moved to [start]; [sl] is the state
    [get_text] leaves. *)
Definition labelled (s : state) (start end_ : Vector) (label : string) (sl : state) : Prop :=
  exists s0 dimlfac lfac,
    style_get "dimlfac" (PFloat 1) (with_dimension (set_defpoint start) s) = (s0, Ret dimlfac)
    /\ as_float dimlfac = Ret lfac
    /\ get_text (magnitude (vsub start end_) * lfac)%float s0 = (sl, Ret label).

(** The measurement text a render adds for a label: none for the empty
    one. *)
Definition placed (label : string) (pos : Vector) : list (string * Vector) :=
  if String.eqb label "" then [] else [(label, pos)].

(** A text attribute that is neither the one that suppresses the text nor
    one that asks for the measurement. *)
Definition custom_text (text : string) : Prop :=
  text <> " " /\ text <> "" /\ text <> "<>".


(** What no step of the renderer undoes: the block only gains entities
    at its end, the resolver keeps its style record and its override map
    and only gains cache entries, and the text style of the renderer and
    the layer, color, text and angle of the dimension stay. *)
Definition grows (s s' : state) : Prop :=
  (exists added, block s' = block s ++ added)
  /\ DimStyleOverride.dim_style (dim_style s') = DimStyleOverride.dim_style (dim_style s)
  /\ DimStyleOverride.override (dim_style s') = DimStyleOverride.override (dim_style s)
  /\ DimStyleOverride._cache (dim_style s) ⊆ DimStyleOverride._cache (dim_style s')
  /\ text_style s' = text_style s
  /\ layer (dimension s') = layer (dimension s)
  /\ color (dimension s') = color (dimension s)
  /\ text (dimension s') = text (dimension s)
  /\ angle (dimension s') = angle (dimension s).

End Renderer.
End Render.

(** ** Instances for the examples

    The libraries the sources call but do not contain are given here one
    concrete reading each, on which the examples below are evaluated. *)

Module Sample.
Import DimStyle.

(** Built-in arrows: the closed filled arrow is the empty name; the block
    of the arrow [NAME] is called [_NAME]. *)
Definition acad_arrows : list string :=
  [""; "DOT"; "DOTSMALL"; "OPEN"; "CLOSED"; "NONE"; "OBLIQUE"; "ARCHTICK"].

Definition sample_block_name (name : string) : string := "_" +:+ name.

(** A handle that is not in use and is not the null handle. *)
Definition fresh_handle (db : gmap string string) : string :=
  fresh_string "A1" (<["0" := "0"]> db).

Definition sample_create_block (d : Drawing) (name : string) : Drawing * string :=
  let block_name := sample_block_name name in
  match blocks d !! block_name with
  | Some _ => (d, block_name)
  | None =>
      let h := fresh_handle (entitydb d) in
      ({| dxfversion := dxfversion d;
          blocks := <[block_name := h]> (blocks d);
          entitydb := <[h := block_name]> (entitydb d);
          styles := styles d;
          linetypes := linetypes d |}, block_name)
  end.

Definition sample_arrow_name (block_name : string) : string :=
  match block_name with
  | String "_" name => if Frontend.mem name acad_arrows then name else block_name
  | _ => block_name
  end.

Definition sample_library : Library := {|
  closed_filled := "";
  is_acad_arrow := fun name => Frontend.mem name acad_arrows;
  create_block := sample_create_block;
  arrow_name := sample_arrow_name;
  MTEXT_INLINE_ALIGN := fun a =>
    if String.eqb a "BOTTOM" then Some 0
    else if String.eqb a "MIDDLE" then Some 1
    else if String.eqb a "TOP" then Some 2
    else None;
  float_repr := fun f => format_f f 6
|}.

(** A document of version R2010 with one user block, one text style and
    one linetype. *)
Definition sample_doc : Drawing := {|
  dxfversion := R2010;
  blocks := {[ "MYBLOCK" := "2A" ]};
  entitydb := {[ "2A" := "MYBLOCK"; "11" := "Standard"; "14" := "CONTINUOUS" ]};
  styles := {[ "Standard" := "11" ]};
  linetypes := {[ "CONTINUOUS" := "14" ]}
|}.

Definition sample_dimstyle : DimStyle.t := {|
  doc := Some sample_doc;
  dxf := {[ "name" := PStr "EZDXF" ]};
  logged := []
|}.

(** Vectors of three floats with the usual operations; rays are the
    horizontal ones (angle 0) and the vertical ones (angle pi/2) only. *)
Definition Vec3 : Type := float * float * float.

Definition v_add (a b : Vec3) : Vec3 :=
  let '(x1, y1, z1) := a in let '(x2, y2, z2) := b in
  (x1 + x2, y1 + y2, z1 + z2)%float.
Definition v_sub (a b : Vec3) : Vec3 :=
  let '(x1, y1, z1) := a in let '(x2, y2, z2) := b in
  (x1 - x2, y1 - y2, z1 - z2)%float.
Definition v_mul (a : Vec3) (f : float) : Vec3 :=
  let '(x, y, z) := a in (x * f, y * f, z * f)%float.
Definition v_magnitude (a : Vec3) : float :=
  let '(x, y, z) := a in PrimFloat.sqrt (x * x + y * y + z * z)%float.
Definition v_normalize (a : Vec3) (length : float) : outcome Vec3 :=
  let m := v_magnitude a in
  if PrimFloat.eqb m 0%float then Raise (ZeroDivisionError "float division by zero")
  else Ret (v_mul a (length / m)%float).
Definition v_orthogonal (a : Vec3) : Vec3 :=
  let '(x, y, z) := a in ((- y)%float, x, z).
Definition v_lerp (a b : Vec3) : Vec3 := v_add a (v_mul (v_sub b a) 0.5%float).

Definition axis_ray (p : Vec3) (angle : float) : Vec3 * float := (p, angle).
Definition axis_intersect (r1 r2 : Vec3 * float) : outcome Vec3 :=
  let '((_, y1, _), a1) := r1 in
  let '((x2, _, _), a2) := r2 in
  if (PrimFloat.eqb a1 0%float && PrimFloat.eqb a2 (0 + Render.math_pi / 2)%float)%bool
  then Ret (x2, y1, 0%float)
  else Raise (OutOfModel "a ray that is neither horizontal nor vertical").

Definition vec_eqb (a b : Vec3) : bool :=
  let '(x1, y1, z1) := a in let '(x2, y2, z2) := b in
  (PrimFloat.eqb x1 x2 && PrimFloat.eqb y1 y2 && PrimFloat.eqb z1 z2)%bool.

(** A style record that holds its values in a dictionary and supports the
    attributes of the DIMSTYLE table. *)
Definition style_supports (key : string) : bool := bool_decide (is_Some (DXFATTRIBS key)).
Definition style_get_attrib (st : gmap string pyval) (key : string) (default : pyval)
    : outcome pyval :=
  Ret (match st !! key with Some v => v | None => default end).

(** A renderer environment. The user coordinate system is the pass-through
    one ([None]: both transformations return their argument) or one whose
    axes are the world axes and whose origin is [o] ([Some o]: both
    transformations add the origin). [has_ext] tells the arrows with an
    extension line. *)
Definition sample_env (ucs : option Vec3) (has_ext : string -> bool) : Render.Env := {|
  Render.Vector := Vec3;
  Render.vadd := v_add;
  Render.vsub := v_sub;
  Render.vmul := v_mul;
  Render.magnitude := v_magnitude;
  Render.normalize := v_normalize;
  Render.orthogonal := v_orthogonal;
  Render.lerp := v_lerp;
  Render.Ray2D := Vec3 * float;
  Render.ray := axis_ray;
  Render.intersect := axis_intersect;
  Render.to_wcs := match ucs with Some o => v_add o | None => fun v => v end;
  Render.to_ocs := match ucs with Some o => v_add o | None => fun v => v end;
  Render.uz := (0, 0, 1)%float;
  Render.requires_extrusion := false;
  Render.in_ARROWS := fun name => Frontend.mem name acad_arrows;
  Render.has_extension_line := has_ext;
  Render.oblique := "OBLIQUE";
  Render.arrow_connection_point := fun _ insert _ _ _ => Ret insert;
  Render.blocks_with_arrow := fun name bs => {[ sample_block_name name ]} ∪ bs;
  Render.Style := gmap string pyval;
  Render.supports_dxf_attrib := style_supports;
  Render.get_dxf_attrib := style_get_attrib;
  Render.xround := fun value _ => Ret value;
  Render.raise_decimals := fun text => text
|}.

Definition tick_arrows (name : string) : bool :=
  Frontend.mem name ["OBLIQUE"; "ARCHTICK"; "NONE"].

(** A horizontal dimension of the segment from (0,0) to (10,0), with its
    dimension line at height 2: layer, color, text, angle, text rotation,
    the three definition points, and no text midpoint. *)
Definition sample_dimension (ucs : option Vec3) (has_ext : string -> bool) (text : string)
    : @Render.Dimension (sample_env ucs has_ext) :=
  @Render.Build_Dimension (sample_env ucs has_ext)
    (PStr "0") (PInt 256) text 0%float None
    (0, 2, 0)%float (0, 0, 0)%float (10, 0, 0)%float None.

Definition sample_style : gmap string pyval :=
  {[ "dimtxt" := PFloat 1; "dimgap" := PFloat 0.5; "dimtad" := PInt 1;
     "dimtsz" := PFloat 0; "dimasz" := PFloat 1; "dimdle" := PFloat 1;
     "dimblk" := PStr "" ]}.

(** A renderer for a dimension: a resolver without overrides and with an
    empty cache, and an empty block. *)
Definition renderer_for (ucs : option Vec3) (has_ext : string -> bool)
    (d : @Render.Dimension (sample_env ucs has_ext)) : @Render.state (sample_env ucs has_ext) :=
  @Render.Build_state (sample_env ucs has_ext)
    (DimStyleOverride.init sample_style ∅) (PStr "Standard") d [] ∅.

Definition sample_renderer (ucs : option Vec3) (has_ext : string -> bool) (text : string)
    : @Render.state (sample_env ucs has_ext) :=
  renderer_for ucs has_ext (sample_dimension ucs has_ext text).





(** The two ends of the line added last to a block. *)
Definition last_line_ends {E : Render.Env} (b : list (@Render.prim E))
    : option (@Render.Vector E * @Render.Vector E) :=
  match last b with
  | Some p => Render.line_ends p
  | None => None
  end.


(** A document of version R2000 with the same tables, and a record of
    it. *)
Definition old_doc : Drawing := {|
  dxfversion := R2000;
  blocks := blocks sample_doc;
  entitydb := entitydb sample_doc;
  styles := styles sample_doc;
  linetypes := linetypes sample_doc
|}.

Definition old_dimstyle : DimStyle.t := {|
  doc := Some old_doc;
  dxf := {[ "name" := PStr "EZDXF" ]};
  logged := []
|}.

(** The sample renderer with a tick size of 1 in the override map. *)
Definition tick_renderer : @Render.state (sample_env None tick_arrows) :=
  @Render.Build_state (sample_env None tick_arrows)
    (DimStyleOverride.init sample_style {[ "dimtsz" := PFloat 1 ]})
    (PStr "Standard") (sample_dimension None tick_arrows "<>") [] ∅.

End Sample.

(** * Facts *)

(** * Facts about commands *)

Section ExecFacts.
Context {S : Type}.

Lemma bind_Ret {A B} (m : exec S A) (k : A -> exec S B) s s' a :
  m s = (s', Ret a) -> bind m k s = k a s'.
Proof. intros H. unfold bind. now rewrite H. Qed.

Lemma bind_Raise {A B} (m : exec S A) (k : A -> exec S B) s s' e :
  m s = (s', Raise e) -> bind m k s = (s', Raise e).
Proof. intros H. unfold bind. now rewrite H. Qed.

Lemma bind_inv {A B} (m : exec S A) (k : A -> exec S B) s s2 o :
  bind m k s = (s2, o) ->
  (exists e, m s = (s2, Raise e) /\ o = Raise e) \/
  (exists s1 a, m s = (s1, Ret a) /\ k a s1 = (s2, o)).
Proof.
  unfold bind. destruct (m s) as [s1 [a|e]]; intros H.
  - right. eauto.
  - left. inversion H; subst. eauto.
Qed.

Variable R : S -> S -> Prop.
Hypothesis R_refl : forall s, R s s.
Hypothesis R_trans : forall a b c, R a b -> R b c -> R a c.

Lemma keeps_ret {A} (a : A) : keeps R (ret a).
Proof. intros s. simpl. apply R_refl. Qed.

Lemma keeps_raise {A} e : keeps R (@raise S A e).
Proof. intros s. simpl. apply R_refl. Qed.

Lemma keeps_lift {A} (o : outcome A) : keeps R (lift o).
Proof. intros s. simpl. apply R_refl. Qed.

Lemma keeps_gets {A} (f : S -> A) : keeps R (gets f).
Proof. intros s. simpl. apply R_refl. Qed.

Lemma keeps_modify (f : S -> S) : (forall s, R s (f s)) -> keeps R (modify f).
Proof. intros H s. simpl. apply H. Qed.

Lemma keeps_bind {A B} (m : exec S A) (k : A -> exec S B) :
  keeps R m -> (forall a, keeps R (k a)) -> keeps R (bind m k).
Proof.
  intros Hm Hk s. unfold bind. specialize (Hm s).
  destruct (m s) as [s1 [a|e]]; simpl in *.
  - eapply R_trans; [exact Hm|]. apply Hk.
  - exact Hm.
Qed.

End ExecFacts.

(** * The override resolver *)

Section ResolverFacts.
Context {Val Style : Type}.
Variable supports_dxf_attrib : string -> bool.
Variable get_dxf_attrib : Style -> string -> Val -> outcome Val.

Import DimStyleOverride.
Local Abbreviation get := (DimStyleOverride.get supports_dxf_attrib get_dxf_attrib).

Lemma get_cached (self : t) F D v :
  _cache self !! F = Some v -> get F D self = (self, Ret v).
Proof. intros H. unfold DimStyleOverride.get. now rewrite H. Qed.

Lemma get_caches (self self' : t) F D v :
  get F D self = (self', Ret v) -> _cache self' !! F = Some v.
Proof.
  unfold DimStyleOverride.get.
  destruct (_cache self !! F) as [c|] eqn:Hc.
  - intros [= <- <-]. exact Hc.
  - destruct (supports_dxf_attrib F); simpl; [|discriminate].
    destruct (override self !! F) as [y|].
    + intros [= <- <-]. simpl. apply lookup_insert_eq.
    + destruct (get_dxf_attrib (dim_style self) F D) as [x|e].
      * intros [= <- <-]. simpl. apply lookup_insert_eq.
      * destruct (is_DXFAttributeError e); [|discriminate].
        intros [= <- <-]. simpl. apply lookup_insert_eq.
Qed.

(** C1. [DimStyleOverride.get] resolves an attribute [F] with default [D]
    in this order: a cached value is returned as it is; otherwise a name
    that is no DIMSTYLE attribute raises [DXFAttributeError], whatever the
    override map holds; otherwise the entry of the override map is
    returned; otherwise the value of the base style; and when the base
    style raises [DXFAttributeError] the default [D] is returned. Every
    successful resolution stores its result in the cache: a second [get]
    of the same attribute returns the same value, whatever the style
    record and the default are by then. *)
Theorem get_resolution_order (self : t) (F : string) (D : Val) :
  match _cache self !! F with
  | Some v => get F D self = (self, Ret v)
  | None =>
      if supports_dxf_attrib F then
        match override self !! F with
        | Some y => get F D self = (set_cache F y self, Ret y)
        | None =>
            match get_dxf_attrib (dim_style self) F D with
            | Ret x => get F D self = (set_cache F x self, Ret x)
            | Raise (DXFAttributeError m) => get F D self = (set_cache F D self, Ret D)
            | Raise e => get F D self = (self, Raise e)
            end
        end
      else get F D self = (self, Raise (invalid_attribute F))
  end
  /\ (forall self' v, get F D self = (self', Ret v) ->
        forall ds D', get F D' (with_style ds self') = (with_style ds self', Ret v)).
Proof.
  split.
  - unfold DimStyleOverride.get.
    destruct (_cache self !! F); [reflexivity|].
    destruct (supports_dxf_attrib F); simpl; [|reflexivity].
    destruct (override self !! F); [reflexivity|].
    destruct (get_dxf_attrib (dim_style self) F D) as [x|e]; [reflexivity|].
    destruct e; reflexivity.
  - intros self' v H ds D'. apply get_cached. simpl. eapply get_caches, H.
Qed.
End ResolverFacts.

Section FormatFacts.
Variable xround : float -> pyval -> outcome float.
Variable raise_decimals : string -> string.
Local Abbreviation format_text := (TextFormat.format_text xround raise_decimals).

(** C3. The three examples of [format_text]: 12.0 with two decimals, no
    suppression, separator ["."] and template ["<>"] gives ["12.00"]; 0.5
    with [dimdec] unset and leading zeros suppressed gives [".5"]; 3.0
    with no decimals, trailing zeros suppressed and template ["<>mm"]
    gives ["3mm"]. With [dimdec] unset the value is formatted with six
    decimals and the bit 8 of [dimzin], which suppresses trailing zeros,
    is forced on. *)
Theorem format_text_examples :
  format_text 12%float PNone (PInt 2) (PInt 0) (PStr ".") (PStr "<>") false = Ret "12.00"
  /\ format_text 0.5%float PNone PNone (PInt 4) (PStr ".") (PStr "<>") false = Ret ".5"
  /\ format_text 3%float PNone (PInt 0) (PInt 8) (PStr ".") (PStr "<>mm") false = Ret "3mm"
  /\ (forall value, TextFormat.format_decimals value PNone = Ret (format_f value 6))
  /\ (forall value dimrnd z dimdsep dimpost raisedec,
        format_text value dimrnd PNone (PInt z) dimdsep dimpost raisedec
        = format_text value dimrnd PNone (PInt (Z.lor z 8)) dimdsep dimpost raisedec
        /\ Z.testbit (Z.lor z 8) 3 = true).
Proof.
  split; [|split; [|split; [|split; [|intros; split]]]].
  - vm_compute. reflexivity.
  - vm_compute. reflexivity.
  - vm_compute. reflexivity.
  - reflexivity.
  - unfold TextFormat.format_text. simpl.
    destruct dimrnd; simpl; try reflexivity.
    all: try (destruct (xround value _); simpl; [|reflexivity]).
    all: rewrite <- Z.lor_assoc; reflexivity.
  - rewrite Z.lor_spec. simpl. apply orb_true_r.
Qed.
End FormatFacts.

(** * The DIMSTYLE entity *)

Section DimStyleFacts.
Import DimStyle.
Context `{Library}.

(** Every version of a document supports the attributes of DXF R12. *)
Lemma version_ok_DXF12 (self : t) (a : DXFAttr) :
  dxfversion_of a = DXF12 -> version_ok self a = true.
Proof.
  intros Hv. unfold version_ok. rewrite Hv.
  destruct (doc self) as [d|]; [|reflexivity].
  destruct (dxfversion d); reflexivity.
Qed.

Lemma set_dxf_attrib_stored (key : string) (value : pyval) (a : DXFAttr) (self : t) :
  DXFATTRIBS key = Some a -> xtype_of a = Stored ->
  set_dxf_attrib key value self =
    if version_ok self a
    then (with_dxf (fun ns => <[key := value]> ns) self, Ret tt)
    else (self, Raise (unsupported_attribute key)).
Proof.
  intros Ha Hx. unfold set_dxf_attrib, supported, bind. rewrite Ha.
  destruct (version_ok self a); [|reflexivity]. now rewrite Hx.
Qed.

Lemma same_flags_refl s : same_flags s s.
Proof. reflexivity. Qed.

Lemma same_flags_trans a b c : same_flags a b -> same_flags b c -> same_flags a c.
Proof. unfold same_flags. congruence. Qed.

Lemma keeps_set_other (key : string) (value : pyval) (a : DXFAttr) :
  DXFATTRIBS key = Some a -> xtype_of a = Stored ->
  key <> "dimtol" -> key <> "dimlim" ->
  keeps same_flags (set_dxf_attrib key value).
Proof.
  intros Ha Hx H1 H2 s. rewrite (set_dxf_attrib_stored _ _ _ _ Ha Hx).
  destruct (version_ok s a); simpl; [|apply same_flags_refl].
  unfold same_flags, tolerance_flags. simpl.
  now rewrite !lookup_insert_ne by congruence.
Qed.

Ltac keeps_flags :=
  repeat first
    [ apply (keeps_ret _ same_flags_refl)
    | apply (keeps_raise _ same_flags_refl)
    | apply (keeps_lift _ same_flags_refl)
    | eapply keeps_set_other; [reflexivity | reflexivity | discriminate | discriminate]
    | apply (keeps_bind _ same_flags_trans); [|intros]
    | match goal with
      | |- keeps _ (if ?b then _ else _) => destruct b
      | |- keeps _ (match ?x with _ => _ end) => destruct x
      end ].

Lemma set_flag (key : string) (z : Z) (self : t) :
  key = "dimtol" \/ key = "dimlim" ->
  set_dxf_attrib key (PInt z) self = (with_dxf (fun ns => <[key := PInt z]> ns) self, Ret tt).
Proof.
  intros [-> | ->].
  - rewrite (set_dxf_attrib_stored "dimtol" _ (DXFAttr_ (Code 71) DXF12)) by reflexivity.
    now rewrite version_ok_DXF12.
  - rewrite (set_dxf_attrib_stored "dimlim" _ (DXFAttr_ (Code 72) DXF12)) by reflexivity.
    now rewrite version_ok_DXF12.
Qed.

Lemma set_tolerance_flags upper lower hfactor align dec lz tz (self : t) :
  tolerance_flags (fst (set_tolerance upper lower hfactor align dec lz tz self))
  = (Some (PInt 1), Some (PInt 0)).
Proof.
  unfold set_tolerance.
  rewrite (bind_Ret _ _ _ _ _ (set_flag "dimtol" 1 self (or_introl eq_refl))).
  rewrite (bind_Ret _ _ _ _ _ (set_flag "dimlim" 0 _ (or_intror eq_refl))).
  match goal with |- tolerance_flags (fst (?rest ?s)) = _ =>
    assert (Hk : keeps same_flags rest) by keeps_flags;
    rewrite (Hk s)
  end.
  unfold tolerance_flags. simpl.
  now rewrite ?lookup_insert_eq, ?lookup_insert_ne, ?lookup_insert_eq by discriminate.
Qed.

Lemma set_limits_flags upper lower hfactor dec lz tz (self : t) :
  tolerance_flags (fst (set_limits upper lower hfactor dec lz tz self))
  = (Some (PInt 0), Some (PInt 1)).
Proof.
  unfold set_limits.
  rewrite (bind_Ret _ _ _ _ _ (set_flag "dimlim" 1 self (or_intror eq_refl))).
  rewrite (bind_Ret _ _ _ _ _ (set_flag "dimtol" 0 _ (or_introl eq_refl))).
  match goal with |- tolerance_flags (fst (?rest ?s)) = _ =>
    assert (Hk : keeps same_flags rest) by keeps_flags;
    rewrite (Hk s)
  end.
  unfold tolerance_flags. simpl.
  now rewrite ?lookup_insert_eq, ?lookup_insert_ne, ?lookup_insert_eq by discriminate.
Qed.

(** C4. Tolerance and limits exclude each other whatever the order of the
    calls: after [set_tolerance] the record has [dimtol] 1 and [dimlim]
    0, after [set_limits] it has [dimlim] 1 and [dimtol] 0; so
    [set_tolerance] then [set_limits] leaves tolerance 0 and limits 1, the
    reverse order leaves tolerance 1 and limits 0, and after any sequence
    of calls the flags are those of the last call. *)
Theorem tolerance_and_limits_exclusive (self : t) :
  (forall upper lower hfactor align dec lz tz,
     tolerance_flags (after_call self (Tolerance upper lower hfactor align dec lz tz))
     = (Some (PInt 1), Some (PInt 0)))
  /\ (forall upper lower hfactor dec lz tz,
        tolerance_flags (after_call self (Limits upper lower hfactor dec lz tz))
        = (Some (PInt 0), Some (PInt 1)))
  /\ (forall u1 l1 h1 a1 d1 lz1 tz1 u2 l2 h2 d2 lz2 tz2,
        tolerance_flags (after_calls self [Tolerance u1 l1 h1 a1 d1 lz1 tz1;
                                           Limits u2 l2 h2 d2 lz2 tz2])
        = (Some (PInt 0), Some (PInt 1))
        /\ tolerance_flags (after_calls self [Limits u2 l2 h2 d2 lz2 tz2;
                                              Tolerance u1 l1 h1 a1 d1 lz1 tz1])
           = (Some (PInt 1), Some (PInt 0)))
  /\ (forall (cs : list setter_call) (c : setter_call),
        tolerance_flags (after_calls self (cs ++ [c]))
        = match c with
          | Tolerance _ _ _ _ _ _ _ => (Some (PInt 1), Some (PInt 0))
          | Limits _ _ _ _ _ _ => (Some (PInt 0), Some (PInt 1))
          end).
Proof.
  assert (Hlast : forall s c,
            tolerance_flags (after_call s c)
            = match c with
              | Tolerance _ _ _ _ _ _ _ => (Some (PInt 1), Some (PInt 0))
              | Limits _ _ _ _ _ _ => (Some (PInt 0), Some (PInt 1))
              end).
  { intros s [u l h a d lz tz | u l h d lz tz]; simpl.
    - apply set_tolerance_flags.
    - apply set_limits_flags. }
  split; [|split; [|split]].
  - intros. apply (Hlast self (Tolerance _ _ _ _ _ _ _)).
  - intros. apply (Hlast self (Limits _ _ _ _ _ _)).
  - intros. split.
    + apply (Hlast _ (Limits _ _ _ _ _ _)).
    + apply (Hlast _ (Tolerance _ _ _ _ _ _ _)).
  - intros cs c. unfold after_calls. rewrite fold_left_app. simpl. apply Hlast.
Qed.


(** ** Access to the namespace *)

Lemma version_ok_not_R12 (self : t) (d : Drawing) (a : DXFAttr) :
  doc self = Some d -> dxfversion d <> R12 ->
  dxfversion_of a = DXF12 \/ dxfversion_of a = DXF2000 -> version_ok self a = true.
Proof.
  intros Hd Hv Ha. unfold version_ok. rewrite Hd.
  destruct Ha as [-> | ->]; destruct (dxfversion d); try reflexivity; congruence.
Qed.

Lemma get_stored_run (key : string) (default : pyval) (a : DXFAttr) (self : t) :
  DXFATTRIBS key = Some a -> version_ok self a = true ->
  get_stored key default self
  = (self, Ret (match dxf self !! key with Some v => v | None => default end)).
Proof.
  intros Ha Hv. unfold get_stored, supported, bind, gets. now rewrite Ha, Hv.
Qed.

Lemma set_stored_run (key : string) (value : pyval) (a : DXFAttr) (self : t) :
  DXFATTRIBS key = Some a -> version_ok self a = true ->
  set_stored key value self = (with_dxf (fun ns => <[key := value]> ns) self, Ret tt).
Proof.
  intros Ha Hv. unfold set_stored, supported, bind, modify. now rewrite Ha, Hv.
Qed.

Lemma set_dxf_attrib_callback (key : string) (value : pyval) (a : DXFAttr)
    (getter setter : string) (self : t) :
  DXFATTRIBS key = Some a -> xtype_of a = Callback getter setter ->
  version_ok self a = true ->
  set_dxf_attrib key value self = call_setter setter value self.
Proof.
  intros Ha Hx Hv. unfold set_dxf_attrib, supported, bind. now rewrite Ha, Hv, Hx.
Qed.

Lemma get_dxf_attrib_callback (key : string) (default : pyval) (a : DXFAttr)
    (getter setter : string) (self : t) :
  DXFATTRIBS key = Some a -> xtype_of a = Callback getter setter ->
  version_ok self a = true ->
  get_dxf_attrib key default self = call_getter getter self.
Proof.
  intros Ha Hx Hv. unfold get_dxf_attrib, supported, bind. now rewrite Ha, Hv, Hx.
Qed.

(** ** Arrow names that name nothing *)

Lemma unknown_arrow_inv (d : Drawing) (name : string) :
  unknown_arrow d name = true ->
  String.eqb name closed_filled = false /\ is_acad_arrow name = false
  /\ blocks d !! name = None.
Proof.
  unfold unknown_arrow. rewrite !andb_true_iff, !negb_true_iff.
  intros [[H1 H2] H3]. apply bool_decide_eq_true in H3. auto.
Qed.

Lemma set_blk_handle_unknown (attr name : string) (self : t) (d : Drawing) :
  doc self = Some d -> unknown_arrow d name = true ->
  _set_blk_handle attr name self = (self, Raise (block_does_not_exist name)).
Proof.
  intros Hd Hu. apply unknown_arrow_inv in Hu as (H1 & H2 & H3).
  unfold _set_blk_handle. rewrite H1, H2.
  unfold bind, the_doc, ret. rewrite Hd. simpl. rewrite Hd. now rewrite H3.
Qed.

Lemma set_arrows_dispatch (blk blk1 blk2 : string) (self : t) :
  set_dxf_attrib "dimblk" (PStr blk) self = set_dimblk blk self
  /\ set_dxf_attrib "dimblk1" (PStr blk1) self = set_dimblk1 blk1 self
  /\ set_dxf_attrib "dimblk2" (PStr blk2) self = set_dimblk2 blk2 self.
Proof.
  split; [|split].
  - rewrite (set_dxf_attrib_callback "dimblk" _
               (callback_attr (Code 5) "get_dimblk" "set_dimblk" DXF12)
               "get_dimblk" "set_dimblk"); try reflexivity.
    now apply version_ok_DXF12.
  - rewrite (set_dxf_attrib_callback "dimblk1" _
               (callback_attr (Code 6) "get_dimblk1" "set_dimblk1" DXF12)
               "get_dimblk1" "set_dimblk1"); try reflexivity.
    now apply version_ok_DXF12.
  - rewrite (set_dxf_attrib_callback "dimblk2" _
               (callback_attr (Code 7) "get_dimblk2" "set_dimblk2" DXF12)
               "get_dimblk2" "set_dimblk2"); try reflexivity.
    now apply version_ok_DXF12.
Qed.

(** C7, as the code has it. A name that is neither the closed filled
    arrow, nor a built-in arrow name, nor the name of a block of the
    document is refused by [_set_blk_handle] and by [set_arrows] (for
    each of its three names, once the names before it are set) with
    [DXFValueError]; the message is [Block <name> does not exist.] with
    the refused name and without quotes around it, and the record is left
    as it was before the refused setter. *)
Theorem unknown_arrow_is_refused (self : t) (d : Drawing) :
  doc self = Some d ->
  (forall attr name, unknown_arrow d name = true ->
     _set_blk_handle attr name self
     = (self, Raise (DXFValueError ("Block " +:+ name +:+ " does not exist."))))
  /\ (forall blk blk1 blk2, unknown_arrow d blk = true ->
        set_arrows blk blk1 blk2 self
        = (self, Raise (DXFValueError ("Block " +:+ blk +:+ " does not exist."))))
  /\ (forall blk blk1 blk2 s1 d1,
        set_dimblk blk self = (s1, Ret tt) ->
        doc s1 = Some d1 -> unknown_arrow d1 blk1 = true ->
        set_arrows blk blk1 blk2 self
        = (s1, Raise (DXFValueError ("Block " +:+ blk1 +:+ " does not exist."))))
  /\ (forall blk blk1 blk2 s1 s2 d2,
        set_dimblk blk self = (s1, Ret tt) ->
        set_dimblk1 blk1 s1 = (s2, Ret tt) ->
        doc s2 = Some d2 -> unknown_arrow d2 blk2 = true ->
        set_arrows blk blk1 blk2 self
        = (s2, Raise (DXFValueError ("Block " +:+ blk2 +:+ " does not exist.")))).
Proof.
  intros Hd. split; [|split; [|split]].
  - intros attr name Hu. now apply set_blk_handle_unknown with d.
  - intros blk blk1 blk2 Hu. unfold set_arrows.
    apply bind_Raise.
    destruct (set_arrows_dispatch blk blk1 blk2 self) as (-> & _).
    now apply set_blk_handle_unknown with d.
  - intros blk blk1 blk2 s1 d1 H1 Hd1 Hu. unfold set_arrows.
    destruct (set_arrows_dispatch blk blk1 blk2 self) as (E0 & _).
    rewrite <- E0 in H1. rewrite (bind_Ret _ _ _ _ _ H1).
    apply bind_Raise.
    destruct (set_arrows_dispatch blk blk1 blk2 s1) as (_ & -> & _).
    now apply set_blk_handle_unknown with d1.
  - intros blk blk1 blk2 s1 s2 d2 H1 H2 Hd2 Hu. unfold set_arrows.
    destruct (set_arrows_dispatch blk blk1 blk2 self) as (E0 & _).
    rewrite <- E0 in H1. rewrite (bind_Ret _ _ _ _ _ H1).
    destruct (set_arrows_dispatch blk blk1 blk2 s1) as (_ & E1 & _).
    rewrite <- E1 in H2. rewrite (bind_Ret _ _ _ _ _ H2).
    apply bind_Raise.
    destruct (set_arrows_dispatch blk blk1 blk2 s2) as (_ & _ & ->).
    now apply set_blk_handle_unknown with d2.
Qed.


(** ** Reading the text style and the linetypes *)

Lemma get_text_style_run (self : t) (d : Drawing) :
  doc self = Some d -> dxfversion d <> R12 ->
  get_text_style self =
    let handle := match dxf self !! "dimtxsty_handle" with Some v => v | None => PNone end in
    if truthy handle then
      match entitydb_item d handle with
      | Ret name => (self, Ret (PStr name))
      | Raise e =>
          if is_DXFKeyError e
          then (add_log (Log "root" "WARNING"
                           ("Invalid text style handle " +:+ dq +:+ pystr handle +:+ dq +:+ "."))
                        self, Ret (PStr "STANDARD"))
          else (self, Raise e)
      end
    else (add_log (Log "root" "WARNING"
                     ("DIMSTYLE " +:+ dq +:+ pystr (dxf_name self) +:+ dq
                      +:+ ": text style handle not set."))
                  self, Ret (PStr "Standard")).
Proof.
  intros Hd Hv. unfold get_text_style.
  rewrite (bind_Ret _ _ _ _ _
             (get_stored_run "dimtxsty_handle" PNone (DXFAttr_ (Code 340) DXF2000) self
                eq_refl (version_ok_not_R12 self d (DXFAttr_ (Code 340) DXF2000) Hd Hv
                           (or_intror eq_refl)))).
  cbv zeta.
  destruct (truthy _); [|reflexivity].
  unfold get_text_style_by_handle, bind, the_doc. rewrite Hd.
  destruct (entitydb_item d _) as [name|e]; [reflexivity|].
  destruct (is_DXFKeyError e); reflexivity.
Qed.


Lemma version_ok_R2007 (self : t) (d : Drawing) (a : DXFAttr) :
  doc self = Some d -> String.ltb (acad_tag (dxfversion d)) "AC1021" = false ->
  dxfversion_of a = DXF2007 -> version_ok self a = true.
Proof.
  intros Hd Hv Ha. unfold version_ok. rewrite Hd, Ha. unfold DXF2007. now rewrite Hv.
Qed.



(** ** Arrow names through the handles *)










Lemma set_dimtsz_run (self : t) :
  set_dxf_attrib "dimtsz" (PInt 0) self
  = (with_dxf (fun ns => <["dimtsz" := PInt 0]> ns) self, Ret tt).
Proof.
  rewrite (set_dxf_attrib_stored "dimtsz" _ (DXFAttr_ (Code 142) DXF12)) by reflexivity.
  now rewrite version_ok_DXF12.
Qed.


End DimStyleFacts.

(** ** The sample library and document *)

Section SampleFacts.
Import DimStyle Sample.





(** In the sample document, which has no block ["NOPE"], the name is
    refused by both setters. *)
Lemma unknown_arrow_is_refused_witness :
  @_set_blk_handle sample_library "dimblk_handle" "NOPE" sample_dimstyle
  = (sample_dimstyle, Raise (DXFValueError "Block NOPE does not exist."))
  /\ @set_arrows sample_library "NOPE" "" "" sample_dimstyle
     = (sample_dimstyle, Raise (DXFValueError "Block NOPE does not exist.")).
Proof.
  destruct (@unknown_arrow_is_refused sample_library sample_dimstyle sample_doc eq_refl)
    as (H1 & H2 & _).
  split.
  - apply (H1 "dimblk_handle" "NOPE"). vm_compute. reflexivity.
  - apply (H2 "NOPE" "" ""). vm_compute. reflexivity.
Defined.

(** The message is not the one with the quoted name. *)
Lemma unknown_arrow_message_unquoted :
  @_set_blk_handle sample_library "dimblk_handle" "NOPE" sample_dimstyle
  = (sample_dimstyle, Raise (DXFValueError "Block NOPE does not exist."))
  /\ @_set_blk_handle sample_library "dimblk_handle" "NOPE" sample_dimstyle
     <> (sample_dimstyle,
         Raise (DXFValueError ("Block " +:+ dq +:+ "NOPE" +:+ dq +:+ " does not exist."))).
Proof.
  assert (E : @_set_blk_handle sample_library "dimblk_handle" "NOPE" sample_dimstyle
              = (sample_dimstyle, Raise (DXFValueError "Block NOPE does not exist."))).
  { vm_compute. reflexivity. }
  split; [exact E|]. rewrite E. intros Heq. injection Heq as Heq. discriminate Heq.
Qed.



End SampleFacts.

(** * Composite entities of the frontend *)

Section FrontendFacts.
Import Frontend.
Variables RenderContext Properties DrawCall : Type.
Variable resolve_all : RenderContext -> DXFGraphic -> Properties.
Variable push_state : Properties -> RenderContext -> RenderContext.
Variable pop_state : RenderContext -> RenderContext.
Variables _draw_line_entity _draw_text_entity _draw_curve_entity _draw_misc_entity :
  DXFGraphic -> RenderContext -> list (backend_call DrawCall) * outcome unit.

Local Abbreviation state := (fstate RenderContext DrawCall).
Local Abbreviation composite :=
  (_draw_composite_entity RenderContext Properties DrawCall resolve_all push_state pop_state).

Lemma set_transparency_transparency (v : float) (e : DXFGraphic) :
  transparency (set_transparency v e) = v.
Proof. now destruct e. Qed.

(** C9. For a DIMENSION entity whose expansion succeeds,
    [_draw_composite_entity] draws, between the push and the pop of the
    entity on the parent stack, the children of the expansion with their
    transparency set to 0.0: every child drawn is opaque, and they are the
    children of the expansion, one for one and in their order. When the
    expansion raises, nothing is drawn and the failure is printed. *)
Theorem dimension_children_opaque
    (draw_entity : DXFGraphic -> exec state unit)
    (ns : gmap string pyval) (tr : float) (ats children : list DXFGraphic) :
  let opaque := map (set_transparency 0%float) children in
  (composite draw_entity (Entity "DIMENSION" ns tr ats children None)
   = bind (stack_append _ _ (Entity "DIMENSION" ns tr ats children None))
       (fun _ => bind (for_each draw_entity opaque) (fun _ => stack_pop _ _)))
  /\ Forall (fun child => transparency child = 0%float) opaque
  /\ length opaque = length children
  /\ (forall i child, children !! i = Some child ->
        opaque !! i = Some (set_transparency 0%float child))
  /\ (forall e s,
        composite draw_entity (Entity "DIMENSION" ns tr ats children (Some e)) s
        = ({| ctx := ctx _ _ s; out := out _ _ s; parent_stack := parent_stack _ _ s;
              printed := printed _ _ s ++ [("failed to get children of dimension entity", e)] |},
           Ret tt)).
Proof.
  intros opaque. split; [reflexivity|]. split; [|split; [|split]].
  - unfold opaque. apply Forall_forall. intros c Hc.
    apply list_elem_of_fmap in Hc as (c' & -> & _).
    apply set_transparency_transparency.
  - unfold opaque. apply length_map.
  - intros i child Hi. unfold opaque.
    change (map (set_transparency 0%float) children)
      with (set_transparency 0%float <$> children).
    now rewrite list_lookup_fmap, Hi.
  - intros e s. reflexivity.
Qed.

(** [draw_entity] itself does not take a DIMENSION entity for a composite
    one: its name is not in [COMPOSITE_ENTITY_TYPES], and the entity is
    handed to the backend as ignored. *)
Lemma draw_entity_ignores_dimension
    (ns : gmap string pyval) (tr : float) (ats children : list DXFGraphic)
    (r : option exn) (s : state) :
  let entity := Entity "DIMENSION" ns tr ats children r in
  draw_entity RenderContext Properties DrawCall resolve_all push_state pop_state
    _draw_line_entity _draw_text_entity _draw_curve_entity _draw_misc_entity entity s
  = ({| ctx := ctx _ _ s;
        out := ((out _ _ s ++ [set_current_entity _ (Some entity) (parent_stack _ _ s)])
                ++ [ignored_entity _ entity]) ++ [set_current_entity _ None []];
        parent_stack := parent_stack _ _ s; printed := printed _ _ s |}, Ret tt).
Proof. reflexivity. Qed.

End FrontendFacts.

(** * The linear dimension renderer *)

Section RenderFacts.
Import Render.
Context `{Env}.

Lemma bind_inv_keeps {A B} (R : state -> state -> Prop)
    (m : exec state A) (k : A -> exec state B) s s2 o :
  keeps R m -> bind m k s = (s2, o) ->
  (exists e, R s s2 /\ o = Raise e) \/
  (exists s1 a, R s s1 /\ k a s1 = (s2, o)).
Proof.
  intros Hk Hb. specialize (Hk s). apply bind_inv in Hb.
  destruct Hb as [(e & Hm & ->) | (s1 & a & Hm & Hb)]; rewrite Hm in Hk; simpl in Hk.
  - left. eauto.
  - right. eauto.
Qed.

Lemma same_text_refl s : same_text s s.
Proof. repeat split. Qed.

Lemma same_text_trans a b c : same_text a b -> same_text b c -> same_text a c.
Proof. unfold same_text. intros (?&?&?) (?&?&?). repeat split; congruence. Qed.

Lemma text_prims_app (b1 b2 : list prim) :
  text_prims (b1 ++ b2) = text_prims b1 ++ text_prims b2.
Proof. unfold text_prims. apply omap_app. Qed.

Lemma keeps_style_get (attribute : string) (default : pyval) :
  keeps same_text (style_get attribute default).
Proof.
  intros s. unfold style_get.
  destruct (DimStyleOverride.get _ _ _ _ _) as [r o]. simpl.
  split; [reflexivity|split; reflexivity].
Qed.

Lemma keeps_block_add (p : prim) :
  (forall label a pos al, p <> Text label a pos al) ->
  keeps same_text (modify (block_add p)).
Proof.
  intros Hp s. simpl. split; [reflexivity|split; [reflexivity|]].
  simpl. rewrite text_prims_app. simpl.
  destruct p; try (now rewrite app_nil_r). exfalso. eapply Hp. reflexivity.
Qed.

Lemma keeps_for_each {A} (body : A -> exec state unit) (xs : list A) :
  (forall x, keeps same_text (body x)) -> keeps same_text (Frontend.for_each body xs).
Proof.
  intros Hb. induction xs as [|x xs IH]; simpl.
  - apply (keeps_ret _ same_text_refl).
  - apply (keeps_bind _ same_text_trans); [apply Hb|]. intros _. exact IH.
Qed.

Ltac keeps_text :=
  repeat first
    [ apply (keeps_ret _ same_text_refl)
    | apply (keeps_raise _ same_text_refl)
    | apply (keeps_lift _ same_text_refl)
    | apply (keeps_gets _ same_text_refl)
    | apply keeps_style_get
    | apply keeps_block_add; discriminate
    | apply keeps_for_each; intros
    | apply (keeps_modify _); intros ?; split; [reflexivity|split; reflexivity]
    | apply (keeps_bind _ same_text_trans); [|intros]
    | match goal with
      | |- keeps _ (if ?b then _ else _) => destruct b
      | |- keeps _ (match ?x with _ => _ end) => destruct x
      | |- keeps _ (let 'pair _ _ := ?x in _) => destruct x
      end ].

Lemma keeps_text_height : keeps same_text text_height.
Proof. unfold text_height. keeps_text. Qed.

Lemma keeps_suppress1 : keeps same_text suppress_extension_line1.
Proof. unfold suppress_extension_line1. keeps_text. Qed.

Lemma keeps_suppress2 : keeps same_text suppress_extension_line2.
Proof. unfold suppress_extension_line2. keeps_text. Qed.

Lemma keeps_format_text value : keeps same_text (format_text value).
Proof. unfold format_text. keeps_text. Qed.

Lemma keeps_get_text measurement : keeps same_text (get_text measurement).
Proof. unfold get_text, dim. keeps_text. Qed.

Lemma keeps_get_arrow_names : keeps same_text get_arrow_names.
Proof. unfold get_arrow_names. keeps_text. Qed.

Lemma keeps_add_line a b attribs : keeps same_text (add_line a b attribs).
Proof. unfold add_line, default_attributes, dim. keeps_text. Qed.

Lemma keeps_add_blockref name insert rotation scale reverse attribs :
  keeps same_text (add_blockref name insert rotation scale reverse attribs).
Proof. unfold add_blockref, default_attributes, dim. keeps_text. Qed.

Lemma keeps_add_defpoints points : keeps same_text (add_defpoints points).
Proof. unfold add_defpoints. keeps_text. Qed.

Lemma keeps_add_extension_line a b : keeps same_text (add_extension_line a b).
Proof. unfold add_extension_line, scaled, dim. keeps_text. Qed.

Lemma keeps_add_arrows a b blk1 blk2 : keeps same_text (add_arrows a b blk1 blk2).
Proof. unfold add_arrows, dim. keeps_text. all: apply keeps_add_blockref. Qed.

Lemma keeps_add_dimension_line a b blk1 blk2 :
  keeps same_text (add_dimension_line a b blk1 blk2).
Proof. unfold add_dimension_line, scaled, dim. keeps_text. Qed.

Lemma keeps_get_text_midpoint a b : keeps same_text (get_text_midpoint a b).
Proof. unfold get_text_midpoint. keeps_text. Qed.


Ltac keeps_any :=
  first [ apply keeps_style_get | apply keeps_text_height | apply keeps_suppress1
        | apply keeps_suppress2 | apply keeps_get_text | apply keeps_get_arrow_names
        | apply keeps_add_line | apply keeps_add_blockref | apply keeps_add_defpoints
        | apply keeps_add_extension_line | apply keeps_add_arrows
        | apply keeps_add_dimension_line | apply keeps_get_text_midpoint
        | keeps_text ].

(** One step of a run: the head of [Hrun] keeps [same_text]; either it
    raised, or the run goes on from a state related to the first one. *)
Ltac kstep Hrun HW :=
  match type of Hrun with
  | bind ?m ?k ?sc = _ =>
      let Hk := fresh "Hk" in
      assert (Hk : keeps same_text m) by keeps_any;
      apply (bind_inv_keeps same_text m k sc _ _ Hk) in Hrun; clear Hk;
      let e := fresh "e" in
      let s1 := fresh "s" in
      let a := fresh "a" in
      let HW' := fresh "HW" in
      destruct Hrun as [(e & HW' & ->) | (s1 & a & HW' & Hrun)];
      pose proof (same_text_trans _ _ _ HW HW') as HW'';
      clear HW HW'; rename HW'' into HW
  end.

Lemma add_measurement_text_run (dim_text : string) (pos : Vector) (s s1 : state) o :
  add_measurement_text dim_text pos s = (s1, o) ->
  text_midpoint (dimension s1) = text_midpoint (dimension s)
  /\ text (dimension s1) = text (dimension s)
  /\ (((exists e, o = Raise e) /\ text_prims (block s1) = text_prims (block s))
      \/ (o = Ret tt
          /\ text_prims (block s1) = text_prims (block s) ++ [(dim_text, to_ocs pos)])).
Proof.
  intros Hrun. pose proof (same_text_refl s) as HW.
  unfold add_measurement_text, add_text in Hrun.
  kstep Hrun HW; [destruct HW as (?&?&?); eauto 8|].
  kstep Hrun HW; [destruct HW as (?&?&?); eauto 8|].
  kstep Hrun HW; [destruct HW as (?&?&?); eauto 8|].
  kstep Hrun HW; [destruct HW as (?&?&?); eauto 8|].
  kstep Hrun HW; [destruct HW as (?&?&?); eauto 8|].
  kstep Hrun HW; [destruct HW as (?&?&?); eauto 8|].
  destruct HW as (H1 & H2 & H3).
  unfold modify in Hrun. injection Hrun as <- <-. simpl.
  split; [exact H1|]. split; [exact H2|]. right. split; [reflexivity|].
  rewrite text_prims_app, H3. reflexivity.
Qed.


Lemma defpoints_to_wcs_run (s s' : state) o :
  defpoints_to_wcs s = (s', o) ->
  text_prims (block s') = text_prims (block s)
  /\ text (dimension s') = text (dimension s)
  /\ match text_midpoint (dimension s) with
     | Some p => o = Ret tt /\ text_midpoint (dimension s') = Some (to_ocs p)
     | None => exists e, o = Raise e
     end.
Proof.
  unfold defpoints_to_wcs, bind, modify, dim, gets. simpl.
  destruct (text_midpoint (dimension s)) as [p|] eqn:Hp; simpl;
    intros [= <- <-]; simpl; eauto.
Qed.

(** All that follows the text keeps the texts of the block; when it
    returns, the stored midpoint was converted by [to_ocs]. *)
Lemma render_rest_run (a b : Vector) (s s' : state) o :
  render_rest a b s = (s', o) ->
  text_prims (block s') = text_prims (block s)
  /\ text (dimension s') = text (dimension s)
  /\ (o = Ret tt ->
      exists p, text_midpoint (dimension s) = Some p
                /\ text_midpoint (dimension s') = Some (to_ocs p)).
Proof.
  intros Hrun. pose proof (same_text_refl s) as HW.
  unfold render_rest in Hrun.
  do 11 (kstep Hrun HW;
         [destruct HW as (?&?&?); split; [assumption|split; [assumption|discriminate]]|]).
  destruct HW as (H1 & H2 & H3).
  apply defpoints_to_wcs_run in Hrun as (H4 & H5 & H6).
  split; [congruence|]. split; [congruence|].
  intros ->. rewrite H1 in H6.
  destruct (text_midpoint (dimension s)) as [p|].
  - exists p. split; [reflexivity|apply H6].
  - destruct H6 as [e He]. discriminate.
Qed.

(** The placing of the measurement text. *)
Lemma render_text_run (dim_text : string) (a b : Vector) (s s1 : state) o :
  render_text dim_text a b s = (s1, o) ->
  text (dimension s1) = text (dimension s)
  /\ (((exists e, o = Raise e) /\ text_prims (block s1) = text_prims (block s))
      \/ (o = Ret tt /\ dim_text = "" /\ s1 = s)
      \/ (o = Ret tt /\ dim_text <> ""
          /\ exists pos,
               text_prims (block s1) = text_prims (block s) ++ [(dim_text, to_ocs pos)]
               /\ text_midpoint (dimension s1) = Some pos
               /\ (text_midpoint (dimension s) = Some pos
                   \/ (text_midpoint (dimension s) = None
                       /\ exists sa sb, get_text_midpoint a b sa = (sb, Ret pos))))).
Proof.
  unfold render_text. destruct (String.eqb_spec dim_text "") as [-> | Hne]; simpl.
  - intros [= <- <-]. split; [reflexivity|]. right. left. auto.
  - unfold bind at 1, dim, gets.
    destruct (text_midpoint (dimension s)) as [pos|] eqn:Hmid.
    + unfold bind at 1, ret. intros Hrun.
      apply add_measurement_text_run in Hrun as (H1 & H2 & [[He H3] | [-> H3]]).
      * split; [exact H2|]. left. auto.
      * split; [exact H2|]. right. right. split; [reflexivity|]. split; [exact Hne|].
        exists pos. split; [exact H3|]. split; [congruence|]. left. reflexivity.
    + intros Hrun. apply bind_inv in Hrun.
      destruct Hrun as [(e & Hrun & ->) | (s2 & pos & Hrun & Hadd)].
      * (* the computation of the midpoint raised *)
        apply bind_inv in Hrun.
        destruct Hrun as [(e' & Hrun & [= ->]) | (s3 & pos & Hrun & Hrest)].
        -- pose proof (keeps_get_text_midpoint a b s) as HW. rewrite Hrun in HW.
           destruct HW as (_ & H2 & H3). split; [exact H2|]. left. eauto.
        -- unfold bind, modify, ret in Hrest. discriminate.
      * apply bind_inv in Hrun.
        destruct Hrun as [(e' & Hrun & [=]) | (s3 & pos' & Hrun & Hrest)].
        unfold bind, modify, ret in Hrest. injection Hrest as <- <-.
        pose proof (keeps_get_text_midpoint a b s) as HW. rewrite Hrun in HW.
        destruct HW as (_ & H2 & H3). simpl in *.
        apply add_measurement_text_run in Hadd as (H4 & H5 & [[He H6] | [-> H6]]);
          simpl in *.
        -- split; [congruence|]. left. split; [exact He|congruence].
        -- split; [congruence|]. right. right.
           split; [reflexivity|]. split; [exact Hne|].
           exists pos'. split; [congruence|]. split; [exact H4|].
           right. split; [reflexivity|]. eauto.
Qed.


Ltac kstep_as Hrun HW x :=
  match type of Hrun with
  | bind ?m ?k ?sc = _ =>
      let Hk := fresh "Hk" in
      assert (Hk : keeps same_text m) by keeps_any;
      apply (bind_inv_keeps same_text m k sc _ _ Hk) in Hrun; clear Hk;
      let e := fresh "e" in
      let s1 := fresh "s" in
      let HW' := fresh "HW" in
      destruct Hrun as [(e & HW' & ->) | (s1 & x & HW' & Hrun)];
      pose proof (same_text_trans _ _ _ HW HW') as HW'';
      clear HW HW'; rename HW'' into HW;
      cbv beta zeta in *
  end.

Lemma get_text_suppressed (measurement : float) (s : state) :
  text (dimension s) = " " -> get_text measurement s = (s, Ret "").
Proof. intros Ht. unfold get_text, bind, dim, gets. now rewrite Ht. Qed.

Lemma get_text_measured (measurement : float) (s : state) :
  text (dimension s) = "" \/ text (dimension s) = "<>" ->
  get_text measurement s = format_text measurement s.
Proof. intros [Ht | Ht]; unfold get_text, bind, dim, gets; now rewrite Ht. Qed.

Lemma get_text_verbatim (measurement : float) (s : state) :
  text (dimension s) <> " " -> text (dimension s) <> "" -> text (dimension s) <> "<>" ->
  get_text measurement s = (s, Ret (text (dimension s))).
Proof.
  intros H1 H2 H3. unfold get_text, bind, dim, gets.
  destruct (String.eqb_spec (text (dimension s)) " "); [contradiction|].
  destruct (String.eqb_spec (text (dimension s)) ""); [contradiction|].
  destruct (String.eqb_spec (text (dimension s)) "<>"); [contradiction|].
  reflexivity.
Qed.

(** What a run of [render] does to the measurement texts of the block and
    to the stored text midpoint: either no text was added, or one was, with
    the label [get_text] returned, at [to_ocs] of the stored midpoint, or of
    the computed one when none was stored. *)
Lemma render_run (s s' : state) o :
  render s = (s', o) ->
  (text_prims (block s') = text_prims (block s)
   /\ (o = Ret tt ->
       exists p, text_midpoint (dimension s) = Some p
                 /\ text_midpoint (dimension s') = Some (to_ocs p)))
  \/ (exists label pos,
        text_prims (block s') = text_prims (block s) ++ [(label, to_ocs pos)]
        /\ label <> ""
        /\ (exists m sa sb, text (dimension sa) = text (dimension s)
                            /\ get_text m sa = (sb, Ret label))
        /\ (text_midpoint (dimension s) = Some pos
            \/ (text_midpoint (dimension s) = None
                /\ exists a b sa sb, get_text_midpoint a b sa = (sb, Ret pos)))
        /\ (o = Ret tt -> text_midpoint (dimension s') = Some (to_ocs pos))).
Proof.
  intros Hrun. pose proof (same_text_refl s) as HW.
  unfold render in Hrun.
  kstep_as Hrun HW d; [destruct HW as (?&?&?); left; split; [assumption|discriminate]|].
  kstep_as Hrun HW dimline_start;
    [destruct HW as (?&?&?); left; split; [assumption|discriminate]|].
  kstep_as Hrun HW dimline_end;
    [destruct HW as (?&?&?); left; split; [assumption|discriminate]|].
  kstep_as Hrun HW u; [destruct HW as (?&?&?); left; split; [assumption|discriminate]|].
  kstep_as Hrun HW dimlfac;
    [destruct HW as (?&?&?); left; split; [assumption|discriminate]|].
  kstep_as Hrun HW lfac; [destruct HW as (?&?&?); left; split; [assumption|discriminate]|].
  (* the label *)
  apply bind_inv in Hrun.
  destruct Hrun as [(e & Hget & ->) | (s6 & dim_text & Hget & Hrun)].
  { match type of Hget with
    | get_text ?m ?sc = _ => pose proof (keeps_get_text m sc) as HW'
    end.
    rewrite Hget in HW'. simpl in HW'.
    destruct (same_text_trans _ _ _ HW HW') as (?&?&?).
    left. split; [assumption|discriminate]. }
  assert (HW6 : same_text s s6).
  { match type of Hget with
    | get_text ?m ?sc = _ => pose proof (keeps_get_text m sc) as HW'
    end.
    rewrite Hget in HW'. simpl in HW'.
    exact (same_text_trans _ _ _ HW HW'). }
  destruct HW as (_ & Htext4 & _). destruct HW6 as (Hmid6 & Htext6 & Hprims6).
  change (bind (render_text dim_text dimline_start dimline_end)
               (fun _ => render_rest dimline_start dimline_end) s6 = (s', o)) in Hrun.
  apply bind_inv in Hrun.
  destruct Hrun as [(e & Htext & ->) | (s7 & [] & Htext & Hrest)].
  - apply render_text_run in Htext as (_ & [[_ Hp] | [[[=] _] | [[=] _]]]).
    left. split; [congruence|discriminate].
  - apply render_text_run in Htext
      as (Ht7 & [[[e [=]] _] | [(_ & -> & ->) | (_ & Hne & pos & Hp & Hm & Horigin)]]).
    + apply render_rest_run in Hrest as (Hp' & _ & Hret).
      left. split; [congruence|]. intros Ho. destruct (Hret Ho) as (p & Hp1 & Hp2).
      exists p. split; [congruence|exact Hp2].
    + apply render_rest_run in Hrest as (Hp' & _ & Hret).
      right. exists dim_text, pos.
      split; [congruence|]. split; [exact Hne|].
      split; [do 3 eexists; split; [exact Htext4|exact Hget]|].
      split.
      * destruct Horigin as [Ho | [Ho Hc]]; [left; congruence|].
        right. split; [congruence|]. eauto.
      * intros Ho. destruct (Hret Ho) as (p & Hp1 & Hp2). congruence.
Qed.


(** A render that returns, taken apart: the ends of the dimension line,
    the label, the placing of the text and the rest. *)
Lemma render_inv (s s' : state) :
  render s = (s', Ret tt) ->
  exists start end_ label sl st,
    dimline_ends (dimension s) = Ret (start, end_)
    /\ labelled s start end_ label sl
    /\ render_text label start end_ sl = (st, Ret tt)
    /\ render_rest start end_ st = (s', Ret tt).
Proof.
  unfold render. intros Hrun.
  apply bind_inv in Hrun as [(e & _ & [=]) | (s1 & d & H1 & Hrun)].
  unfold dim, gets in H1. injection H1 as <- <-. cbv zeta in Hrun.
  apply bind_inv in Hrun as [(e & _ & [=]) | (s2 & start & H2 & Hrun)].
  unfold lift in H2. injection H2 as <- H2.
  apply bind_inv in Hrun as [(e & _ & [=]) | (s3 & end_ & H3 & Hrun)].
  unfold lift in H3. injection H3 as <- H3.
  apply bind_inv in Hrun as [(e & _ & [=]) | (s4 & [] & H4 & Hrun)].
  unfold modify in H4. injection H4 as <-.
  apply bind_inv in Hrun as [(e & _ & [=]) | (s0 & dimlfac & H5 & Hrun)].
  apply bind_inv in Hrun as [(e & _ & [=]) | (s6 & lfac & H6 & Hrun)].
  unfold lift in H6. injection H6 as <- H6.
  apply bind_inv in Hrun as [(e & _ & [=]) | (sl & label & H7 & Hrun)].
  change (bind (render_text label start end_)
               (fun _ => render_rest start end_) sl = (s', Ret tt)) in Hrun.
  apply bind_inv in Hrun as [(e & _ & [=]) | (st & [] & H8 & Hrun)].
  exists start, end_, label, sl, st.
  split.
  { unfold dimline_ends. cbv zeta.
    transitivity (obind (Ret start) (fun a : Vector =>
                    obind (Ret end_) (fun b : Vector => Ret (a, b)))); [|reflexivity].
    rewrite <- H2, <- H3. reflexivity. }
  split; [exists s0, dimlfac, lfac; auto|]. split; assumption.
Qed.

Lemma labelled_same_text (s sl : state) (start end_ : Vector) (label : string) :
  labelled s start end_ label sl ->
  same_text s sl
  /\ exists m s0, text (dimension s0) = text (dimension s)
                  /\ get_text m s0 = (sl, Ret label).
Proof.
  intros (s0 & dimlfac & lfac & H1 & _ & H3).
  pose proof (keeps_style_get "dimlfac" (PFloat 1)
                (with_dimension (set_defpoint start) s)) as HW1.
  rewrite H1 in HW1. simpl in HW1.
  match type of H3 with
  | get_text ?m _ = _ => pose proof (keeps_get_text m s0) as HW2
  end.
  rewrite H3 in HW2. simpl in HW2.
  assert (HW0 : same_text s (with_dimension (set_defpoint start) s))
    by (split; [reflexivity|split; reflexivity]).
  split.
  - exact (same_text_trans _ _ _ (same_text_trans _ _ _ HW0 HW1) HW2).
  - do 2 eexists. split; [|exact H3].
    destruct (same_text_trans _ _ _ HW0 HW1) as (_ & Ht & _). exact Ht.
Qed.

(** The placing of the measurement text when it returns. *)
Lemma render_text_placed (label : string) (a b : Vector) (s s1 : state) :
  render_text label a b s = (s1, Ret tt) ->
  (label = "" /\ s1 = s)
  \/ (label <> ""
      /\ exists pos,
           text_prims (block s1) = text_prims (block s) ++ [(label, to_ocs pos)]
           /\ text_midpoint (dimension s1) = Some pos
           /\ (text_midpoint (dimension s) = Some pos
               \/ (text_midpoint (dimension s) = None
                   /\ exists sb, get_text_midpoint a b s = (sb, Ret pos)))).
Proof.
  unfold render_text. destruct (String.eqb_spec label "") as [-> | Hne]; simpl.
  - intros [= <-]. left. auto.
  - intros Hrun. right. split; [exact Hne|].
    unfold bind at 1, dim, gets in Hrun.
    destruct (text_midpoint (dimension s)) as [pos|] eqn:Hmid.
    + unfold bind at 1, ret in Hrun.
      apply add_measurement_text_run in Hrun as (H1 & _ & [[[e [=]] _] | [_ H3]]).
      exists pos. split; [exact H3|]. split; [congruence|]. left. reflexivity.
    + apply bind_inv in Hrun as [(e & _ & [=]) | (s2 & pos & Hrun & Hadd)].
      apply bind_inv in Hrun as [(e & _ & [=]) | (s3 & pos' & Hrun & Hrest)].
      unfold bind, modify, ret in Hrest. injection Hrest as <- <-.
      pose proof (keeps_get_text_midpoint a b s) as HW. rewrite Hrun in HW.
      destruct HW as (_ & _ & H3). simpl in H3.
      apply add_measurement_text_run in Hadd as (H4 & _ & [[[e [=]] _] | [_ H6]]).
      simpl in H4, H6.
      exists pos'. split; [congruence|]. split; [exact H4|].
      right. split; [reflexivity|]. eauto.
Qed.

(** A render that returns: the text it adds and the midpoint it leaves. *)
Lemma render_placed (s s' : state) :
  render s = (s', Ret tt) ->
  exists start end_ label sl pos,
    dimline_ends (dimension s) = Ret (start, end_)
    /\ labelled s start end_ label sl
    /\ (text_midpoint (dimension s) = Some pos
        \/ (text_midpoint (dimension s) = None
            /\ exists sb, get_text_midpoint start end_ sl = (sb, Ret pos)))
    /\ text_midpoint (dimension s') = Some (to_ocs pos)
    /\ text_prims (block s') = text_prims (block s) ++ placed label (to_ocs pos).
Proof.
  intros Hrun.
  apply render_inv in Hrun as (start & end_ & label & sl & st & Hends & Hlab & Htext & Hrest).
  destruct (labelled_same_text _ _ _ _ _ Hlab) as ((Hm & _ & Hp) & _).
  apply render_rest_run in Hrest as (Hp' & _ & Hret).
  destruct (Hret eq_refl) as (p & Hp1 & Hp2).
  apply render_text_placed in Htext as [[-> ->] | (Hne & pos & Hq & Hmid & Horigin)].
  - exists start, end_, "", sl, p.
    split; [exact Hends|]. split; [exact Hlab|].
    split; [left; congruence|]. split; [exact Hp2|].
    unfold placed. simpl. rewrite app_nil_r. congruence.
  - exists start, end_, label, sl, pos.
    split; [exact Hends|]. split; [exact Hlab|].
    split; [destruct Horigin as [Ho | [Ho Hc]]; [left|right; split; [|exact Hc]]; congruence|].
    split; [congruence|].
    unfold placed. destruct (String.eqb_spec label ""); [contradiction|]. congruence.
Qed.

Lemma labelled_custom (s sl : state) (start end_ : Vector) (label : string) :
  labelled s start end_ label sl -> custom_text (text (dimension s)) ->
  label = text (dimension s).
Proof.
  intros Hlab (H1 & H2 & H3).
  destruct (labelled_same_text _ _ _ _ _ Hlab) as (_ & m & s0 & Ht & Hget).
  rewrite get_text_verbatim in Hget by (rewrite Ht; assumption).
  injection Hget as _ <-. exact Ht.
Qed.

Lemma snoc_not_self {A} (l : list A) (x : A) : l <> l ++ [x].
Proof.
  intros E. apply (f_equal length) in E. rewrite length_app in E. simpl in E. lia.
Qed.

(** C10. The text attribute of the DIMENSION entity decides the label. If
    it is one space, [get_text] returns the empty string and [render] adds
    no measurement text to the block. If it is empty or ["<>"], the label
    is the formatted measurement: a render that returns has added the text
    [format_text] gives for the length of the dimension line times
    [dimlfac] (no text when that is empty). Any other text is the label as
    it is, and [format_text] is not run: a render that returns has added
    a text with that label. A text that a render adds, however the render
    ends, has the label of its case. *)
Theorem text_attribute_overrides_label (s : state) (measurement : float) :
  (text (dimension s) = " " ->
     get_text measurement s = (s, Ret "")
     /\ text_prims (block (fst (render s))) = text_prims (block s))
  /\ (text (dimension s) = "" \/ text (dimension s) = "<>" ->
        get_text measurement s = format_text measurement s
        /\ (forall s1, render s = (s1, Ret tt) ->
              exists start end_ s0 dimlfac lfac sl label pos,
                dimline_ends (dimension s) = Ret (start, end_)
                /\ style_get "dimlfac" (PFloat 1) (with_dimension (set_defpoint start) s)
                   = (s0, Ret dimlfac)
                /\ as_float dimlfac = Ret lfac
                /\ format_text (magnitude (vsub start end_) * lfac)%float s0 = (sl, Ret label)
                /\ text_prims (block s1) = text_prims (block s) ++ placed label pos)
        /\ (forall label pos,
              text_prims (block (fst (render s))) = text_prims (block s) ++ [(label, pos)] ->
              exists m sa sb, format_text m sa = (sb, Ret label)))
  /\ (custom_text (text (dimension s)) ->
        get_text measurement s = (s, Ret (text (dimension s)))
        /\ (forall s1, render s = (s1, Ret tt) ->
              exists pos,
                text_prims (block s1) = text_prims (block s) ++ [(text (dimension s), pos)])
        /\ (forall label pos,
              text_prims (block (fst (render s))) = text_prims (block s) ++ [(label, pos)] ->
              label = text (dimension s))).
Proof.
  destruct (render s) as [s' o] eqn:Hrun. simpl.
  pose proof (render_run _ _ _ Hrun) as Hany.
  split; [|split].
  - intros Ht. split; [now apply get_text_suppressed|].
    destruct Hany as [[Hp _] | (label & pos & _ & Hne & (m & sa & sb & Hsa & Hget) & _)];
      [exact Hp|].
    rewrite get_text_suppressed in Hget by congruence.
    injection Hget as _ <-. contradiction.
  - intros Ht. split; [now apply get_text_measured|]. split.
    + intros s1 [= -> ->].
      apply render_placed in Hrun
        as (start & end_ & label & sl & pos & Hends & Hlab & _ & _ & Hp).
      destruct Hlab as (s0 & dimlfac & lfac & H1 & H2 & H3).
      exists start, end_, s0, dimlfac, lfac, sl, label, (to_ocs pos).
      split; [exact Hends|]. split; [exact H1|]. split; [exact H2|]. split; [|exact Hp].
      rewrite <- H3. symmetry. apply get_text_measured.
      pose proof (keeps_style_get "dimlfac" (PFloat 1)
                    (with_dimension (set_defpoint start) s)) as HW.
      rewrite H1 in HW. destruct HW as (_ & HW & _). simpl in HW. now rewrite HW.
    + intros label pos Hp.
      destruct Hany as [[Hp' _] | (label' & pos' & Hp' & _ & (m & sa & sb & Hsa & Hget) & _)].
      * rewrite Hp' in Hp. now apply snoc_not_self in Hp.
      * rewrite Hp' in Hp. apply app_inv_head in Hp. injection Hp as -> _.
        rewrite get_text_measured in Hget by (rewrite Hsa; exact Ht). eauto.
  - intros Hc. pose proof Hc as (H1 & H2 & H3).
    split; [now apply get_text_verbatim|]. split.
    + intros s1 [= -> ->].
      apply render_placed in Hrun
        as (start & end_ & label & sl & pos & _ & Hlab & _ & _ & Hp).
      rewrite (labelled_custom _ _ _ _ _ Hlab Hc) in Hp.
      exists (to_ocs pos). rewrite Hp. unfold placed.
      destruct (String.eqb_spec (text (dimension s)) ""); [contradiction|reflexivity].
    + intros label pos Hp.
      destruct Hany as [[Hp' _] | (label' & pos' & Hp' & _ & (m & sa & sb & Hsa & Hget) & _)].
      * rewrite Hp' in Hp. now apply snoc_not_self in Hp.
      * rewrite Hp' in Hp. apply app_inv_head in Hp. injection Hp as -> _.
        rewrite get_text_verbatim in Hget by (rewrite Hsa; assumption).
        injection Hget as _ <-. exact Hsa.
Qed.

(** The line [add_dimension_line] adds. *)
Lemma add_dimension_line_run (s s1 s2 : state) (start end_ direction : Vector)
    (blk1 blk2 : option string) (dimdle c : pyval) (f : float) :
  normalize (vsub end_ start) 1%float = Ret direction ->
  style_get "dimdle" (PFloat 0) s = (s1, Ret dimdle) ->
  as_float dimdle = Ret f ->
  style_get "dimclrd" (color (dimension s1)) s1 = (s2, Ret c) ->
  exists attribs,
    add_dimension_line start end_ blk1 blk2 s
    = (block_add
         (Line (to_wcs (fst (extended_outward start end_ (vmul direction f) blk1 blk2)))
               (to_wcs (snd (extended_outward start end_ (vmul direction f) blk1 blk2)))
               attribs) s2,
       Ret tt)
    /\ attribs !! "color" = Some (AVal c).
Proof.
  intros Hn Hd Hf Hc.
  exists (update (<["color" := AVal (color (dimension s2))]>
                    (<["layer" := AVal (layer (dimension s2))]> ∅))
                 (<["color" := AVal c]> ∅)).
  split.
  - unfold add_dimension_line. rewrite Hn.
    unfold bind at 1, lift. rewrite (bind_Ret _ _ _ _ _ Hd).
    unfold scaled. rewrite Hf. unfold bind at 1 2, lift, ret.
    unfold bind at 1, dim, gets. rewrite (bind_Ret _ _ _ _ _ Hc).
    unfold extended_outward, extends_line. simpl.
    destruct blk1 as [b1|], blk2 as [b2|]; reflexivity.
  - unfold update. apply lookup_union_Some_l. apply lookup_insert_eq.
Qed.

(** C2, as the code has it. [add_dimension_line] adds one line to the
    block, in the color [dimclrd]: an end with no arrow name, or whose
    arrow has an extension line, is moved by [dimdle] along the dimension
    line, the start against its direction and the end with it (outward
    for a positive [dimdle]), and any other end is left where it is; each
    end is decided on its own. *)
Theorem dimension_line_ends (s s1 s2 : state) (start end_ direction : Vector)
    (blk1 blk2 : option string) (dimdle c : pyval) (f : float) :
  normalize (vsub end_ start) 1%float = Ret direction ->
  style_get "dimdle" (PFloat 0) s = (s1, Ret dimdle) ->
  as_float dimdle = Ret f ->
  style_get "dimclrd" (color (dimension s1)) s1 = (s2, Ret c) ->
  exists attribs,
    add_dimension_line start end_ blk1 blk2 s
    = (block_add
         (Line (to_wcs (fst (extended_outward start end_ (vmul direction f) blk1 blk2)))
               (to_wcs (snd (extended_outward start end_ (vmul direction f) blk1 blk2)))
               attribs) s2,
       Ret tt)
    /\ attribs !! "color" = Some (AVal c).
Proof. apply add_dimension_line_run. Qed.

Lemma get_text_midpoint_formula (a b : Vector) (sa sb : state) (pos : Vector) :
  get_text_midpoint a b sa = (sb, Ret pos) ->
  exists s1 s2 tad height gap h g ortho,
    style_get "dimtad" (PInt 1) sa = (s1, Ret tad)
    /\ text_height s1 = (s2, Ret height)
    /\ style_get "dimgap" (PFloat 0.625) s2 = (sb, Ret gap)
    /\ as_float height = Ret h /\ as_float gap = Ret g
    /\ normalize (orthogonal (vsub b a)) (midpoint_distance tad h g) = Ret ortho
    /\ pos = vadd (lerp a b) ortho.
Proof.
  unfold get_text_midpoint. intros Hrun.
  apply bind_inv in Hrun as [(e & _ & [=]) | (s1 & tad & H1 & Hrun)].
  apply bind_inv in Hrun as [(e & _ & [=]) | (s2 & height & H2 & Hrun)].
  apply bind_inv in Hrun as [(e & _ & [=]) | (s3 & gap & H3 & Hrun)].
  apply bind_inv in Hrun as [(e & _ & [=]) | (s4 & h & H4 & Hrun)].
  apply bind_inv in Hrun as [(e & _ & [=]) | (s5 & g & H5 & Hrun)].
  apply bind_inv in Hrun as [(e & _ & [=]) | (s6 & ortho & H6 & Hrun)].
  unfold lift in H4, H5, H6. unfold ret in Hrun.
  injection H4 as <- H4. injection H5 as <- H5. injection H6 as <- H6.
  injection Hrun as <- <-.
  exists s1, s2, tad, height, gap, h, g, ortho. repeat split; assumption.
Qed.

(** C8, as the code has it. A render that returns computes the ends of
    the dimension line and the label, uses the stored text midpoint of the
    dimension if there is one and computes it from the ends of the
    dimension line otherwise, adds the text (unless the label is empty) at
    [to_ocs] of that position, and stores [to_ocs] of that position in the
    dimension. A later render of a dimension with that stored midpoint
    that returns adds its text at [to_ocs] of the stored position and
    stores [to_ocs] of it once more: the text is at the same position as
    the first when [to_ocs] leaves the position of the first where it is.
    A label that is a text of the user is never empty, so that text is
    added. The computed midpoint is the middle of the dimension line moved
    at a right angle to it by [midpoint_distance]: half the text height
    plus the gap, negated for [dimtad] 4, zero for [dimtad] 0. *)
Theorem render_twice_text_position (s s1 : state) :
  render s = (s1, Ret tt) ->
  (exists start end_ label sl pos,
     dimline_ends (dimension s) = Ret (start, end_)
     /\ labelled s start end_ label sl
     /\ (custom_text (text (dimension s)) -> label = text (dimension s))
     /\ (text_midpoint (dimension s) = Some pos
         \/ (text_midpoint (dimension s) = None
             /\ exists sb, get_text_midpoint start end_ sl = (sb, Ret pos)))
     /\ text_midpoint (dimension s1) = Some (to_ocs pos)
     /\ text_prims (block s1) = text_prims (block s) ++ placed label (to_ocs pos)
     /\ (forall s2 s3,
           text_midpoint (dimension s2) = text_midpoint (dimension s1) ->
           render s2 = (s3, Ret tt) ->
           exists start2 end2 label2 sl2,
             dimline_ends (dimension s2) = Ret (start2, end2)
             /\ labelled s2 start2 end2 label2 sl2
             /\ (custom_text (text (dimension s2)) -> label2 = text (dimension s2))
             /\ text_prims (block s3)
                = text_prims (block s2) ++ placed label2 (to_ocs (to_ocs pos))
             /\ text_midpoint (dimension s3) = Some (to_ocs (to_ocs pos))
             /\ (to_ocs (to_ocs pos) = to_ocs pos ->
                 text_prims (block s3) = text_prims (block s2) ++ placed label2 (to_ocs pos))))
  /\ (forall a b sa sb pos,
        get_text_midpoint a b sa = (sb, Ret pos) ->
        exists s' s'' tad height gap h g ortho,
          style_get "dimtad" (PInt 1) sa = (s', Ret tad)
          /\ text_height s' = (s'', Ret height)
          /\ style_get "dimgap" (PFloat 0.625) s'' = (sb, Ret gap)
          /\ as_float height = Ret h /\ as_float gap = Ret g
          /\ normalize (orthogonal (vsub b a)) (midpoint_distance tad h g) = Ret ortho
          /\ pos = vadd (lerp a b) ortho).
Proof.
  intros Hrun. split; [|intros a b sa sb pos; apply get_text_midpoint_formula].
  apply render_placed in Hrun
    as (start & end_ & label & sl & pos & Hends & Hlab & Horigin & Hstored & Hp).
  exists start, end_, label, sl, pos.
  split; [exact Hends|]. split; [exact Hlab|].
  split; [now apply labelled_custom with sl start end_|].
  split; [exact Horigin|]. split; [exact Hstored|]. split; [exact Hp|].
  intros s2 s3 Hm Hrun2. rewrite Hstored in Hm.
  apply render_placed in Hrun2
    as (start2 & end2 & label2 & sl2 & pos2 & Hends2 & Hlab2 & Horigin2 & Hstored2 & Hp2).
  assert (Hpos2 : pos2 = to_ocs pos).
  { destruct Horigin2 as [Ho | [Ho _]]; congruence. }
  subst pos2.
  exists start2, end2, label2, sl2.
  split; [exact Hends2|]. split; [exact Hlab2|].
  split; [now apply labelled_custom with sl2 start2 end2|].
  split; [exact Hp2|]. split; [exact Hstored2|].
  intros Hfix. rewrite Hfix in Hp2. exact Hp2.
Qed.

End RenderFacts.

(** * The renderer on the sample dimension *)

Section RenderExamples.
Import Render Sample.

Lemma run_of_snd {S A : Type} (r : S * A) (a : A) : snd r = a -> r = (fst r, a).
Proof. destruct r; simpl; intros ->; reflexivity. Qed.

Lemma vec_neq (a b : Vec3) : vec_eqb a a = true -> vec_eqb a b = false -> a <> b.
Proof. intros Ha Hb E. rewrite <- E in Hb. congruence. Qed.

(** With an oblique stroke at the first end and the closed filled arrow at
    the second, the line starts one unit before the first end and stops
    at the second. *)
Lemma dimension_line_ends_witness :
  last_line_ends
    (block (fst (@add_dimension_line (sample_env None tick_arrows)
                   (0, 2, 0)%float (10, 2, 0)%float (Some "OBLIQUE") (Some "")
                   (sample_renderer None tick_arrows "<>"))))
  = Some ((-1, 2, 0)%float, (10, 2, 0)%float).
Proof.
  pose (E := sample_env None tick_arrows).
  pose (s := sample_renderer None tick_arrows "<>").
  pose (s1 := fst (@style_get E "dimdle" (PFloat 0) s)).
  pose (s2 := fst (@style_get E "dimclrd" (color (dimension s1)) s1)).
  destruct (@dimension_line_ends E s s1 s2 (0, 2, 0)%float (10, 2, 0)%float
              (1, 0, 0)%float (Some "OBLIQUE") (Some "") (PFloat 1) (PInt 256) 1%float)
    as (attribs & Hrun & _).
  - vm_compute. reflexivity.
  - apply run_of_snd. vm_compute. reflexivity.
  - reflexivity.
  - apply run_of_snd. vm_compute. reflexivity.
  - fold E s. rewrite Hrun. vm_compute. reflexivity.
Defined.

(** The claim fails whatever arrows have an extension line: where the
    arrow has none the line is not trimmed, and where it has one the line
    is extended. *)
Lemma dimension_line_not_trimmed_inward :
  (last_line_ends
     (block (fst (@add_dimension_line (sample_env None tick_arrows)
                    (0, 2, 0)%float (10, 2, 0)%float (Some "") (Some "")
                    (sample_renderer None tick_arrows "<>"))))
   = Some ((0, 2, 0)%float, (10, 2, 0)%float)
   /\ @trimmed_inward (sample_env None tick_arrows)
        (0, 2, 0)%float (10, 2, 0)%float (1, 0, 0)%float "" ""
      = ((1, 2, 0)%float, (9, 2, 0)%float)
   /\ (0, 2, 0)%float <> ((1, 2, 0)%float : Vec3))
  /\ (last_line_ends
        (block (fst (@add_dimension_line (sample_env None tick_arrows)
                       (0, 2, 0)%float (10, 2, 0)%float (Some "OBLIQUE") (Some "OBLIQUE")
                       (sample_renderer None tick_arrows "<>"))))
      = Some ((-1, 2, 0)%float, (11, 2, 0)%float)
      /\ @trimmed_inward (sample_env None tick_arrows)
           (0, 2, 0)%float (10, 2, 0)%float (1, 0, 0)%float "OBLIQUE" "OBLIQUE"
         = ((0, 2, 0)%float, (10, 2, 0)%float)
      /\ (-1, 2, 0)%float <> ((0, 2, 0)%float : Vec3))
  /\ (forall (has_ext : string -> bool) (blk : string),
        last_line_ends
          (block (fst (@add_dimension_line (sample_env None has_ext)
                         (0, 2, 0)%float (10, 2, 0)%float (Some blk) (Some blk)
                         (sample_renderer None has_ext "<>"))))
        <> Some (@trimmed_inward (sample_env None has_ext)
                   (0, 2, 0)%float (10, 2, 0)%float (1, 0, 0)%float blk blk)).
Proof.
  split; [|split].
  - split; [vm_compute; reflexivity|]. split; [vm_compute; reflexivity|].
    apply vec_neq; vm_compute; reflexivity.
  - split; [vm_compute; reflexivity|]. split; [vm_compute; reflexivity|].
    apply vec_neq; vm_compute; reflexivity.
  - intros has_ext blk.
    pose (E := sample_env None has_ext).
    pose (s := sample_renderer None has_ext "<>").
    pose (s1 := fst (@style_get E "dimdle" (PFloat 0) s)).
    pose (s2 := fst (@style_get E "dimclrd" (color (dimension s1)) s1)).
    destruct (@add_dimension_line_run E s s1 s2 (0, 2, 0)%float (10, 2, 0)%float
                (1, 0, 0)%float (Some blk) (Some blk) (PFloat 1) (PInt 256) 1%float)
      as (attribs & Hrun & _).
    + vm_compute. reflexivity.
    + apply run_of_snd. vm_compute. reflexivity.
    + reflexivity.
    + apply run_of_snd. vm_compute. reflexivity.
    + fold E s. rewrite Hrun.
      unfold last_line_ends. cbn [fst].
      change (block (block_add ?p ?x)) with (block x ++ [p]).
      rewrite last_snoc.
      unfold extended_outward, trimmed_inward, extends_line.
      cbn [line_ends fst snd].
      change (@has_extension_line E blk) with (has_ext blk).
      destruct (has_ext blk); intros [=].
Qed.

End RenderExamples.

Section RenderTwice.
Import Render Sample.

(** With the pass-through coordinate system the first render of the
    sample dimension returns and stores the midpoint (5, 3, 0); a second
    render of the stored dimension, into an empty block, returns and
    places its text there again. *)
Lemma render_twice_text_position_witness :
  render (sample_renderer None tick_arrows "<>")
  = (fst (render (sample_renderer None tick_arrows "<>")), Ret tt)
  /\ text_midpoint (dimension (fst (render (sample_renderer None tick_arrows "<>"))))
     = Some (5, 3, 0)%float
  /\ exists label,
       text_prims
         (block (fst (render (renderer_for None tick_arrows
                                (dimension (fst (render (sample_renderer None tick_arrows "<>"))))))))
       = @placed (sample_env None tick_arrows) label (5, 3, 0)%float.
Proof.
  pose (E := sample_env None tick_arrows).
  pose (s := sample_renderer None tick_arrows "<>").
  pose (s1 := fst (@render E s)).
  pose (s2 := renderer_for None tick_arrows (@dimension E s1)).
  assert (Hsnd : snd (@render E s) = Ret tt) by (vm_compute; reflexivity).
  assert (Hrun : @render E s = (s1, Ret tt)) by exact (run_of_snd _ _ Hsnd).
  assert (Hsnd2 : snd (@render E s2) = Ret tt) by (vm_compute; reflexivity).
  assert (Hrun2 : @render E s2 = (fst (@render E s2), Ret tt))
    by exact (run_of_snd _ _ Hsnd2).
  assert (Hmid : @text_midpoint E (@dimension E s1) = Some (5, 3, 0)%float)
    by (vm_compute; reflexivity).
  destruct (@render_twice_text_position E s s1 Hrun)
    as [(start & end_ & label & sl & pos & _ & _ & _ & _ & Hstored & _ & Hsecond) _].
  fold E s s1 s2. split; [exact Hrun|]. split; [exact Hmid|].
  rewrite Hmid in Hstored. injection Hstored as Hpos.
  change (@to_ocs E pos) with pos in Hpos.
  assert (Hd : @dimension E s2 = @dimension E s1)
    by (subst s2; generalize (@dimension E s1); reflexivity).
  destruct (Hsecond s2 (fst (@render E s2)) (f_equal _ Hd) Hrun2)
    as (start2 & end2 & label2 & sl2 & _ & _ & _ & _ & _ & Hfix).
  exists label2. rewrite Hpos. exact (Hfix eq_refl).
Defined.

(** With a coordinate system whose origin is (100, 0, 0) both renders end
    normally, the first places the text at (105, 3, 0) and the second at
    (205, 3, 0). *)
Lemma render_twice_moves_text :
  snd (render (sample_renderer (Some (100, 0, 0)%float) tick_arrows "<>")) = Ret tt
  /\ text_prims
       (block (fst (render (sample_renderer (Some (100, 0, 0)%float) tick_arrows "<>"))))
     = [("10", (105, 3, 0)%float)]
  /\ snd (render
            (renderer_for (Some (100, 0, 0)%float) tick_arrows
               (dimension
                  (fst (render (sample_renderer (Some (100, 0, 0)%float) tick_arrows "<>"))))))
     = Ret tt
  /\ text_prims
       (block
          (fst (render
                  (renderer_for (Some (100, 0, 0)%float) tick_arrows
                     (dimension
                        (fst (render
                                (sample_renderer (Some (100, 0, 0)%float) tick_arrows "<>"))))))))
     = [("10", (205, 3, 0)%float)]
  /\ (105, 3, 0)%float <> ((205, 3, 0)%float : Vec3).
Proof.
  split; [vm_compute; reflexivity|].
  split; [vm_compute; reflexivity|].
  split; [vm_compute; reflexivity|].
  split; [vm_compute; reflexivity|].
  apply vec_neq; vm_compute; reflexivity.
Qed.

(** The sample dimension with the text ["Abc"]: the render returns and
    the text it adds has that label. With a text of one space no text is
    added. *)
Lemma text_attribute_overrides_label_witness :
  (exists pos,
     text_prims (block (fst (render (sample_renderer None tick_arrows "Abc"))))
     = [("Abc", pos)])
  /\ text_prims (block (fst (render (sample_renderer None tick_arrows " ")))) = [].
Proof.
  pose (E := sample_env None tick_arrows).
  split.
  - pose (s := sample_renderer None tick_arrows "Abc").
    assert (Hsnd : snd (@render E s) = Ret tt) by (vm_compute; reflexivity).
    destruct (@text_attribute_overrides_label E s 0%float) as (_ & _ & Hcustom).
    destruct Hcustom as (_ & Hadded & _).
    { split; [|split]; discriminate. }
    destruct (Hadded (fst (@render E s)) (run_of_snd _ _ Hsnd)) as (pos & Hp).
    exists pos. exact Hp.
  - pose (s := sample_renderer None tick_arrows " ").
    destruct (@text_attribute_overrides_label E s 0%float) as (Hnone & _).
    destruct (Hnone eq_refl) as (_ & Hp). exact Hp.
Defined.

End RenderTwice.

(** * Further properties of the code *)

(** ** The resolver and its cache *)

Section ResolverCache.
Context {Val Style : Type}.
Variable supports_dxf_attrib : string -> bool.
Variable get_dxf_attrib : Style -> string -> Val -> outcome Val.

Import DimStyleOverride.
Local Abbreviation get := (DimStyleOverride.get supports_dxf_attrib get_dxf_attrib).

(** What [get] leaves of the resolver. *)
Lemma get_frame (self : t) (F : string) (D : Val) :
  dim_style (fst (get F D self)) = dim_style self
  /\ override (fst (get F D self)) = override self
  /\ _cache self ⊆ _cache (fst (get F D self)).
Proof.
  assert (Hset : forall v, _cache self !! F = None ->
            dim_style (set_cache F v self) = dim_style self
            /\ override (set_cache F v self) = override self
            /\ _cache self ⊆ _cache (set_cache F v self)).
  { intros v Hc. simpl. split; [reflexivity|]. split; [reflexivity|].
    now apply insert_subseteq. }
  assert (Hsame : dim_style self = dim_style self /\ override self = override self
                  /\ _cache self ⊆ _cache self) by (split; [|split]; reflexivity).
  unfold DimStyleOverride.get.
  destruct (_cache self !! F) as [c|] eqn:Hc; simpl; [exact Hsame|].
  destruct (supports_dxf_attrib F); simpl; [|exact Hsame].
  destruct (override self !! F) as [y|]; simpl; [now apply Hset|].
  destruct (get_dxf_attrib (dim_style self) F D) as [x|e]; simpl; [now apply Hset|].
  destruct (is_DXFAttributeError e); simpl; [now apply Hset|exact Hsame].
Qed.

(** X1. [DimStyleOverride.get] never touches the style record or the
    override map; the cache only gains the entry of the attribute
    asked for: every entry it had is still there with its value, no other
    key appears, and a [get] that raises leaves the resolver as it was. *)
Theorem get_only_extends_cache (self : t) (F : string) (D : Val) :
  dim_style (fst (get F D self)) = dim_style self
  /\ override (fst (get F D self)) = override self
  /\ _cache self ⊆ _cache (fst (get F D self))
  /\ (forall k, k <> F -> _cache (fst (get F D self)) !! k = _cache self !! k)
  /\ (forall e, snd (get F D self) = Raise e -> fst (get F D self) = self).
Proof.
  assert (Hset : forall v, _cache self !! F = None ->
            dim_style (set_cache F v self) = dim_style self
            /\ override (set_cache F v self) = override self
            /\ _cache self ⊆ _cache (set_cache F v self)
            /\ (forall k, k <> F -> _cache (set_cache F v self) !! k = _cache self !! k)).
  { intros v Hc. simpl. split; [reflexivity|]. split; [reflexivity|].
    split; [now apply insert_subseteq|].
    intros k Hk. now apply lookup_insert_ne. }
  unfold DimStyleOverride.get.
  destruct (_cache self !! F) as [c|] eqn:Hc; simpl.
  { split; [reflexivity|]. split; [reflexivity|]. split; [reflexivity|].
    split; [reflexivity|]. intros e He. reflexivity. }
  destruct (supports_dxf_attrib F); simpl.
  2: { split; [reflexivity|]. split; [reflexivity|]. split; [reflexivity|].
       split; [reflexivity|]. intros e He. reflexivity. }
  destruct (override self !! F) as [y|]; simpl.
  { destruct (Hset y eq_refl) as (H1 & H2 & H3 & H4).
    split; [exact H1|]. split; [exact H2|]. split; [exact H3|]. split; [exact H4|].
    intros e He. discriminate He. }
  destruct (get_dxf_attrib (dim_style self) F D) as [x|e]; simpl.
  { destruct (Hset x eq_refl) as (H1 & H2 & H3 & H4).
    split; [exact H1|]. split; [exact H2|]. split; [exact H3|]. split; [exact H4|].
    intros e He. discriminate He. }
  destruct (is_DXFAttributeError e); simpl.
  { destruct (Hset D eq_refl) as (H1 & H2 & H3 & H4).
    split; [exact H1|]. split; [exact H2|]. split; [exact H3|]. split; [exact H4|].
    intros e' He. discriminate He. }
  split; [reflexivity|]. split; [reflexivity|]. split; [reflexivity|].
  split; [reflexivity|]. intros e' He. reflexivity.
Qed.

End ResolverCache.

(** ** The text formatter *)

Section FormatMore.
Variable xround : float -> pyval -> outcome float.
Variable raise_decimals : string -> string.
Local Abbreviation format_text := (TextFormat.format_text xround raise_decimals).

Lemma obind_Ret {A B} (o : outcome A) (k : A -> outcome B) a :
  o = Ret a -> obind o k = k a.
Proof. now intros ->. Qed.

Lemma str_format_brace_free (s arg : string) (used : bool) :
  brace_free s = true -> str_format s arg used = Ret s.
Proof.
  induction s as [|c r IH]; [reflexivity|]. intros Hb. simpl in Hb.
  destruct (Ascii.eqb_spec c "{") as [->|Hl]; [discriminate|].
  destruct (Ascii.eqb_spec c "}") as [->|Hr]; [discriminate|].
  simpl in Hb.
  assert (E : str_format (String c r) arg used
              = obind (str_format r arg used) (fun s => Ret (String c s))).
  { destruct c as [[] [] [] [] [] [] [] []]; try reflexivity; congruence. }
  rewrite E, (IH Hb). reflexivity.
Qed.

Lemma str_format_field (p q arg : string) :
  brace_free p = true -> brace_free q = true ->
  str_format (p +:+ "{}" +:+ q) arg false = Ret (p +:+ arg +:+ q).
Proof.
  intros Hp Hq. induction p as [|c r IH].
  - change (str_format ("" +:+ "{}" +:+ q) arg false)
      with (obind (str_format q arg true) (fun s => Ret (arg +:+ s))).
    now rewrite (str_format_brace_free q arg true Hq).
  - simpl in Hp.
    destruct (Ascii.eqb_spec c "{") as [->|Hl]; [discriminate|].
    destruct (Ascii.eqb_spec c "}") as [->|Hr]; [discriminate|].
    simpl in Hp.
    assert (E : forall t, str_format (String c t) arg false
                = obind (str_format t arg false) (fun s => Ret (String c s))).
    { intros t. destruct c as [[] [] [] [] [] [] [] []]; try reflexivity; congruence. }
    change (String c r +:+ "{}" +:+ q) with (String c (r +:+ "{}" +:+ q)).
    rewrite E, (IH Hp). reflexivity.
Qed.

Lemma prefix_nil (s : string) : String.prefix "" s = true.
Proof. now destruct s. Qed.

Lemma prefix_field (q : string) : String.prefix "<>" ("<>" +:+ q) = true.
Proof. destruct q; vm_compute; reflexivity. Qed.

Lemma index_first (p q : string) :
  contains "<>" p = false ->
  index 0 "<>" (p +:+ "<>" +:+ q) = Some (String.length p).
Proof.
  unfold contains. induction p as [|c r IH]; intros Hp.
  - change ("" +:+ "<>" +:+ q) with (String "<" (String ">" q)).
    cbn [index]. change (String "<" (String ">" q)) with ("<>" +:+ q).
    now rewrite prefix_field.
  - change (String c r +:+ "<>" +:+ q) with (String c (r +:+ "<>" +:+ q)).
    cbn [index] in *.
    destruct (String.prefix "<>" (String c r)) eqn:Hpre; [discriminate|].
    assert (Hr : match index 0 "<>" r with Some _ => true | None => false end = false).
    { destruct (index 0 "<>" r); [discriminate|reflexivity]. }
    rewrite (IH Hr).
    assert (Hpre' : String.prefix "<>" (String c (r +:+ "<>" +:+ q)) = false).
    { cbn [String.prefix] in *. destruct (ascii_dec "<" c); [|reflexivity].
      destruct r as [|c' r']; [reflexivity|].
      change (String c' r' +:+ "<>" +:+ q) with (String c' (r' +:+ "<>" +:+ q)).
      cbn [String.prefix] in *.
      destruct (ascii_dec ">" c'); [|reflexivity].
      now rewrite prefix_nil in Hpre. }
    rewrite Hpre'. reflexivity.
Qed.

Lemma substring_head (p q : string) : substring 0 (String.length p) (p +:+ q) = p.
Proof.
  induction p as [|c r IH]; simpl.
  - now destruct q.
  - now rewrite IH.
Qed.

Lemma substring_tail (p q : string) :
  substring (String.length p) (String.length q) (p +:+ q) = q.
Proof.
  induction p as [|c r IH].
  - change ("" +:+ q) with q. simpl. induction q as [|c r IH]; simpl; [reflexivity|].
    now rewrite IH.
  - change (String c r +:+ q) with (String c (r +:+ q)). exact IH.
Qed.

Lemma length_append (p q : string) :
  String.length (p +:+ q) = (String.length p + String.length q)%nat.
Proof.
  induction p as [|c r IH]; [reflexivity|].
  change (String c r +:+ q) with (String c (r +:+ q)). simpl. now rewrite IH.
Qed.

Lemma append_assoc (p q r : string) : (p +:+ q) +:+ r = p +:+ q +:+ r.
Proof.
  induction p as [|c p IH]; [reflexivity|].
  change ((String c p +:+ q) +:+ r) with (String c ((p +:+ q) +:+ r)).
  now rewrite IH.
Qed.

Lemma replace_first_field (p q : string) :
  contains "<>" p = false ->
  replace_first "<>" "{}" (p +:+ "<>" +:+ q) = p +:+ "{}" +:+ q.
Proof.
  intros Hp. unfold replace_first. rewrite (index_first p q Hp).
  rewrite substring_head. f_equal. f_equal.
  replace (p +:+ "<>" +:+ q) with ((p +:+ "<>") +:+ q) at 2 by apply append_assoc.
  replace (String.length p + String.length "<>")%nat with (String.length (p +:+ "<>"))
    by apply length_append.
  replace (String.length (p +:+ "<>" +:+ q) - String.length (p +:+ "<>"))%nat
    with (String.length q).
  - apply substring_tail.
  - rewrite !length_append. simpl. lia.
Qed.

Lemma contains_field (p q : string) : contains "<>" (p +:+ "<>" +:+ q) = true.
Proof.
  unfold contains. induction p as [|c r IH].
  { change ("" +:+ "<>" +:+ q) with (String "<" (String ">" q)).
    cbn [index]. change (String "<" (String ">" q)) with ("<>" +:+ q).
    now rewrite prefix_field. }
  change (String c r +:+ "<>" +:+ q) with (String c (r +:+ "<>" +:+ q)).
  cbn [index]. destruct (String.prefix "<>" _); [reflexivity|].
  destruct (index 0 "<>" (r +:+ "<>" +:+ q)); [reflexivity|discriminate].
Qed.

Local Abbreviation plain_text := (TextFormat.plain_text raise_decimals).

Lemma format_text_plain (value : float) (d z : Z) (dimpost : pyval) (raisedec : bool) :
  0 <= d <= 2147483647 ->
  format_text value PNone (PInt d) (PInt z) (PStr ".") dimpost raisedec
  = if truthy dimpost then
      match dimpost with
      | PStr post =>
          if contains "<>" post
          then str_format (replace_first "<>" "{}" post) (plain_text value d z raisedec) false
          else Raise (TextFormat.invalid_dimpost post)
      | _ => Raise (TypeError "argument of type is not iterable")
      end
    else Ret (plain_text value d z raisedec).
Proof.
  intros Hd. unfold TextFormat.format_text, TextFormat.format_decimals, TextFormat.plain_text.
  cbn [obind as_int].
  destruct (Z.ltb_spec d 0); [lia|].
  destruct (Z.ltb_spec 2147483647 d); [lia|].
  cbn [obind]. destruct raisedec; reflexivity.
Qed.

Lemma append_nil_r (p : string) : p +:+ "" = p.
Proof.
  induction p as [|c r IH]; [reflexivity|].
  change (String c r +:+ "") with (String c (r +:+ "")). now rewrite IH.
Qed.

(** The template is applied last, to the text [format_text] returns for
    the empty template. *)
Lemma format_text_post (value : float) (dimrnd dimdec dimzin dimdsep dimpost : pyval)
    (raisedec : bool) :
  format_text value dimrnd dimdec dimzin dimdsep dimpost raisedec
  = obind (format_text value dimrnd dimdec dimzin dimdsep (PStr "") raisedec)
      (fun text =>
         if truthy dimpost then
           match dimpost with
           | PStr post =>
               if contains "<>" post
               then str_format (replace_first "<>" "{}" post) text false
               else Raise (TextFormat.invalid_dimpost post)
           | _ => Raise (TypeError "argument of type is not iterable")
           end
         else Ret text).
Proof.
  unfold TextFormat.format_text.
  repeat match goal with
         | |- obind ?o _ = _ => destruct o; cbn [obind]; [|reflexivity]
         end.
  reflexivity.
Qed.

Lemma format_text_wrap (value : float) (dimrnd dimdec dimzin dimdsep : pyval)
    (raisedec : bool) (prefix postfix : string) :
  contains "<>" prefix = false ->
  brace_free prefix = true -> brace_free postfix = true ->
  format_text value dimrnd dimdec dimzin dimdsep (PStr (prefix +:+ "<>" +:+ postfix)) raisedec
  = obind (format_text value dimrnd dimdec dimzin dimdsep (PStr "") raisedec)
      (fun text => Ret (prefix +:+ text +:+ postfix)).
Proof.
  intros Hc Hp Hq. rewrite format_text_post.
  assert (Ht : truthy (PStr (prefix +:+ "<>" +:+ postfix)) = true).
  { simpl. destruct prefix; reflexivity. }
  rewrite Ht, contains_field, (replace_first_field _ _ Hc).
  destruct (format_text _ _ _ _ _ (PStr "") _) as [text|e]; cbn [obind]; [|reflexivity].
  now apply str_format_field.
Qed.

Lemma format_text_bare (value : float) (dimrnd dimdec dimzin dimdsep : pyval)
    (raisedec : bool) :
  format_text value dimrnd dimdec dimzin dimdsep (PStr "<>") raisedec
  = format_text value dimrnd dimdec dimzin dimdsep (PStr "") raisedec.
Proof.
  change (PStr "<>") with (PStr ("" +:+ "<>" +:+ "")).
  rewrite (format_text_wrap value dimrnd dimdec dimzin dimdsep raisedec "" "")
    by reflexivity.
  destruct (format_text _ _ _ _ _ (PStr "") _) as [text|e]; cbn [obind]; [|reflexivity].
  change ("" +:+ text +:+ "") with (text +:+ ""). now rewrite append_nil_r.
Qed.

(** X2. A template that has the place holder once, after a prefix
    without it, and no braces, whatever the other arguments are:
    [format_text] returns the prefix, the text it returns for the bare
    template ["<>"], and the postfix, one after the other, and raises
    what it raises for the bare template. The empty template gives what
    the bare one gives. *)
Theorem format_text_wraps_number (value : float) (dimrnd dimdec dimzin dimdsep : pyval)
    (raisedec : bool) (prefix postfix : string) :
  contains "<>" prefix = false ->
  brace_free prefix = true -> brace_free postfix = true ->
  format_text value dimrnd dimdec dimzin dimdsep (PStr (prefix +:+ "<>" +:+ postfix)) raisedec
  = match format_text value dimrnd dimdec dimzin dimdsep (PStr "<>") raisedec with
    | Ret text => Ret (prefix +:+ text +:+ postfix)
    | Raise e => Raise e
    end
  /\ format_text value dimrnd dimdec dimzin dimdsep (PStr "") raisedec
     = format_text value dimrnd dimdec dimzin dimdsep (PStr "<>") raisedec.
Proof.
  intros Hc Hp Hq. rewrite format_text_bare. split; [|reflexivity].
  now apply format_text_wrap.
Qed.

(** X3. A template that is not empty and has no place holder is refused:
    [format_text] never returns a text for it, and when the number itself
    can be formatted it raises [DXFValueError] with the message
    [Invalid dimpost string: "<template>"]. *)
Theorem format_text_invalid_dimpost (post : string) :
  post <> "" -> contains "<>" post = false ->
  (forall value dimrnd dimdec dimzin dimdsep raisedec text,
     format_text value dimrnd dimdec dimzin dimdsep (PStr post) raisedec <> Ret text)
  /\ (forall value d z raisedec, 0 <= d <= 2147483647 ->
        format_text value PNone (PInt d) (PInt z) (PStr ".") (PStr post) raisedec
        = Raise (DXFValueError ("Invalid dimpost string: " +:+ dq +:+ post +:+ dq))).
Proof.
  intros Hne Hc.
  assert (Ht : truthy (PStr post) = true).
  { simpl. destruct (String.eqb_spec post ""); [contradiction|reflexivity]. }
  split.
  - intros value dimrnd dimdec dimzin dimdsep raisedec text.
    unfold TextFormat.format_text. rewrite Ht, Hc.
    repeat match goal with
           | |- obind ?o _ <> _ => destruct o; cbn [obind]; [|discriminate]
           end.
    discriminate.
  - intros value d z raisedec Hd. rewrite format_text_plain by exact Hd.
    now rewrite Ht, Hc.
Qed.

Lemma format_text_separator_not_str (dimdsep : pyval) :
  (forall s, dimdsep <> PStr s) ->
  forall value dimrnd dimdec dimzin dimpost raisedec text,
    format_text value dimrnd dimdec dimzin dimdsep dimpost raisedec <> Ret text.
Proof.
  intros Hs value dimrnd dimdec dimzin dimpost raisedec text.
  assert (Hsep : forall text : string,
            match dimdsep with
            | PStr "." => Ret text
            | PStr sep => Ret (replace_char "." sep text)
            | _ => Raise (TypeError "replace() argument 2 must be str")
            end = Raise (TypeError "replace() argument 2 must be str")).
  { intros t. destruct dimdsep as [| | | |s]; try reflexivity. now destruct (Hs s). }
  unfold TextFormat.format_text.
  repeat match goal with
         | |- obind ?o _ <> _ =>
             first [ rewrite Hsep; cbn [obind]; discriminate
                   | destruct o; cbn [obind]; [|discriminate] ]
         end.
Qed.

(** X4. A decimal separator that is not a string, as the integer
    character code the DXF format stores for [dimdsep]: [format_text]
    never returns a text, and when the number itself can be formatted it
    raises [TypeError]. *)
Theorem format_text_separator_code (dimdsep : pyval) :
  (forall s, dimdsep <> PStr s) ->
  (forall value dimrnd dimdec dimzin dimpost raisedec text,
     format_text value dimrnd dimdec dimzin dimdsep dimpost raisedec <> Ret text)
  /\ (forall value d z dimpost raisedec, 0 <= d <= 2147483647 ->
        exists msg,
          format_text value PNone (PInt d) (PInt z) dimdsep dimpost raisedec
          = Raise (TypeError msg)).
Proof.
  intros Hs.
  assert (Hsep : forall text : string,
            match dimdsep with
            | PStr "." => Ret text
            | PStr sep => Ret (replace_char "." sep text)
            | _ => Raise (TypeError "replace() argument 2 must be str")
            end = Raise (TypeError "replace() argument 2 must be str")).
  { intros text. destruct dimdsep as [| | | |s]; try reflexivity. now destruct (Hs s). }
  split.
  - now apply format_text_separator_not_str.
  - intros value d z dimpost raisedec Hd.
    unfold TextFormat.format_text, TextFormat.format_decimals. cbn [obind as_int].
    destruct (Z.ltb_spec d 0); [lia|].
    destruct (Z.ltb_spec 2147483647 d); [lia|].
    cbn [obind]. rewrite Hsep. cbn [obind]. eauto.
Qed.

End FormatMore.

(** The template [L=<> mm] around 12.00. *)
Lemma format_text_wraps_number_witness :
  TextFormat.format_text (fun v _ => Ret v) (fun t => t)
    12%float PNone (PInt 2) (PInt 0) (PStr ".") (PStr ("L=" +:+ "<>" +:+ " mm")) false
  = Ret "L=12.00 mm".
Proof.
  destruct (format_text_wraps_number (fun v _ => Ret v) (fun t => t)
              12%float PNone (PInt 2) (PInt 0) (PStr ".") false "L=" " mm") as [H _];
    [reflexivity | reflexivity | reflexivity |].
  rewrite H. vm_compute. reflexivity.
Defined.

(** The template [mm] has no place holder. *)
Lemma format_text_invalid_dimpost_witness :
  TextFormat.format_text (fun v _ => Ret v) (fun t => t)
    12%float PNone (PInt 2) (PInt 0) (PStr ".") (PStr "mm") false
  = Raise (DXFValueError ("Invalid dimpost string: " +:+ dq +:+ "mm" +:+ dq)).
Proof.
  destruct (format_text_invalid_dimpost (fun v _ => Ret v) (fun t => t) "mm") as [_ H];
    [discriminate | reflexivity |].
  apply H. lia.
Defined.

(** The separator 44, the code of the comma. *)
Lemma format_text_separator_code_witness :
  exists msg,
    TextFormat.format_text (fun v _ => Ret v) (fun t => t)
      12%float PNone (PInt 2) (PInt 0) (PInt 44) (PStr "<>") false
    = Raise (TypeError msg).
Proof.
  destruct (format_text_separator_code (fun v _ => Ret v) (fun t => t) (PInt 44)) as [_ H];
    [discriminate|].
  apply H. lia.
Defined.

(** ** More of the DIMSTYLE entity *)

Section DimStyleMore.
Import DimStyle.
Context `{Library}.

Lemma version_ok_with_dxf (f : gmap string pyval -> gmap string pyval) (self : t) (a : DXFAttr) :
  version_ok (with_dxf f self) a = version_ok self a.
Proof. reflexivity. Qed.

(** A stored attribute that the version of the document supports is
    written to the namespace. *)
Lemma set_stored_attr (key : string) (value : pyval) (a : DXFAttr) (self : t) :
  DXFATTRIBS key = Some a -> xtype_of a = Stored -> version_ok self a = true ->
  set_dxf_attrib key value self = (with_dxf (fun ns => <[key := value]> ns) self, Ret tt).
Proof.
  intros Ha Hx Hv. rewrite (set_dxf_attrib_stored key value a self Ha Hx). now rewrite Hv.
Qed.

(** *** The text style *)

(** X5. The name of a text style goes through the handle and comes
    back: in a document later than R12, [set_text_style] with the name of
    a style of the document stores the handle of the style, and
    [get_text_style] then returns the name and logs nothing. The
    attribute [dimtxsty] is written and read through the two methods. *)
Theorem text_style_round_trip (self : t) (d : Drawing) (name h : string) :
  doc self = Some d -> dxfversion d <> R12 ->
  styles d !! name = Some h -> h <> "" -> entitydb d !! h = Some name ->
  set_text_style name self
  = (with_dxf (fun ns => <["dimtxsty_handle" := PStr h]> ns) self, Ret tt)
  /\ get_text_style (with_dxf (fun ns => <["dimtxsty_handle" := PStr h]> ns) self)
     = (with_dxf (fun ns => <["dimtxsty_handle" := PStr h]> ns) self, Ret (PStr name))
  /\ set_dxf_attrib "dimtxsty" (PStr name) self = set_text_style name self
  /\ (forall default s, doc s = Some d ->
        get_dxf_attrib "dimtxsty" default s = get_text_style s).
Proof.
  intros Hd Hv Hs Hh He.
  assert (Hok : forall s, doc s = Some d ->
            version_ok s (DXFAttr_ (Code 340) DXF2000) = true).
  { intros s Hs'. apply (version_ok_not_R12 s d); auto. }
  split; [|split; [|split]].
  - unfold set_text_style, bind, the_doc. rewrite Hd, Hs.
    apply (set_stored_run "dimtxsty_handle" _ (DXFAttr_ (Code 340) DXF2000)); auto.
  - rewrite (get_text_style_run _ d) by auto. cbv zeta.
    cbn [dxf with_dxf]. rewrite lookup_insert_eq.
    assert (Ht : truthy (PStr h) = true).
    { simpl. destruct (String.eqb_spec h ""); [contradiction|reflexivity]. }
    rewrite Ht. cbn [entitydb_item]. now rewrite He.
  - rewrite (set_dxf_attrib_callback "dimtxsty" _
               (callback_attr VIRTUAL_TAG "get_text_style" "set_text_style" DXF12)
               "get_text_style" "set_text_style"); try reflexivity.
    now apply version_ok_DXF12.
  - intros default s Hs'.
    rewrite (get_dxf_attrib_callback "dimtxsty" _
               (callback_attr VIRTUAL_TAG "get_text_style" "set_text_style" DXF12)
               "get_text_style" "set_text_style"); try reflexivity.
    now apply version_ok_DXF12.
Qed.

(** *** The linetypes *)

Lemma get_ltype_name_set (dimvar : string) (a : DXFAttr) (self : t) (d : Drawing) (h : string) :
  doc self = Some d -> String.ltb (acad_tag (dxfversion d)) "AC1021" = false ->
  DXFATTRIBS dimvar = Some a -> version_ok self a = true ->
  dxf self !! dimvar = Some (PStr h) -> h <> "" ->
  get_ltype_name dimvar self
  = (self, Raise (AttributeError "'DimStyle' object has no attribute 'ocrawing'")).
Proof.
  intros Hd Hv Ha Hok Hh Hne. unfold get_ltype_name, bind, self_dxfversion.
  rewrite Hd, Hv. simpl.
  rewrite (get_stored_run dimvar PNone a self Ha Hok). rewrite Hh.
  simpl. destruct (String.eqb_spec h ""); [contradiction|reflexivity].
Qed.

Lemma set_ltype_handle_run (dimvar name h : string) (a : DXFAttr) (self : t) (d : Drawing) :
  doc self = Some d -> linetypes d !! name = Some h ->
  DXFATTRIBS dimvar = Some a -> version_ok self a = true ->
  bind (get_ltype_handle name) (fun h => set_stored dimvar (PStr h)) self
  = (with_dxf (fun ns => <[dimvar := PStr h]> ns) self, Ret tt).
Proof.
  intros Hd Hl Ha Hok. unfold bind at 1, get_ltype_handle, bind, the_doc.
  rewrite Hd, Hl. simpl. now apply (set_stored_run dimvar _ a).
Qed.

(** X6. A linetype that was set cannot be read back: in a document of
    R2007 or later, each of the three setters stores the handle of a
    linetype of the document, and the getter of the same field then
    raises [AttributeError] (it reads [self.ocrawing], which the entity
    does not have) instead of returning the name. *)
Theorem linetype_read_back_raises (self : t) (d : Drawing) (name h : string) :
  doc self = Some d -> String.ltb (acad_tag (dxfversion d)) "AC1021" = false ->
  linetypes d !! name = Some h -> h <> "" ->
  let missing := AttributeError "'DimStyle' object has no attribute 'ocrawing'" in
  (set_linetype name self
   = (with_dxf (fun ns => <["dimltype_handle" := PStr h]> ns) self, Ret tt)
   /\ get_linetype (with_dxf (fun ns => <["dimltype_handle" := PStr h]> ns) self)
      = (with_dxf (fun ns => <["dimltype_handle" := PStr h]> ns) self, Raise missing))
  /\ (set_ext1_linetype name self
      = (with_dxf (fun ns => <["dimltex1_handle" := PStr h]> ns) self, Ret tt)
      /\ get_ext1_linetype (with_dxf (fun ns => <["dimltex1_handle" := PStr h]> ns) self)
         = (with_dxf (fun ns => <["dimltex1_handle" := PStr h]> ns) self, Raise missing))
  /\ (set_ext2_linetype name self
      = (with_dxf (fun ns => <["dimltex2_handle" := PStr h]> ns) self, Ret tt)
      /\ get_ext2_linetype (with_dxf (fun ns => <["dimltex2_handle" := PStr h]> ns) self)
         = (with_dxf (fun ns => <["dimltex2_handle" := PStr h]> ns) self, Raise missing)).
Proof.
  intros Hd Hv Hl Hh missing.
  assert (Hone : forall dimvar c,
            DXFATTRIBS dimvar = Some (DXFAttr_ (Code c) DXF2007) ->
            bind (get_ltype_handle name) (fun h => set_stored dimvar (PStr h)) self
            = (with_dxf (fun ns => <[dimvar := PStr h]> ns) self, Ret tt)
            /\ get_ltype_name dimvar (with_dxf (fun ns => <[dimvar := PStr h]> ns) self)
               = (with_dxf (fun ns => <[dimvar := PStr h]> ns) self, Raise missing)).
  { intros dimvar c Ha.
    assert (Hok : version_ok self (DXFAttr_ (Code c) DXF2007) = true)
      by (apply (version_ok_R2007 self d); auto).
    split.
    - now apply (set_ltype_handle_run dimvar name h (DXFAttr_ (Code c) DXF2007) self d).
    - apply (get_ltype_name_set dimvar (DXFAttr_ (Code c) DXF2007) _ d h); auto.
      cbn [dxf with_dxf]. apply lookup_insert_eq. }
  split; [|split].
  - exact (Hone "dimltype_handle" 345 eq_refl).
  - exact (Hone "dimltex1_handle" 346 eq_refl).
  - exact (Hone "dimltex2_handle" 347 eq_refl).
Qed.

(** X7. [set_linetypes] does nothing for a document older than R2007:
    whatever the three names are, and whether linetypes of these names
    exist or not, the record is left as it is but for one debug message,
    and the call returns normally. For a document of R2007 or later and
    names of linetypes of the document, the three handles are stored. *)
Theorem set_linetypes_by_version (self : t) (d : Drawing) :
  doc self = Some d ->
  (String.ltb (acad_tag (dxfversion d)) "AC1021" = true ->
   forall dimline ext1 ext2,
     set_linetypes dimline ext1 ext2 self
     = (add_log (Log "ezdxf" "DEBUG" "Linetype support requires DXF R2007 or later.") self,
        Ret tt))
  /\ (String.ltb (acad_tag (dxfversion d)) "AC1021" = false ->
      set_linetypes None None None self = (self, Ret tt)
      /\ forall n0 n1 n2 h0 h1 h2,
           linetypes d !! n0 = Some h0 -> linetypes d !! n1 = Some h1 ->
           linetypes d !! n2 = Some h2 ->
           set_linetypes (Some n0) (Some n1) (Some n2) self
           = (with_dxf (fun ns => <["dimltex2_handle" := PStr h2]>
                                    (<["dimltex1_handle" := PStr h1]>
                                       (<["dimltype_handle" := PStr h0]> ns))) self,
              Ret tt)).
Proof.
  intros Hd. split.
  - intros Hv dimline ext1 ext2. unfold set_linetypes, bind at 1, self_dxfversion.
    rewrite Hd, Hv. reflexivity.
  - intros Hv. split.
    + unfold set_linetypes, bind at 1, self_dxfversion. rewrite Hd, Hv. reflexivity.
    + intros n0 n1 n2 h0 h1 h2 H0 H1 H2.
      unfold set_linetypes, bind at 1, self_dxfversion. rewrite Hd, Hv. cbn [negb].
      unfold set_linetype, set_ext1_linetype, set_ext2_linetype.
      assert (Hok : forall s c, doc s = Some d ->
                version_ok s (DXFAttr_ (Code c) DXF2007) = true)
        by (intros s c Hs; apply (version_ok_R2007 s d); auto).
      pose (s1 := with_dxf (fun ns => <["dimltype_handle" := PStr h0]> ns) self).
      pose (s2 := with_dxf (fun ns => <["dimltex1_handle" := PStr h1]> ns) s1).
      assert (E0 : bind (get_ltype_handle n0)
                     (fun h => set_stored "dimltype_handle" (PStr h)) self = (s1, Ret tt))
        by (apply (set_ltype_handle_run _ n0 h0 (DXFAttr_ (Code 345) DXF2007) self d);
            auto).
      assert (E1 : bind (get_ltype_handle n1)
                     (fun h => set_stored "dimltex1_handle" (PStr h)) s1 = (s2, Ret tt))
        by (apply (set_ltype_handle_run _ n1 h1 (DXFAttr_ (Code 346) DXF2007) s1 d);
            auto).
      rewrite (bind_Ret _ _ _ _ _ E0), (bind_Ret _ _ _ _ _ E1).
      apply (set_ltype_handle_run _ n2 h2 (DXFAttr_ (Code 347) DXF2007) s2 d); auto.
Qed.


(** *** The tolerance and the text format *)

Lemma version_ok_later (self : t) (a : DXFAttr) :
  (forall d, doc self = Some d -> dxfversion d <> R12) ->
  dxfversion_of a = DXF12 \/ dxfversion_of a = DXF2000 -> version_ok self a = true.
Proof.
  intros Hv Ha. destruct (doc self) as [d|] eqn:Hd.
  - apply (version_ok_not_R12 self d); auto.
  - unfold version_ok. now rewrite Hd.
Qed.

Lemma bind_lift_Ret {S A B} (o : outcome A) (k : A -> exec S B) (a : A) (s : S) :
  o = Ret a -> bind (lift o) k s = k a s.
Proof. now intros ->. Qed.

Lemma tzin_mask_bits (leading_zeros trailing_zeros : pyval) :
  negb (Z.land (tzin_mask leading_zeros trailing_zeros) 4 =? 0) = is_False leading_zeros
  /\ negb (Z.land (tzin_mask leading_zeros trailing_zeros) 8 =? 0) = is_False trailing_zeros.
Proof.
  unfold tzin_mask. destruct (is_False leading_zeros), (is_False trailing_zeros);
    split; reflexivity.
Qed.

(** One assignment to a stored attribute of R12 or R2000, in a record
    whose document, if it has one, is later than R12. *)
Ltac assign_with k v s self Hlater :=
  match eval vm_compute in (DXFATTRIBS k) with
  | Some ?a =>
      let Hok := fresh "Hok" in
      assert (Hok : version_ok s a = true)
        by (apply (version_ok_later self a Hlater);
            first [left; reflexivity | right; reflexivity]);
      first [ rewrite (bind_Ret _ _ _ _ _ (set_stored_attr k v a s eq_refl eq_refl Hok))
            | rewrite (set_stored_attr k v a s eq_refl eq_refl Hok) ];
      clear Hok
  end.

Ltac assign :=
  match goal with
  | Hlater : forall d, doc ?self = Some d -> dxfversion d <> R12
    |- bind (set_dxf_attrib ?k ?v) _ ?s = _ => assign_with k v s self Hlater
  | Hlater : forall d, doc ?self = Some d -> dxfversion d <> R12
    |- set_dxf_attrib ?k ?v ?s = _ => assign_with k v s self Hlater
  end.

(** X8. What [set_tolerance] stores, for a record whose document is
    later than R12: the flags, the upper value as a float in [dimtp],
    the lower value in [dimtm] (the upper value when [lower] is [None]),
    the height factor, and the suppression mask in [dimtzin] only when
    one of the two flags is given. The mask has the bit 4 exactly when
    [leading_zeros] is [False] and the bit 8 exactly when
    [trailing_zeros] is [False]. *)
Theorem set_tolerance_values (self : t) (upper lower leading_zeros trailing_zeros : pyval)
    (u l hfactor : float) :
  (forall d, doc self = Some d -> dxfversion d <> R12) ->
  py_float upper = Ret (PFloat u) ->
  py_float (if is_None lower then upper else lower) = Ret (PFloat l) ->
  set_tolerance upper lower (PFloat hfactor) PNone PNone leading_zeros trailing_zeros self
  = (with_dxf (fun ns =>
       let ns := <["dimtfac" := PFloat hfactor]>
                   (<["dimtm" := PFloat l]>
                      (<["dimtp" := PFloat u]>
                         (<["dimlim" := PInt 0]> (<["dimtol" := PInt 1]> ns)))) in
       if (negb (is_None leading_zeros) || negb (is_None trailing_zeros))%bool
       then <["dimtzin" := PInt (tzin_mask leading_zeros trailing_zeros)]> ns
       else ns) self,
     Ret tt)
  /\ (lower = PNone -> l = u)
  /\ negb (Z.land (tzin_mask leading_zeros trailing_zeros) 4 =? 0) = is_False leading_zeros
  /\ negb (Z.land (tzin_mask leading_zeros trailing_zeros) 8 =? 0) = is_False trailing_zeros.
Proof.
  intros Hlater Hu Hl. split; [|split; [|apply tzin_mask_bits]].
  - unfold set_tolerance. do 2 assign.
    rewrite (bind_lift_Ret _ _ _ _ Hu). assign.
    assert (Hm : forall (k : unit -> exec t unit) (s : t),
              bind (if negb (is_None lower)
                    then bind (lift (py_float lower)) (fun l => set_dxf_attrib "dimtm" l)
                    else bind (lift (py_float upper)) (fun l => set_dxf_attrib "dimtm" l))
                k s
              = bind (set_dxf_attrib "dimtm" (PFloat l)) k s).
    { intros k s. unfold bind at 1 3.
      destruct (is_None lower); cbn [negb]; unfold bind at 1, lift; now rewrite Hl. }
    rewrite Hm. assign. cbn [is_None negb].
    match goal with
    | |- bind (bind (lift (py_float (PFloat hfactor))) ?f) ?k ?s = _ =>
        change (bind (bind (lift (py_float (PFloat hfactor))) f) k s)
          with (bind (f (PFloat hfactor)) k s); cbv beta
    end.
    assign.
    destruct (negb (is_None leading_zeros) || negb (is_None trailing_zeros))%bool.
    + assign. reflexivity.
    + reflexivity.
  - intros ->. simpl in Hl. congruence.
Qed.

Ltac assign12 :=
  match goal with
  | |- bind (set_dxf_attrib ?k ?v) _ ?s = _ =>
      match eval vm_compute in (DXFATTRIBS k) with
      | Some ?a =>
          rewrite (bind_Ret _ _ _ _ _
                     (set_stored_attr k v a s eq_refl eq_refl (version_ok_DXF12 s a eq_refl)))
      end
  end.

(** X9. [set_text_format] with a prefix or a postfix stores the template
    [prefix<>postfix] in [dimpost], and with one of the two flags given
    the suppression mask in [dimzin], in a record of any document. Of the
    stored mask [format_text] finds bit 4 set exactly when [leading_zeros]
    is [False] and bit 8 exactly when [trailing_zeros] is [False]; and
    given the stored mask and template it returns the prefix, the text it
    returns for that mask and the bare template ["<>"], and the postfix
    (and raises what it raises for the bare template), when the prefix
    has no place holder and neither has a brace. *)
Theorem set_text_format_then_format (self : t) (prefix postfix : string)
    (leading_zeros trailing_zeros : pyval) :
  set_text_format prefix postfix PNone PNone None leading_zeros trailing_zeros self
  = (with_dxf (fun ns =>
       let ns := if (negb (String.eqb prefix "") || negb (String.eqb postfix ""))%bool
                 then <["dimpost" := PStr (prefix +:+ "<>" +:+ postfix)]> ns
                 else ns in
       if (negb (is_None leading_zeros) || negb (is_None trailing_zeros))%bool
       then <["dimzin" := PInt (tzin_mask leading_zeros trailing_zeros)]> ns
       else ns) self,
     Ret tt)
  /\ negb (Z.land (tzin_mask leading_zeros trailing_zeros) 4 =? 0) = is_False leading_zeros
  /\ negb (Z.land (tzin_mask leading_zeros trailing_zeros) 8 =? 0) = is_False trailing_zeros
  /\ (contains "<>" prefix = false ->
      brace_free prefix = true -> brace_free postfix = true ->
      forall xround raise_decimals value dimrnd dimdec dimdsep raisedec,
        TextFormat.format_text xround raise_decimals value dimrnd dimdec
          (PInt (tzin_mask leading_zeros trailing_zeros)) dimdsep
          (PStr (prefix +:+ "<>" +:+ postfix)) raisedec
        = match TextFormat.format_text xround raise_decimals value dimrnd dimdec
                  (PInt (tzin_mask leading_zeros trailing_zeros)) dimdsep
                  (PStr "<>") raisedec with
          | Ret text => Ret (prefix +:+ text +:+ postfix)
          | Raise e => Raise e
          end).
Proof.
  split; [|split; [|split]].
  - unfold set_text_format.
    destruct (negb (String.eqb prefix "") || negb (String.eqb postfix ""))%bool;
      destruct (negb (is_None leading_zeros) || negb (is_None trailing_zeros))%bool;
      cbn [is_None negb];
      repeat first [ assign12
                   | progress (change (bind (ret tt) ?k ?s) with (k tt s); cbv beta) ];
      first [reflexivity | destruct self; reflexivity].
  - apply tzin_mask_bits.
  - apply tzin_mask_bits.
  - intros Hc Hp Hq xround raise_decimals value dimrnd dimdec dimdsep raisedec.
    rewrite format_text_bare. now apply format_text_wrap.
Qed.

(** X10. The decimal separator does not survive [set_text_format]: for a
    record whose document is later than R12, a separator of one
    character is stored in [dimdsep] as the code of the character, an
    integer, and [format_text] given that value as separator never
    returns a text. A separator that is not one character raises
    [TypeError] and leaves [dimdsep] as it was; the assignments before it
    are done by then: with no other argument and both flags [None]
    nothing is stored, and with a flag that is not [None] (as the defaults
    of the method are) [dimzin] is. *)
Theorem set_text_format_separator (self : t) (c : ascii) :
  (forall d, doc self = Some d -> dxfversion d <> R12) ->
  set_text_format "" "" PNone PNone (Some (String c "")) PNone PNone self
  = (with_dxf (fun ns => <["dimdsep" := PInt (Z.of_nat (nat_of_ascii c))]> ns) self, Ret tt)
  /\ (forall xround raise_decimals value dimrnd dimdec dimzin dimpost raisedec text,
        TextFormat.format_text xround raise_decimals value dimrnd dimdec dimzin
          (PInt (Z.of_nat (nat_of_ascii c))) dimpost raisedec <> Ret text)
  /\ (forall sep, String.length sep <> 1%nat ->
        (exists msg,
           set_text_format "" "" PNone PNone (Some sep) PNone PNone self
           = (self, Raise (TypeError msg)))
        /\ (forall leading_zeros trailing_zeros,
              (negb (is_None leading_zeros) || negb (is_None trailing_zeros))%bool = true ->
              exists msg,
                set_text_format "" "" PNone PNone (Some sep) leading_zeros trailing_zeros self
                = (with_dxf (fun ns => <["dimzin" := PInt (tzin_mask leading_zeros
                                                             trailing_zeros)]> ns) self,
                   Raise (TypeError msg)))
        /\ (exists msg,
              set_text_format "" "" PNone PNone (Some sep) (PBool true) (PBool true) self
              = (with_dxf (fun ns => <["dimzin" := PInt 0]> ns) self,
                 Raise (TypeError msg)))).
Proof.
  intros Hlater.
  assert (Hflags : forall sep leading_zeros trailing_zeros,
            String.length sep <> 1%nat ->
            (negb (is_None leading_zeros) || negb (is_None trailing_zeros))%bool = true ->
            exists msg,
              set_text_format "" "" PNone PNone (Some sep) leading_zeros trailing_zeros self
              = (with_dxf (fun ns => <["dimzin" := PInt (tzin_mask leading_zeros
                                                           trailing_zeros)]> ns) self,
                 Raise (TypeError msg))).
  { intros sep lz tz Hlen Hf.
    destruct sep as [|a [|b r]]; [| simpl in Hlen; lia |]; eexists;
      unfold set_text_format; rewrite Hf;
      cbn [String.eqb negb orb is_None];
      (change (bind (ret tt) ?k ?s) with (k tt s); cbv beta);
      (change (bind (ret tt) ?k ?s) with (k tt s); cbv beta);
      assign12;
      (change (bind (ret tt) ?k ?s) with (k tt s); cbv beta);
      reflexivity. }
  split; [|split].
  - unfold set_text_format. cbn [String.eqb negb orb is_None].
    change (bind (ret tt) ?k ?s) with (k tt s). cbv beta.
    change (bind (ret tt) ?k ?s) with (k tt s). cbv beta.
    change (bind (ret tt) ?k ?s) with (k tt s). cbv beta.
    change (bind (ret tt) ?k ?s) with (k tt s). cbv beta.
    rewrite (bind_lift_Ret _ _ _ _ (eq_refl : py_ord (String c "") = Ret _)).
    assign. reflexivity.
  - intros xround raise_decimals. apply format_text_separator_not_str. discriminate.
  - intros sep Hlen. split; [|split].
    + unfold set_text_format. cbn [String.eqb negb orb is_None].
      destruct sep as [|a [|b r]]; [| simpl in Hlen; lia |]; eexists; reflexivity.
    + intros lz tz Hf. now apply Hflags.
    + apply (Hflags sep (PBool true) (PBool true) Hlen eq_refl).
Qed.

(** *** Arrows and ticks *)

(** X11. [set_arrows] disables the tick: whenever it returns normally the
    record has [dimtsz] 0, whatever was stored there before; [set_tick]
    stores the size in [dimtsz] and touches no other field, in a record
    of any document. *)
Theorem set_arrows_disables_tick (self self' : t) (blk blk1 blk2 : string) :
  set_arrows blk blk1 blk2 self = (self', Ret tt) ->
  dxf self' !! "dimtsz" = Some (PInt 0)
  /\ (forall size s,
        set_tick size s = (with_dxf (fun ns => <["dimtsz" := size]> ns) s, Ret tt)
        /\ forall k, k <> "dimtsz" -> dxf (fst (set_tick size s)) !! k = dxf s !! k).
Proof.
  intros Hrun. split.
  - unfold set_arrows in Hrun.
    apply bind_inv in Hrun as [(e & _ & [=]) | (s1 & [] & _ & Hrun)].
    apply bind_inv in Hrun as [(e & _ & [=]) | (s2 & [] & _ & Hrun)].
    apply bind_inv in Hrun as [(e & _ & [=]) | (s3 & [] & _ & Hrun)].
    apply bind_inv in Hrun as [(e & _ & [=]) | (s4 & [] & Hset & Hrun)].
    rewrite set_dimtsz_run in Hset. injection Hset as <-.
    destruct (doc _); injection Hrun as <-; cbn [dxf with_dxf]; apply lookup_insert_eq.
  - intros size s.
    assert (E : set_tick size s = (with_dxf (fun ns => <["dimtsz" := size]> ns) s, Ret tt)).
    { unfold set_tick.
      apply (set_stored_attr "dimtsz" size (DXFAttr_ (Code 142) DXF12) s eq_refl eq_refl).
      now apply version_ok_DXF12. }
    split; [exact E|]. intros k Hk. rewrite E. cbn [fst dxf with_dxf].
    now apply lookup_insert_ne.
Qed.

(** *** The attributes that are exported *)

(** X12. The list of attributes [export_entity] takes for a version holds
    only attributes of the table that the version supports, with one
    exception: the list for R12 has [dimtfac], which the table declares
    for R2000. The lists for R2007 and later leave out [dimpost] and
    [dimapost], which the lists of the older versions have. *)
Theorem export_attribs_supported (v : version) :
  Forall (fun name => exported_ok v name = true \/ (v = R12 /\ name = "dimtfac"))
         (export_attribs (acad_tag v))
  /\ (In "dimtfac" (export_attribs (acad_tag R12)) /\ exported_ok R12 "dimtfac" = false)
  /\ (In "dimpost" (export_attribs (acad_tag v))
      <-> String.ltb (acad_tag v) DXF2007 = true)
  /\ (In "dimapost" (export_attribs (acad_tag v))
      <-> String.ltb (acad_tag v) DXF2007 = true).
Proof.
  assert (Hall : forall names,
            forallb (fun name => exported_ok v name
                                 || (String.eqb (acad_tag v) DXF12 && String.eqb name "dimtfac"))%bool
                    names = true ->
            Forall (fun name => exported_ok v name = true \/ (v = R12 /\ name = "dimtfac"))
                   names).
  { intros names Hb. apply Forall_forall. intros name Hin.
    rewrite forallb_forall in Hb. specialize (Hb name).
    rewrite <- list_elem_of_In in Hb. specialize (Hb Hin).
    apply orb_true_iff in Hb as [Hb | Hb]; [left; exact Hb|].
    apply andb_true_iff in Hb as [Hv Hn]. right.
    apply String.eqb_eq in Hn. split; [|exact Hn].
    destruct v; try reflexivity; discriminate Hv. }
  assert (Hin : forall x (l : list string), In x l <-> existsb (String.eqb x) l = true).
  { intros x l. rewrite existsb_exists. split.
    - intros Hx. exists x. split; [exact Hx|apply String.eqb_refl].
    - intros (y & Hy & Heq). apply String.eqb_eq in Heq. now subst. }
  split; [|split; [|split]].
  - apply Hall. destruct v; vm_compute; reflexivity.
  - split; [|reflexivity]. apply Hin. vm_compute. reflexivity.
  - rewrite Hin. destruct v; vm_compute; split; congruence.
  - rewrite Hin. destruct v; vm_compute; split; congruence.
Qed.

End DimStyleMore.

(** ** The further properties on the sample document *)

Section SampleMore.
Import DimStyle Sample.

(** The style [Standard] of the sample document, whose handle is 11. *)
Lemma text_style_round_trip_witness :
  @set_text_style "Standard" sample_dimstyle
  = (with_dxf (fun ns => <["dimtxsty_handle" := PStr "11"]> ns) sample_dimstyle, Ret tt)
  /\ @get_text_style sample_library
       (with_dxf (fun ns => <["dimtxsty_handle" := PStr "11"]> ns) sample_dimstyle)
     = (with_dxf (fun ns => <["dimtxsty_handle" := PStr "11"]> ns) sample_dimstyle,
        Ret (PStr "Standard")).
Proof.
  destruct (@text_style_round_trip sample_library sample_dimstyle sample_doc "Standard" "11")
    as (H1 & H2 & _); [reflexivity | discriminate | reflexivity | discriminate | reflexivity |].
  split; [exact H1 | exact H2].
Defined.

(** The linetype [CONTINUOUS] of the sample document, whose handle is 14. *)
Lemma linetype_read_back_raises_witness :
  set_linetype "CONTINUOUS" sample_dimstyle
  = (with_dxf (fun ns => <["dimltype_handle" := PStr "14"]> ns) sample_dimstyle, Ret tt)
  /\ get_linetype (with_dxf (fun ns => <["dimltype_handle" := PStr "14"]> ns) sample_dimstyle)
     = (with_dxf (fun ns => <["dimltype_handle" := PStr "14"]> ns) sample_dimstyle,
        Raise (AttributeError "'DimStyle' object has no attribute 'ocrawing'")).
Proof.
  destruct (linetype_read_back_raises sample_dimstyle sample_doc "CONTINUOUS" "14")
    as (H1 & _); [reflexivity | reflexivity | reflexivity | discriminate |].
  exact H1.
Defined.

(** The record of the R2000 document: the names are not even looked up. *)
Lemma set_linetypes_by_version_witness :
  set_linetypes (Some "CONTINUOUS") (Some "NOSUCHLINETYPE") None old_dimstyle
  = (add_log (Log "ezdxf" "DEBUG" "Linetype support requires DXF R2007 or later.")
       old_dimstyle, Ret tt).
Proof.
  destruct (set_linetypes_by_version old_dimstyle old_doc eq_refl) as [H1 _].
  apply H1. reflexivity.
Defined.

(** An upper value of 0.5 and no lower value, trailing zeros suppressed. *)
Lemma set_tolerance_values_witness :
  dxf (fst (@set_tolerance sample_library (PFloat 0.5) PNone (PFloat 1) PNone PNone
              PNone (PBool false) sample_dimstyle)) !! "dimtm" = Some (PFloat 0.5)
  /\ dxf (fst (@set_tolerance sample_library (PFloat 0.5) PNone (PFloat 1) PNone PNone
                 PNone (PBool false) sample_dimstyle)) !! "dimtzin" = Some (PInt 8).
Proof.
  destruct (@set_tolerance_values sample_library sample_dimstyle (PFloat 0.5) PNone
              PNone (PBool false) 0.5%float 0.5%float 1%float) as (H1 & _).
  - intros d [= <-]. discriminate.
  - reflexivity.
  - reflexivity.
  - rewrite H1. split; reflexivity.
Defined.

(** A prefix, a postfix and the leading zeros suppressed: the template
    and the mask 4 are stored, and one half is then written [~.5mm]. *)
Lemma set_text_format_then_format_witness :
  @set_text_format sample_library "~" "mm" PNone PNone None (PBool false) (PBool true)
    sample_dimstyle
  = (with_dxf (fun ns => <["dimzin" := PInt 4]> (<["dimpost" := PStr "~<>mm"]> ns))
       sample_dimstyle, Ret tt)
  /\ TextFormat.format_text (fun v _ => Ret v) (fun t => t)
       0.5%float PNone (PInt 1) (PInt 4) (PStr ".") (PStr "~<>mm") false
     = Ret "~.5mm".
Proof.
  destruct (@set_text_format_then_format sample_library sample_dimstyle "~" "mm"
              (PBool false) (PBool true)) as (H1 & _ & _ & H4).
  split; [exact H1|].
  change (PStr "~<>mm") with (PStr ("~" +:+ "<>" +:+ "mm")).
  change (PInt 4) with (PInt (tzin_mask (PBool false) (PBool true))).
  rewrite (H4 eq_refl eq_refl eq_refl). vm_compute. reflexivity.
Defined.

(** The comma is stored as 44. *)
Lemma set_text_format_separator_witness :
  @set_text_format sample_library "" "" PNone PNone (Some ",") PNone PNone sample_dimstyle
  = (with_dxf (fun ns => <["dimdsep" := PInt 44]> ns) sample_dimstyle, Ret tt).
Proof.
  destruct (@set_text_format_separator sample_library sample_dimstyle ","%char) as (H1 & _).
  - intros d [= <-]. discriminate.
  - exact H1.
Defined.

(** A tick size of 2 is replaced by 0. *)
Lemma set_arrows_disables_tick_witness :
  snd (@set_arrows sample_library "" "DOT" "MYBLOCK"
         (with_dxf (fun ns => <["dimtsz" := PFloat 2]> ns) sample_dimstyle)) = Ret tt
  /\ dxf (fst (@set_arrows sample_library "" "DOT" "MYBLOCK"
                 (with_dxf (fun ns => <["dimtsz" := PFloat 2]> ns) sample_dimstyle)))
       !! "dimtsz" = Some (PInt 0).
Proof.
  assert (Hsnd : snd (@set_arrows sample_library "" "DOT" "MYBLOCK"
                        (with_dxf (fun ns => <["dimtsz" := PFloat 2]> ns) sample_dimstyle))
                 = Ret tt) by (vm_compute; reflexivity).
  split; [exact Hsnd|].
  apply (@set_arrows_disables_tick sample_library
           (with_dxf (fun ns => <["dimtsz" := PFloat 2]> ns) sample_dimstyle)
           (fst (@set_arrows sample_library "" "DOT" "MYBLOCK"
                   (with_dxf (fun ns => <["dimtsz" := PFloat 2]> ns) sample_dimstyle)))
           "" "DOT" "MYBLOCK").
  exact (run_of_snd _ _ Hsnd).
Defined.

End SampleMore.

(** ** More of the renderer *)

Section RenderMore.
Import Render.
Context `{Env}.

Lemma grows_refl s : grows s s.
Proof.
  split; [exists []; now rewrite app_nil_r|]. repeat (split; [reflexivity|]). reflexivity.
Qed.

Lemma grows_trans a b c : grows a b -> grows b c -> grows a c.
Proof.
  intros ([x Hx] & H1 & H2 & H3 & H4 & H5 & H6 & H7 & H8)
         ([y Hy] & G1 & G2 & G3 & G4 & G5 & G6 & G7 & G8).
  split; [exists (x ++ y); now rewrite Hy, Hx, app_assoc|].
  split; [congruence|]. split; [congruence|]. split; [now transitivity
    (DimStyleOverride._cache (dim_style b))|].
  repeat (split; [congruence|]). congruence.
Qed.

Lemma grows_style_get (attribute : string) (default : pyval) :
  keeps grows (style_get attribute default).
Proof.
  intros s. unfold style_get.
  destruct (get_frame supports_dxf_attrib get_dxf_attrib (dim_style s) attribute default)
    as (H1 & H2 & H3).
  destruct (DimStyleOverride.get _ _ _ _ _) as [r o]. simpl in *.
  split; [exists []; now rewrite app_nil_r|].
  split; [exact H1|]. split; [exact H2|]. split; [exact H3|].
  repeat (split; [reflexivity|]). reflexivity.
Qed.

Lemma grows_block_add (p : prim) : keeps grows (modify (block_add p)).
Proof.
  intros s. simpl. split; [exists [p]; reflexivity|].
  repeat (split; [reflexivity|]). reflexivity.
Qed.

Lemma grows_for_each {A} (body : A -> exec state unit) (xs : list A) :
  (forall x, keeps grows (body x)) -> keeps grows (Frontend.for_each body xs).
Proof.
  intros Hb. induction xs as [|x xs IH]; simpl.
  - apply (keeps_ret _ grows_refl).
  - apply (keeps_bind _ grows_trans); [apply Hb|]. intros _. exact IH.
Qed.

Ltac keeps_grows :=
  repeat first
    [ apply (keeps_ret _ grows_refl)
    | apply (keeps_raise _ grows_refl)
    | apply (keeps_lift _ grows_refl)
    | apply (keeps_gets _ grows_refl)
    | apply grows_style_get
    | apply grows_block_add
    | apply grows_for_each; intros
    | apply (keeps_modify _); intros ?;
      (split; [exists []; now rewrite app_nil_r|]);
      repeat (split; [reflexivity|]); reflexivity
    | apply (keeps_bind _ grows_trans); [|intros]
    | match goal with
      | |- keeps _ (if ?b then _ else _) => destruct b
      | |- keeps _ (match ?x with _ => _ end) => destruct x
      | |- keeps _ (let 'pair _ _ := ?x in _) => destruct x
      end ].

Lemma grows_add_blockref name insert rotation scale reverse attribs :
  keeps grows (add_blockref name insert rotation scale reverse attribs).
Proof. unfold add_blockref, default_attributes, dim. keeps_grows. Qed.

(** X13. [render] only adds to what it was given, however it ends, with
    a result or with an exception on the way: the block keeps the
    entities it had and gains new ones at its end, the resolver keeps
    its style record and override map and never loses a cache entry, and
    the text style of the renderer and the layer, color, text and angle
    of the DIMENSION entity are left as they were. *)
Theorem render_only_adds (s : state) : grows s (fst (render s)).
Proof.
  revert s. change (keeps grows render).
  unfold render, get_text, format_text, get_text_midpoint, add_measurement_text, add_text,
    text_height, suppress_extension_line1, suppress_extension_line2, add_extension_line,
    get_arrow_names, add_arrows, add_dimension_line, add_line, add_defpoints,
    defpoints_to_wcs, default_attributes, scaled, dim.
  keeps_grows.
  all: apply grows_add_blockref.
Qed.

(** X14. [add_defpoints] adds one POINT for each point, in their order, at
    the point as [to_wcs] gives it and on the layer DEFPOINTS; it always
    returns, and changes nothing but the block. *)
Theorem add_defpoints_points (points : list Vector) (s : state) :
  snd (add_defpoints points s) = Ret tt
  /\ block (fst (add_defpoints points s))
     = block s ++ map (fun point => Point (to_wcs point)
                                      (<["layer" := AVal (PStr "DEFPOINTS")]> ∅)) points
  /\ dimension (fst (add_defpoints points s)) = dimension s
  /\ dim_style (fst (add_defpoints points s)) = dim_style s
  /\ drawing_blocks (fst (add_defpoints points s)) = drawing_blocks s.
Proof.
  unfold add_defpoints. revert s. induction points as [|p ps IH]; intros s.
  - simpl. rewrite app_nil_r. repeat split.
  - cbn [Frontend.for_each map]. unfold bind at 1 2 3 4 5, modify at 1 3 5 7 9.
    destruct (IH (block_add (Point (to_wcs p) (<["layer" := AVal (PStr "DEFPOINTS")]> ∅)) s))
      as (H1 & H2 & H3 & H4 & H5).
    split; [exact H1|]. split; [|split; [exact H3|split; [exact H4|exact H5]]].
    rewrite H2. cbn [block block_add]. now rewrite <- app_assoc.
Qed.

(** X15. A block reference by a name that is no arrow: when the drawing
    has no block of that name, [add_blockref] raises
    [DXFUndefinedBlockError] with the message [Undefined block: "<name>"]
    and adds nothing; when it has one, the reference is added at the
    insertion point as [to_ocs] gives it and the insertion point is
    returned as it is. The attributes of the caller are all there; the
    rotation is, unless the caller gave one; and [xscale] and [yscale] are
    set to the scale exactly when the scale is not 1, unless the caller
    gave them. *)
Theorem add_blockref_by_name (name : string) (insert : Vector) (rotation : float)
    (scale : pyval) (reverse : bool) (dxfattribs : gmap string attr) (s : state) :
  in_ARROWS name = false ->
  (name ∉ drawing_blocks s ->
     add_blockref (Some name) insert rotation scale reverse dxfattribs s
     = (s, Raise (DXFUndefinedBlockError ("Undefined block: " +:+ dq +:+ name +:+ dq))))
  /\ (name ∈ drawing_blocks s ->
      exists attribs,
        add_blockref (Some name) insert rotation scale reverse dxfattribs s
        = (block_add (Blockref name (to_ocs insert) attribs) s, Ret insert)
        /\ dxfattribs ⊆ attribs
        /\ (dxfattribs !! "rotation" = None ->
            attribs !! "rotation" = Some (AVal (PFloat rotation)))
        /\ (dxfattribs !! "xscale" = None -> dxfattribs !! "yscale" = None ->
            if py_eqb scale (PFloat 1)
            then attribs !! "xscale" = None /\ attribs !! "yscale" = None
            else attribs !! "xscale" = Some (AVal scale)
                 /\ attribs !! "yscale" = Some (AVal scale))).
Proof.
  intros Harrow. split.
  - intros Hno. unfold add_blockref. rewrite Harrow.
    unfold bind at 1, gets. rewrite (bool_decide_eq_false_2 _ Hno). reflexivity.
  - intros Hin. unfold add_blockref. rewrite Harrow.
    unfold bind at 1, gets. rewrite (bool_decide_eq_true_2 _ Hin). cbn [negb].
    eexists. split; [reflexivity|]. cbv zeta. unfold update.
    split; [apply map_union_subseteq_l|].
    split.
    + intros Hr. rewrite lookup_union_r by exact Hr.
      destruct requires_extrusion, (py_eqb scale (PFloat 1)); cbn [negb];
        rewrite ?lookup_insert_ne by discriminate; apply lookup_insert_eq.
    + intros Hx Hy.
      destruct (py_eqb scale (PFloat 1)); cbn [negb]; split;
        rewrite lookup_union_r by assumption;
        destruct requires_extrusion;
        rewrite ?lookup_insert_eq, ?lookup_insert_ne by discriminate;
        rewrite ?lookup_insert_eq, ?lookup_insert_ne by discriminate;
        rewrite ?lookup_insert_eq, ?lookup_insert_ne by discriminate;
        rewrite ?lookup_insert_eq, ?lookup_insert_ne by discriminate;
        rewrite ?lookup_empty; reflexivity.
Qed.

(** X16. With a tick size greater than zero [add_arrows] draws oblique
    strokes and no arrow blocks: it adds two arrows of the name
    [ARROWS.oblique], at the start and at the end of the dimension line,
    rotated by the angle of the dimension, of twice the tick size and in
    the color [dimclrd], and returns the two ends as they were given,
    whatever the two arrow names are. *)
Theorem add_arrows_tick (s s1 s2 : state) (start end_ : Vector) (blk1 blk2 : option string)
    (c dimtsz size : pyval) :
  style_get "dimclrd" (color (dimension s)) s = (s1, Ret c) ->
  style_get "dimtsz" PNone s1 = (s2, Ret dimtsz) ->
  greater_than_zero dimtsz = Ret true ->
  doubled dimtsz = Ret size ->
  add_arrows start end_ blk1 blk2 s
  = (block_add (Arrow oblique end_ (angle (dimension s2)) size (<["color" := AVal c]> ∅))
       (block_add (Arrow oblique start (angle (dimension s2)) size (<["color" := AVal c]> ∅))
          s2),
     Ret (start, end_)).
Proof.
  intros Hc Ht Hg Hd. unfold add_arrows.
  unfold bind at 1, dim, gets. rewrite (bind_Ret _ _ _ _ _ Hc).
  rewrite (bind_Ret _ _ _ _ _ Ht). unfold bind at 1, lift. rewrite Hg.
  unfold bind, gets, lift, modify, ret. rewrite Hd. reflexivity.
Qed.

(** X17. [add_extension_line] adds one line, in the color [dimclre] and
    on the layer of the dimension: from the start moved by [dimexo] along
    the line to the end moved by [dimexe] beyond it, both as [to_wcs]
    gives them. When the two points coincide and the direction cannot be
    normalized, the exception goes through and nothing is added. *)
Theorem add_extension_line_ends (s s1 s2 s3 : state) (start end_ direction : Vector)
    (dimexo dimexe c : pyval) (offset extension : float) :
  normalize (vsub end_ start) 1%float = Ret direction ->
  style_get "dimexo" (PFloat 0) s = (s1, Ret dimexo) ->
  style_get "dimexe" (PFloat 0) s1 = (s2, Ret dimexe) ->
  as_float dimexo = Ret offset -> as_float dimexe = Ret extension ->
  style_get "dimclre" (color (dimension s2)) s2 = (s3, Ret c) ->
  (exists attribs,
     add_extension_line start end_ s
     = (block_add (Line (to_wcs (vadd start (vmul direction offset)))
                        (to_wcs (vadd end_ (vmul direction extension))) attribs) s3,
        Ret tt)
     /\ attribs !! "color" = Some (AVal c)
     /\ attribs !! "layer" = Some (AVal (layer (dimension s3))))
  /\ (forall a b e sa, normalize (vsub b a) 1%float = Raise e ->
        add_extension_line a b sa = (sa, Raise e)).
Proof.
  intros Hn Ho He Hfo Hfe Hc. split.
  - exists (update (<["color" := AVal (color (dimension s3))]>
                      (<["layer" := AVal (layer (dimension s3))]> ∅))
                   (<["color" := AVal c]> ∅)).
    split; [|split].
    + unfold add_extension_line. rewrite Hn.
      unfold bind at 1, lift. rewrite (bind_Ret _ _ _ _ _ Ho).
      rewrite (bind_Ret _ _ _ _ _ He).
      unfold scaled. rewrite Hfo, Hfe. unfold bind at 1 2 3 4, lift, ret.
      unfold bind at 1, dim, gets. rewrite (bind_Ret _ _ _ _ _ Hc). reflexivity.
    + unfold update. apply lookup_union_Some_l. apply lookup_insert_eq.
    + unfold update. rewrite lookup_union_r by (now rewrite lookup_insert_ne by discriminate).
      rewrite lookup_insert_ne by discriminate. apply lookup_insert_eq.
  - intros a b e sa Hr. unfold add_extension_line. now rewrite Hr.
Qed.

End RenderMore.

Section RenderMoreExamples.
Import Render Sample.

(** The sample drawing has no block [MYBLOCK]. *)
Lemma add_blockref_by_name_witness :
  @add_blockref (sample_env None tick_arrows) (Some "MYBLOCK") (0, 2, 0)%float 0%float
    (PFloat 1) true ∅ (sample_renderer None tick_arrows "<>")
  = (sample_renderer None tick_arrows "<>",
     Raise (DXFUndefinedBlockError ("Undefined block: " +:+ dq +:+ "MYBLOCK" +:+ dq))).
Proof.
  pose (E := sample_env None tick_arrows).
  destruct (@add_blockref_by_name E "MYBLOCK" ((0, 2, 0)%float : Vec3)
              0%float (PFloat 1) true ∅ (sample_renderer None tick_arrows "<>") eq_refl)
    as [Hno _].
  apply Hno. apply not_elem_of_empty.
Defined.

(** A tick size of 1: two strokes of size 2, whatever the arrow names. *)
Lemma add_arrows_tick_witness :
  snd (@add_arrows (sample_env None tick_arrows) (0, 2, 0)%float (10, 2, 0)%float
         (Some "DOT") (Some "DOT") tick_renderer)
  = Ret ((0, 2, 0)%float, (10, 2, 0)%float)
  /\ block (fst (@add_arrows (sample_env None tick_arrows) (0, 2, 0)%float (10, 2, 0)%float
                   (Some "DOT") (Some "DOT") tick_renderer))
     = [@Arrow (sample_env None tick_arrows) "OBLIQUE" (0, 2, 0)%float 0%float (PFloat 2)
          (<["color" := @AVal (sample_env None tick_arrows) (PInt 256)]> ∅);
        @Arrow (sample_env None tick_arrows) "OBLIQUE" (10, 2, 0)%float 0%float (PFloat 2)
          (<["color" := @AVal (sample_env None tick_arrows) (PInt 256)]> ∅)].
Proof.
  pose (E := sample_env None tick_arrows).
  pose (s1 := fst (@style_get E "dimclrd" (color (dimension tick_renderer)) tick_renderer)).
  pose (s2 := fst (@style_get E "dimtsz" PNone s1)).
  assert (H1 : snd (@style_get E "dimclrd" (color (dimension tick_renderer)) tick_renderer)
               = Ret (PInt 256)) by (vm_compute; reflexivity).
  assert (H2 : snd (@style_get E "dimtsz" PNone s1) = Ret (PFloat 1))
    by (vm_compute; reflexivity).
  pose proof (@add_arrows_tick E tick_renderer s1 s2 (0, 2, 0)%float (10, 2, 0)%float
                (Some "DOT") (Some "DOT") (PInt 256) (PFloat 1) (PFloat 2)
                (run_of_snd _ _ H1) (run_of_snd _ _ H2) eq_refl eq_refl) as Hrun.
  fold E. rewrite Hrun. split; reflexivity.
Defined.

(** The first extension line of the sample dimension, without offset and
    extension. *)
Lemma add_extension_line_ends_witness :
  last_line_ends
    (block (fst (@add_extension_line (sample_env None tick_arrows)
                   (0, 0, 0)%float (0, 2, 0)%float (sample_renderer None tick_arrows "<>"))))
  = Some ((0, 0, 0)%float, (0, 2, 0)%float).
Proof.
  pose (E := sample_env None tick_arrows).
  pose (s := sample_renderer None tick_arrows "<>").
  pose (s1 := fst (@style_get E "dimexo" (PFloat 0) s)).
  pose (s2 := fst (@style_get E "dimexe" (PFloat 0) s1)).
  pose (s3 := fst (@style_get E "dimclre" (color (dimension s2)) s2)).
  assert (H1 : snd (@style_get E "dimexo" (PFloat 0) s) = Ret (PFloat 0))
    by (vm_compute; reflexivity).
  assert (H2 : snd (@style_get E "dimexe" (PFloat 0) s1) = Ret (PFloat 0))
    by (vm_compute; reflexivity).
  assert (H3 : snd (@style_get E "dimclre" (color (dimension s2)) s2) = Ret (PInt 256))
    by (vm_compute; reflexivity).
  assert (Hn : @normalize E (@vsub E (0, 2, 0)%float (0, 0, 0)%float) 1%float
               = Ret (0, 1, 0)%float) by (vm_compute; reflexivity).
  destruct (@add_extension_line_ends E s s1 s2 s3 (0, 0, 0)%float (0, 2, 0)%float
              (0, 1, 0)%float (PFloat 0) (PFloat 0) (PInt 256) 0%float 0%float
              Hn (run_of_snd _ _ H1) (run_of_snd _ _ H2) eq_refl eq_refl (run_of_snd _ _ H3))
    as [(attribs & Hrun & _) _].
  fold E s. rewrite Hrun. unfold last_line_ends. cbn [fst].
  change (block (block_add ?p ?x)) with (block x ++ [p]).
  rewrite last_snoc. vm_compute. reflexivity.
Defined.

End RenderMoreExamples.

(** ** More of the drawing frontend *)

Section FrontendMore.
Import Frontend.
Variables RenderContext Properties DrawCall : Type.
Variable resolve_all : RenderContext -> DXFGraphic -> Properties.
Variable push_state : Properties -> RenderContext -> RenderContext.
Variable pop_state : RenderContext -> RenderContext.
Variables _draw_line_entity _draw_text_entity _draw_curve_entity _draw_misc_entity :
  DXFGraphic -> RenderContext -> list (backend_call DrawCall) * outcome unit.

Local Abbreviation state := (fstate RenderContext DrawCall).
Local Abbreviation composite :=
  (_draw_composite_entity RenderContext Properties DrawCall resolve_all push_state pop_state).
Local Abbreviation body :=
  (draw_entity_body RenderContext Properties DrawCall resolve_all push_state pop_state
     _draw_line_entity _draw_text_entity _draw_curve_entity _draw_misc_entity).
Local Abbreviation upto :=
  (draw_entity_upto RenderContext Properties DrawCall resolve_all push_state pop_state
     _draw_line_entity _draw_text_entity _draw_curve_entity _draw_misc_entity).
Local Abbreviation draw :=
  (draw_entity RenderContext Properties DrawCall resolve_all push_state pop_state
     _draw_line_entity _draw_text_entity _draw_curve_entity _draw_misc_entity).
Local Abbreviation above := (Frontend.above RenderContext DrawCall).
Local Abbreviation leads := (Frontend.leads RenderContext DrawCall).
Local Abbreviation pstack := (parent_stack RenderContext DrawCall).
Local Abbreviation append := (stack_append RenderContext DrawCall).
Local Abbreviation pop := (stack_pop RenderContext DrawCall).
Local Abbreviation tell := (call_out RenderContext DrawCall).
Local Abbreviation update_ctx := (ctx_update RenderContext DrawCall).
Local Abbreviation say := (print RenderContext DrawCall).
Local Abbreviation run := (run_drawer RenderContext DrawCall).

(** *** The parent stack is never cut *)

Local Abbreviation still := (Frontend.still RenderContext DrawCall).
Local Abbreviation careful := (Frontend.careful RenderContext DrawCall).
Local Abbreviation returns := (Frontend.returns RenderContext DrawCall).
Local Abbreviation effect := (Frontend.stack_effect RenderContext DrawCall).

Lemma above_app ps x s : above (ps ++ x) s -> above ps s.
Proof. intros [y Hy]. exists (x ++ y). now rewrite Hy, app_assoc. Qed.

Lemma leads_bind {A B} (P Q' Q : state -> Prop) (m : exec state A) (k : A -> exec state B) :
  leads P m Q' -> (forall s, Q' s -> Q s) -> (forall a, leads Q' (k a) Q) ->
  leads P (bind m k) Q.
Proof.
  intros Hm Hq Hk s Hs. unfold bind. specialize (Hm s Hs).
  destruct (m s) as [s1 [a|e]]; simpl in *.
  - now apply Hk.
  - now apply Hq.
Qed.

Lemma still_careful {A} (c : exec state A) : still c -> careful c.
Proof. intros Hc ps s [x Hx]. exists x. now rewrite Hc. Qed.

Lemma still_exact {A} (c : exec state A) ps :
  still c -> leads (fun s => pstack s = ps) c (fun s => pstack s = ps).
Proof. intros Hc s Hs. now rewrite Hc. Qed.

Lemma still_tell c : still (tell c).
Proof. intros s. reflexivity. Qed.

Lemma still_update_ctx f : still (update_ctx f).
Proof. intros s. reflexivity. Qed.

Lemma still_say what e : still (say what e).
Proof. intros s. reflexivity. Qed.

Lemma still_gets {A} (f : state -> A) : still (gets f).
Proof. intros s. reflexivity. Qed.

Lemma still_ret {A} (a : A) : still (@ret state A a).
Proof. intros s. reflexivity. Qed.

Lemma still_raise {A} e : still (@raise state A e).
Proof. intros s. reflexivity. Qed.

Lemma still_run d entity : still (run d entity).
Proof. intros s. unfold run_drawer. now destruct (d entity _). Qed.

Lemma careful_bind {A B} (m : exec state A) (k : A -> exec state B) :
  careful m -> (forall a, careful (k a)) -> careful (bind m k).
Proof.
  intros Hm Hk ps. apply (leads_bind _ (above ps)); [apply Hm | auto | intros a; apply Hk].
Qed.

Lemma careful_for_each (de : DXFGraphic -> exec state unit) (xs : list DXFGraphic) :
  (forall e, careful (de e)) -> careful (for_each de xs).
Proof.
  intros Hd. induction xs as [|x xs IH]; simpl.
  - apply still_careful, still_ret.
  - apply careful_bind; [apply Hd|]. intros _. exact IH.
Qed.

Lemma leads_append ps entity :
  leads (fun s => pstack s = ps) (append entity) (above (ps ++ [entity])).
Proof. intros s Hs. exists []. simpl. now rewrite Hs, app_nil_r. Qed.

Lemma leads_pop ps entity : leads (above (ps ++ [entity])) pop (above ps).
Proof.
  intros s [x Hx]. simpl. rewrite Hx, <- app_assoc.
  exists (removelast ([entity] ++ x)). apply removelast_app. discriminate.
Qed.

(** From the push of the entity to the end of [_draw_composite_entity],
    for each kind of entity. *)
Lemma composite_from (de : DXFGraphic -> exec state unit) (entity : DXFGraphic) ps :
  (forall e, careful (de e)) ->
  leads (fun s => pstack s = ps) (composite de entity) (above ps).
Proof.
  intros Hd.
  assert (Hexact : forall s : state, pstack s = ps -> above ps s).
  { intros s Hs. exists []. now rewrite app_nil_r. }
  assert (Hin : forall s : state, above (ps ++ [entity]) s -> above ps s)
    by (intros s; apply above_app).
  unfold _draw_composite_entity.
  destruct (String.eqb (dxftype entity) "INSERT").
  { apply (leads_bind _ (fun s => pstack s = ps));
      [apply still_exact, still_gets | exact Hexact | intros c].
    apply (leads_bind _ (fun s => pstack s = ps));
      [apply still_exact, still_update_ctx | exact Hexact | intros _].
    apply (leads_bind _ (above (ps ++ [entity])));
      [apply leads_append | exact Hin | intros _].
    apply (leads_bind _ (above (ps ++ [entity])));
      [now apply careful_for_each | exact Hin | intros _].
    destruct (virtual_raises entity) as [e|].
    - intros s Hs. apply Hin. now apply (still_careful _ (still_say _ e)).
    - apply (leads_bind _ (above (ps ++ [entity])));
        [now apply careful_for_each | exact Hin | intros _].
      apply (leads_bind _ (above ps)); [apply leads_pop | auto | intros _].
      apply still_careful, still_update_ctx. }
  destruct (String.eqb (dxftype entity) "DIMENSION").
  { destruct (virtual_raises entity) as [e|].
    - intros s Hs. apply (still_careful _ (still_say _ e)). now apply Hexact.
    - apply (leads_bind _ (above (ps ++ [entity])));
        [apply leads_append | exact Hin | intros _].
      apply (leads_bind _ (above (ps ++ [entity])));
        [now apply careful_for_each | exact Hin | intros _].
      apply leads_pop. }
  destruct (mem (dxftype entity) ["LWPOLYLINE"; "POLYLINE"]).
  { apply (leads_bind _ (above (ps ++ [entity])));
      [apply leads_append | exact Hin | intros _].
    apply (leads_bind _ (above (ps ++ [entity])));
      [apply still_careful, still_tell | exact Hin | intros _].
    apply (leads_bind _ (above (ps ++ [entity])));
      [now apply careful_for_each | exact Hin | intros _].
    apply (leads_bind _ (above (ps ++ [entity])));
      [destruct (virtual_raises entity);
         [apply still_careful, still_raise | apply still_careful, still_ret]
      | exact Hin | intros _].
    apply (leads_bind _ (above ps)); [apply leads_pop | auto | intros _].
    apply (leads_bind _ (above ps)); [apply still_careful, still_gets | auto | intros stack].
    apply (leads_bind _ (above ps)); [apply still_careful, still_tell | auto | intros _].
    apply (leads_bind _ (above ps)); [apply still_careful, still_tell | auto | intros _].
    apply still_careful, still_tell. }
  intros s Hs. now apply Hexact.
Qed.

Lemma careful_composite (de : DXFGraphic -> exec state unit) (entity : DXFGraphic) :
  (forall e, careful (de e)) -> careful (composite de entity).
Proof.
  intros Hd ps s [x Hx].
  destruct (composite_from de entity (pstack s) Hd s eq_refl) as [y Hy].
  exists (x ++ y). now rewrite Hy, Hx, app_assoc.
Qed.

Lemma careful_body (de : DXFGraphic -> exec state unit) (entity : DXFGraphic) :
  (forall e, careful (de e)) -> careful (body de entity).
Proof.
  intros Hd. unfold draw_entity_body.
  apply careful_bind; [apply still_careful, still_gets|]. intros ps.
  apply careful_bind; [apply still_careful, still_tell|]. intros _.
  apply careful_bind; [|intros _; apply still_careful, still_tell].
  repeat match goal with
         | |- careful (if ?b then _ else _) => destruct b
         end;
    first [ apply still_careful, still_run
          | now apply careful_composite
          | apply still_careful, still_tell ].
Qed.

Lemma careful_upto (n : nat) (entity : DXFGraphic) : careful (upto n entity).
Proof.
  revert entity. induction n as [|n IH]; intros entity.
  - apply still_careful, still_raise.
  - simpl. now apply careful_body.
Qed.

(** X18. [draw_entity] never cuts the parent stack: however it ends,
    with a result or with an exception, the parent stack it leaves
    starts with the stack it was called with. *)
Theorem draw_entity_keeps_parents (entity : DXFGraphic) (s : state) :
  exists extra, pstack (fst (draw entity s)) = pstack s ++ extra.
Proof.
  apply (careful_upto (depth entity) entity (pstack s) s).
  exists []. now rewrite app_nil_r.
Qed.

Lemma leads_bind_returns {A B} (P Q' Q : state -> Prop) (m : exec state A)
    (k : A -> exec state B) :
  returns m -> leads P m Q' -> (forall a, leads Q' (k a) Q) -> leads P (bind m k) Q.
Proof.
  intros Hr Hm Hk s Hs. unfold bind. specialize (Hm s Hs). destruct (Hr s) as [a Ha].
  destruct (m s) as [s1 [a'|e]]; simpl in *; [now apply Hk|discriminate].
Qed.

Lemma returns_modify (f : state -> state) : returns (modify f).
Proof. intros s. now exists tt. Qed.

Lemma returns_gets {A} (f : state -> A) : returns (gets f).
Proof. intros s. now exists (f s). Qed.

(** X19. An INSERT whose expansion raises is never taken off the parent
    stack: [draw_entity] prints the failure and returns early, and the
    stack it leaves starts with the stack it was called with followed by
    the INSERT entity, whatever its attached entities are and however
    drawing them ends. *)
Theorem insert_failure_leaves_parent
    (ns : gmap string pyval) (tr : float) (ats children : list DXFGraphic) (e : exn)
    (s : state) :
  exists extra,
    pstack (fst (draw (Entity "INSERT" ns tr ats children (Some e)) s))
    = pstack s ++ Entity "INSERT" ns tr ats children (Some e) :: extra.
Proof.
  set (entity := Entity "INSERT" ns tr ats children (Some e)).
  assert (Hgoal : leads (fun x => pstack x = pstack s) (draw entity)
                    (above (pstack s ++ [entity]))).
  { unfold draw_entity. destruct (depth entity) as [|n] eqn:Hn; [discriminate Hn|].
    change (upto (S n) entity) with (body (upto n) entity).
    unfold draw_entity_body.
    change (mem (dxftype entity) LINE_ENTITY_TYPES) with false.
    change (mem (dxftype entity) TEXT_ENTITY_TYPES) with false.
    change (mem (dxftype entity) CURVE_ENTITY_TYPES) with false.
    change (mem (dxftype entity) MISC_ENTITY_TYPES) with false.
    change (mem (dxftype entity) COMPOSITE_ENTITY_TYPES) with true.
    cbv iota.
    apply (leads_bind_returns _ (fun x => pstack x = pstack s));
      [apply returns_gets | apply still_exact, still_gets | intros ps].
    apply (leads_bind_returns _ (fun x => pstack x = pstack s));
      [apply returns_modify | apply still_exact, still_tell | intros _].
    apply (leads_bind _ (above (pstack s ++ [entity])));
      [| auto | intros _; apply still_careful, still_tell].
    unfold _draw_composite_entity.
    change (String.eqb (dxftype entity) "INSERT") with true. cbv iota.
    change (virtual_raises entity) with (Some e). cbv iota.
    apply (leads_bind_returns _ (fun x => pstack x = pstack s));
      [apply returns_gets | apply still_exact, still_gets | intros c].
    apply (leads_bind_returns _ (fun x => pstack x = pstack s));
      [apply returns_modify | apply still_exact, still_update_ctx | intros _].
    apply (leads_bind_returns _ (above (pstack s ++ [entity])));
      [apply returns_modify | apply leads_append | intros _].
    apply (leads_bind _ (above (pstack s ++ [entity])));
      [apply careful_for_each; intros x; apply careful_upto | auto | intros _].
    apply still_careful, still_say. }
  destruct (Hgoal s eq_refl) as [x Hx]. exists x. now rewrite Hx, <- app_assoc.
Qed.

(** *** Pushes and pops balance *)

Lemma effect_bind {A B} (f g : list DXFGraphic -> list DXFGraphic)
    (m : exec state A) (k : A -> exec state B) :
  effect f m -> (forall a, effect g (k a)) -> effect (fun ps => g (f ps)) (bind m k).
Proof.
  intros Hm Hk s. destruct (Hm s) as [[m1 H1] H2]. unfold bind.
  destruct (m s) as [s1 [a|e]]; simpl in *.
  - destruct (Hk a s1) as [[m2 H3] H4]. split.
    + exists (m1 ++ m2). now rewrite H3, H1, app_assoc.
    + intros b Hb Hp.
      assert (Hnil : m1 ++ m2 = []).
      { rewrite H3, H1, <- app_assoc in Hp.
        apply (app_inv_head (printed RenderContext DrawCall s)).
        now rewrite app_nil_r. }
      apply app_eq_nil in Hnil as [-> ->]. rewrite app_nil_r in H1, H3.
      rewrite (H4 b Hb H3). f_equal. now apply (H2 a).
  - split; [now exists m1|]. intros b Hb. discriminate Hb.
Qed.

Lemma effect_ext {A} (f g : list DXFGraphic -> list DXFGraphic) (c : exec state A) :
  effect f c -> (forall ps, f ps = g ps) -> effect g c.
Proof.
  intros Hc Hfg s. destruct (Hc s) as [H1 H2]. split; [exact H1|].
  intros a Ha Hp. rewrite <- Hfg. now apply (H2 a).
Qed.

(** A command that prints nothing and leaves the stack. *)
Lemma effect_quiet {A} (c : exec state A) :
  still c -> (forall s, printed RenderContext DrawCall (fst (c s)) = printed _ _ s) ->
  effect (fun ps => ps) c.
Proof.
  intros Hs Hp s. split; [exists []; now rewrite Hp, app_nil_r|].
  intros a _ _. apply Hs.
Qed.

Lemma effect_tell c : effect (fun ps => ps) (tell c).
Proof. apply effect_quiet; [apply still_tell|reflexivity]. Qed.

Lemma effect_update_ctx f : effect (fun ps => ps) (update_ctx f).
Proof. apply effect_quiet; [apply still_update_ctx|reflexivity]. Qed.

Lemma effect_gets {A} (f : state -> A) : effect (fun ps => ps) (gets f).
Proof. apply effect_quiet; [apply still_gets|reflexivity]. Qed.

Lemma effect_ret {A} (a : A) : effect (fun ps => ps) (@ret state A a).
Proof. apply effect_quiet; [apply still_ret|reflexivity]. Qed.

Lemma effect_run d entity : effect (fun ps => ps) (run d entity).
Proof.
  apply effect_quiet; [apply still_run|].
  intros s. unfold run_drawer. now destruct (d entity _).
Qed.

Lemma effect_raise {A} f e : effect f (@raise state A e).
Proof.
  intros s. split; [exists []; simpl; now rewrite app_nil_r|].
  intros a Ha. discriminate Ha.
Qed.

Lemma effect_say f what e : effect f (say what e).
Proof.
  intros s. split; [now exists [(what, e)]|].
  intros a _ Hp. simpl in Hp. apply (f_equal (@length _)) in Hp.
  rewrite length_app in Hp. simpl in Hp. lia.
Qed.

Lemma effect_append entity : effect (fun ps => ps ++ [entity]) (append entity).
Proof.
  intros s. split; [exists []; simpl; now rewrite app_nil_r|].
  intros a _ _. reflexivity.
Qed.

Lemma effect_pop : effect (@removelast DXFGraphic) pop.
Proof.
  intros s. split; [exists []; simpl; now rewrite app_nil_r|].
  intros a _ _. reflexivity.
Qed.

Lemma effect_for_each (de : DXFGraphic -> exec state unit) (xs : list DXFGraphic) :
  (forall e, effect (fun ps => ps) (de e)) -> effect (fun ps => ps) (for_each de xs).
Proof.
  intros Hd. induction xs as [|x xs IH]; simpl.
  - apply effect_ret.
  - apply (effect_bind (fun ps => ps) (fun ps => ps)); [apply Hd|]. intros _. exact IH.
Qed.

Lemma effect_composite (de : DXFGraphic -> exec state unit) (entity : DXFGraphic) :
  (forall e, effect (fun ps => ps) (de e)) -> effect (fun ps => ps) (composite de entity).
Proof.
  intros Hd.
  assert (Hloop : forall xs, effect (fun ps => ps) (for_each de xs))
    by (intros xs; now apply effect_for_each).
  unfold _draw_composite_entity.
  destruct (String.eqb (dxftype entity) "INSERT").
  { apply (effect_ext (fun ps => removelast (ps ++ [entity]))).
    2: { intros ps. apply removelast_last. }
    apply (effect_bind (fun ps => ps) (fun ps => removelast (ps ++ [entity])));
      [apply effect_gets|]. intros c.
    apply (effect_bind (fun ps => ps) (fun ps => removelast (ps ++ [entity])));
      [apply effect_update_ctx|]. intros _.
    apply (effect_bind (fun ps => ps ++ [entity]) (@removelast DXFGraphic));
      [apply effect_append|]. intros _.
    apply (effect_bind (fun ps => ps) (@removelast DXFGraphic)); [apply Hloop|]. intros _.
    destruct (virtual_raises entity) as [e|]; [apply effect_say|].
    apply (effect_bind (fun ps => ps) (@removelast DXFGraphic)); [apply Hloop|]. intros _.
    apply (effect_bind (@removelast DXFGraphic) (fun ps => ps)); [apply effect_pop|].
    intros _. apply effect_update_ctx. }
  destruct (String.eqb (dxftype entity) "DIMENSION").
  { destruct (virtual_raises entity) as [e|]; [apply effect_say|].
    apply (effect_ext (fun ps => removelast (ps ++ [entity]))).
    2: { intros ps. apply removelast_last. }
    apply (effect_bind (fun ps => ps ++ [entity]) (@removelast DXFGraphic));
      [apply effect_append|]. intros _.
    apply (effect_bind (fun ps => ps) (@removelast DXFGraphic)); [apply Hloop|]. intros _.
    apply effect_pop. }
  destruct (mem (dxftype entity) ["LWPOLYLINE"; "POLYLINE"]).
  { apply (effect_ext (fun ps => removelast (ps ++ [entity]))).
    2: { intros ps. apply removelast_last. }
    apply (effect_bind (fun ps => ps ++ [entity]) (@removelast DXFGraphic));
      [apply effect_append|]. intros _.
    apply (effect_bind (fun ps => ps) (@removelast DXFGraphic)); [apply effect_tell|].
    intros _.
    apply (effect_bind (fun ps => ps) (@removelast DXFGraphic)); [apply Hloop|]. intros _.
    apply (effect_bind (fun ps => ps) (@removelast DXFGraphic));
      [destruct (virtual_raises entity); [apply effect_raise|apply effect_ret]|].
    intros _.
    apply (effect_bind (@removelast DXFGraphic) (fun ps => ps)); [apply effect_pop|].
    intros _.
    apply (effect_bind (fun ps => ps) (fun ps => ps)); [apply effect_gets|]. intros stack.
    apply (effect_bind (fun ps => ps) (fun ps => ps)); [apply effect_tell|]. intros _.
    apply (effect_bind (fun ps => ps) (fun ps => ps)); [apply effect_tell|]. intros _.
    apply effect_tell. }
  apply effect_raise.
Qed.

Lemma effect_body (de : DXFGraphic -> exec state unit) (entity : DXFGraphic) :
  (forall e, effect (fun ps => ps) (de e)) -> effect (fun ps => ps) (body de entity).
Proof.
  intros Hd. unfold draw_entity_body.
  apply (effect_bind (fun ps => ps) (fun ps => ps)); [apply effect_gets|]. intros ps.
  apply (effect_bind (fun ps => ps) (fun ps => ps)); [apply effect_tell|]. intros _.
  apply (effect_bind (fun ps => ps) (fun ps => ps)); [|intros _; apply effect_tell].
  repeat match goal with
         | |- Frontend.stack_effect _ _ _ (if ?b then _ else _) => destruct b
         end;
    first [ apply effect_run | now apply effect_composite | apply effect_tell ].
Qed.

Lemma effect_upto (n : nat) (entity : DXFGraphic) : effect (fun ps => ps) (upto n entity).
Proof.
  revert entity. induction n as [|n IH]; intros entity.
  - apply effect_raise.
  - simpl. now apply effect_body.
Qed.

(** X20. Pushes and pops balance: when [draw_entity] returns normally
    and has printed nothing (no expansion failed), the parent stack is
    the one it was called with. What was printed before is still there,
    followed by what the call printed. *)
Theorem draw_entity_balanced (entity : DXFGraphic) (s : state) :
  snd (draw entity s) = Ret tt ->
  printed RenderContext DrawCall (fst (draw entity s)) = printed RenderContext DrawCall s ->
  pstack (fst (draw entity s)) = pstack s.
Proof.
  intros Hr Hp. destruct (effect_upto (depth entity) entity s) as [_ H]. now apply (H tt).
Qed.

(** *** Entities that are not drawn *)

Lemma mem_app (x : string) (l1 l2 : list string) :
  mem x (l1 ++ l2) = (mem x l1 || mem x l2)%bool.
Proof. unfold mem. apply existsb_app. Qed.

(** X21. An entity of a type [draw_entity] neither draws nor expands is
    handed to the backend as ignored: the backend is told the entity and
    its parents, then that the entity is ignored, then that no entity is
    current; nothing else changes, and the call returns normally. A
    DIMENSION entity is of such a type: [draw_entity] does not expand
    it. *)
Theorem draw_entity_ignores_other_types (entity : DXFGraphic) (s : state) :
  mem (dxftype entity) drawn_types = false ->
  draw entity s
  = ({| ctx := ctx RenderContext DrawCall s;
        out := out RenderContext DrawCall s
               ++ [set_current_entity DrawCall (Some entity) (pstack s);
                   ignored_entity DrawCall entity;
                   set_current_entity DrawCall None []];
        parent_stack := pstack s;
        printed := printed RenderContext DrawCall s |}, Ret tt)
  /\ mem "DIMENSION" drawn_types = false.
Proof.
  intros Hm. split; [|reflexivity].
  unfold drawn_types in Hm. rewrite !mem_app in Hm.
  apply orb_false_iff in Hm as [H1 Hm]. apply orb_false_iff in Hm as [H2 Hm].
  apply orb_false_iff in Hm as [H3 Hm]. apply orb_false_iff in Hm as [H4 H5].
  unfold draw_entity. destruct (depth entity) as [|n] eqn:Hn.
  { destruct entity. discriminate Hn. }
  change (upto (S n) entity) with (body (upto n) entity).
  unfold draw_entity_body. rewrite H1, H2, H3, H4, H5.
  unfold bind, gets, call_out, modify. cbn [fst snd ctx out parent_stack printed].
  rewrite <- !app_assoc. reflexivity.
Qed.

End FrontendMore.

(** ** The frontend on a backend that records nothing *)

Section FrontendExamples.
Import Frontend.

(** An INSERT of one LINE, drawn with drawers that make no call. *)
Lemma draw_entity_balanced_witness :
  parent_stack unit unit
    (fst (draw_entity unit unit unit (fun _ _ => tt) (fun _ c => c) (fun c => c)
            (fun _ _ => ([], Ret tt)) (fun _ _ => ([], Ret tt))
            (fun _ _ => ([], Ret tt)) (fun _ _ => ([], Ret tt))
            (Entity "INSERT" ∅ 1%float [] [Entity "LINE" ∅ 1%float [] [] None] None)
            {| ctx := tt; out := []; parent_stack := []; printed := [] |}))
  = [].
Proof.
  apply (draw_entity_balanced unit unit unit (fun _ _ => tt) (fun _ c => c) (fun c => c)
           (fun _ _ => ([], Ret tt)) (fun _ _ => ([], Ret tt))
           (fun _ _ => ([], Ret tt)) (fun _ _ => ([], Ret tt))
           (Entity "INSERT" ∅ 1%float [] [Entity "LINE" ∅ 1%float [] [] None] None)
           {| ctx := tt; out := []; parent_stack := []; printed := [] |});
    vm_compute; reflexivity.
Defined.

(** A DIMENSION entity with one child: the child is not drawn. *)
Lemma draw_entity_ignores_other_types_witness :
  out unit unit
    (fst (draw_entity unit unit unit (fun _ _ => tt) (fun _ c => c) (fun c => c)
            (fun _ _ => ([], Ret tt)) (fun _ _ => ([], Ret tt))
            (fun _ _ => ([], Ret tt)) (fun _ _ => ([], Ret tt))
            (Entity "DIMENSION" ∅ 1%float [] [Entity "LINE" ∅ 1%float [] [] None] None)
            {| ctx := tt; out := []; parent_stack := []; printed := [] |}))
  = [set_current_entity unit
       (Some (Entity "DIMENSION" ∅ 1%float [] [Entity "LINE" ∅ 1%float [] [] None] None)) [];
     ignored_entity unit
       (Entity "DIMENSION" ∅ 1%float [] [Entity "LINE" ∅ 1%float [] [] None] None);
     set_current_entity unit None []].
Proof.
  destruct (draw_entity_ignores_other_types unit unit unit (fun _ _ => tt) (fun _ c => c)
              (fun c => c)
              (fun _ _ => ([], Ret tt)) (fun _ _ => ([], Ret tt))
              (fun _ _ => ([], Ret tt)) (fun _ _ => ([], Ret tt))
              (Entity "DIMENSION" ∅ 1%float [] [Entity "LINE" ∅ 1%float [] [] None] None)
              {| ctx := tt; out := []; parent_stack := []; printed := [] |} eq_refl)
    as [Hrun _].
  rewrite Hrun. reflexivity.
Defined.

End FrontendExamples.
